(** * Transaction execution of go-nebulas: a shallow embedding

    The development follows [core/transaction.go] and the deploy payload
    of package [core].  Stateful Go code (a [*Block] mutated in place) is
    written in a state-and-error monad over the block; Go's [(value, error)]
    results are values of [result].  Code the transaction engine only
    consumes (checked 128-bit arithmetic, the account state, the script
    engine, JSON, protobuf and the crypto library) is either modelled from
    its documented contract or taken as a field of [Collaborators]. *)

From Stdlib Require Import ZArith String Ascii List Lia Bool.
From Stdlib Require Import Strings.Byte DecimalString.
From stdpp Require Import base option countable gmap.

Local Open Scope string_scope.
Local Open Scope Z_scope.

(** ** Errors *)

(** The error values of package [core] met on the paths below, the two
    errors of the 128-bit integers, the balance error of the account state,
    and [ErrOther] for an error raised by a collaborator outside package
    [core] (its text is all the engine ever uses). *)
Inductive Error : Type :=
| ErrNilArgument
| ErrInvalidArgument
| ErrOutOfGasLimit
| ErrInsufficientBalance
| ErrInvalidTxPayloadType
| ErrTxDataPayLoadOutOfMaxLength
| ErrInvalidChainID
| ErrInvalidTransactionHash
| ErrInvalidTransactionSigner
| ErrContractTransactionAddressNotEqual
| ErrUint128Overflow
| ErrUint128Underflow
| ErrBalanceInsufficient
| ErrOther (msg : string).

#[global] Instance Error_eq_dec : EqDecision Error.
Proof. solve_decision. Defined.

(** A Go result [(v, err)]: [Ok v] is [(v, nil)], [Fail e] is [(nil, e)]. *)
Inductive result (A : Type) : Type :=
| Ok (a : A)
| Fail (e : Error).
Arguments Ok {A} a.
Arguments Fail {A} e.

(** What a collaborator outside package [core] returns: a value or the text
    of its error. *)
Inductive xresult (A : Type) : Type :=
| XOk (a : A)
| XFail (msg : string).
Arguments XOk {A} a.
Arguments XFail {A} msg.

Definition of_xresult {A : Type} (r : xresult A) : result A :=
  match r with
  | XOk a => Ok a
  | XFail msg => Fail (ErrOther msg)
  end.

(** ** Bytes *)

Abbreviation bytes := (list byte).

#[global] Instance byte_eq_dec : EqDecision byte := Byte.byte_eq_dec.

#[global] Instance byte_countable : Countable byte :=
  inj_countable' Byte.to_N (fun n => default x00 (Byte.of_N n))
    (fun b => f_equal (default x00) (Byte.of_to_N b)).

Definition byte_of_Z (z : Z) : byte :=
  default x00 (Byte.of_N (Z.to_N (z mod 256))).

(** [be_bytes n z]: the low [n] bytes of [z], most significant first
    ([binary.BigEndian.PutUintXX]; a negative [int64] goes through its
    two's complement, which [Z.modulo] by [2^(8n)] gives). *)
Fixpoint be_bytes (n : nat) (z : Z) : bytes :=
  match n with
  | O => []
  | S n' => be_bytes n' (z / 256) ++ [byte_of_Z z]
  end.

(** [byteutils.FromUint64], [byteutils.FromInt64], [byteutils.FromUint32]. *)
Definition FromUint64 (v : Z) : bytes := be_bytes 8 (v mod 2 ^ 64).
Definition FromInt64 (v : Z) : bytes := be_bytes 8 (v mod 2 ^ 64).
Definition FromUint32 (v : Z) : bytes := be_bytes 4 (v mod 2 ^ 32).

Definition hex_digit (n : N) : ascii :=
  if (n <? 10)%N then ascii_of_N (48 + n) else ascii_of_N (87 + n).

(** [byteutils.Hash.String]: lower-case hexadecimal. *)
Fixpoint hex_of_bytes (bs : bytes) : string :=
  match bs with
  | [] => EmptyString
  | b :: rest =>
      let n := Byte.to_N b in
      String (hex_digit (n / 16)) (String (hex_digit (n mod 16)) (hex_of_bytes rest))
  end.

(** ** Unsigned 128-bit integers *)

Module Uint128.

(** Modelled from the spec: [util.Uint128] is not among the sources under
    study.  The spec describes "an unsigned 128-bit integer with
    error-returning add, subtract, multiply, comparison, and fixed-width
    big-endian byte encoding", whose arithmetic "fails with an overflow
    error rather than wrapping".  A value is the integer it holds. *)
Definition t : Type := Z.

Definition modulus : Z := 2 ^ 128.

(** Modelled from the spec: the range check every operation ends with; a
    result outside of [0, 2^128) is an error, not a wrapped value. *)
Definition Validate (z : Z) : result t :=
  if z <? 0 then Fail ErrUint128Underflow
  else if modulus <=? z then Fail ErrUint128Overflow
  else Ok z.

(** Modelled from the spec: [util.NewUint128()], zero. *)
Definition NewUint128 : t := 0.

(** Modelled from the spec: [util.NewUint128FromInt(i int64)]. *)
Definition NewUint128FromInt (i : Z) : result t := Validate i.

(** Modelled from the spec: error-returning [u.Add(x)]. *)
Definition Add (u x : t) : result t := Validate (u + x).

(** Modelled from the spec: error-returning [u.Sub(x)]. *)
Definition Sub (u x : t) : result t := Validate (u - x).

(** Modelled from the spec: error-returning [u.Mul(x)]. *)
Definition Mul (u x : t) : result t := Validate (u * x).

(** Modelled from the spec: the comparison [u.Cmp(x)], -1, 0 or 1. *)
Definition Cmp (u x : t) : Z :=
  match u ?= x with
  | Lt => -1
  | Eq => 0
  | Gt => 1
  end.

(** Modelled from the spec: [u.Uint64()], the low 64 bits. *)
Definition Uint64 (u : t) : Z := u mod 2 ^ 64.

(** Modelled from the spec: [u.String()], decimal. *)
Definition String (u : t) : string :=
  NilZero.string_of_uint (N.to_uint (Z.to_N u)).

(** Modelled from the spec: [u.ToFixedSizeByteSlice()], the fixed-width
    big-endian encoding in sixteen bytes. *)
Definition ToFixedSizeByteSlice (u : t) : result bytes :=
  match Validate u with
  | Ok v => Ok (be_bytes 16 v)
  | Fail e => Fail e
  end.

(** Modelled from the spec: [u.DeepCopy()]. *)
Definition DeepCopy (u : t) : t := u.

End Uint128.

(** ** Addresses, accounts and the world-state snapshot *)

(** [core.Address]: a wrapper of its bytes; [Equals] compares them. *)
Record Address : Type := mkAddress { address : bytes }.

#[global] Instance Address_eq_dec : EqDecision Address.
Proof. solve_decision. Defined.

Definition Address_Equals (a b : Address) : bool := bool_decide (a = b).

(** Modelled from the spec: the account state ([core/state]) is not among
    the sources under study.  An account has a "balance (128-bit unsigned,
    never negative) and nonce, keyed by address; contract accounts
    additionally carry a reference to deployed code" (its birth place, the
    hash of the deploying transaction).  Accounts are keyed by the bytes of
    their address. *)
Record Account : Type := mkAccount {
  balance : Uint128.t;
  acc_nonce : Z;
  birthPlace : option bytes
}.

#[global] Instance Account_eq_dec : EqDecision Account.
Proof. solve_decision. Defined.

(** [core.Event]. *)
Record Event : Type := mkEvent {
  Topic : string;
  Data : string
}.

#[global] Instance Event_eq_dec : EqDecision Event.
Proof. solve_decision. Defined.

(** Modelled from the spec: [core.Block] is declared outside the sources
    under study.  The snapshot is "a mutable, cloneable view over account
    state, a transaction-result event log, and a coinbase (fee-recipient)
    address"; events are "appended to a snapshot's event log, keyed by
    transaction hash". *)
Record Block : Type := mkBlock {
  accState : gmap bytes Account;
  eventsState : list (bytes * Event);
  coinbase : Address
}.

(** ** Transactions *)

(** [corepb.Data]: the payload type tag and the raw payload bytes. *)
Record corepb_Data : Type := mkData {
  DataType : string;
  Payload : bytes
}.

(** [core.Transaction]. *)
Record Transaction : Type := mkTransaction {
  hash : bytes;
  from : Address;
  to : Address;
  value : Uint128.t;
  nonce : Z;
  timestamp : Z;
  data : corepb_Data;
  chainID : Z;
  gasPrice : Uint128.t;
  gasLimit : Uint128.t;
  alg : Z;
  sign : bytes
}.

(** [core.TransactionEvent], the record whose JSON form is an event's data. *)
Record TransactionEvent : Type := mkTransactionEvent {
  ev_Hash : string;
  ev_Status : Z;
  ev_GasUsed : string;
  ev_Error : string
}.

(** What [TxPayload.Execute] returns: the gas of the execution, the result
    string and the error, which may be set together with a gas count. *)
Definition ExecuteResult : Type := Uint128.t * string * option Error.

(** The interface [core.TxPayload]: a value of it is the pair of methods of
    some payload.  [Execute] works on the block it is given, in place. *)
Record TxPayload : Type := mkTxPayload {
  BaseGasCount : Uint128.t;
  Execute : Transaction -> Block -> ExecuteResult * Block
}.

(** [core.DeployPayload]. *)
Record DeployPayload : Type := mkDeployPayload {
  SourceType : string;
  Source : string;
  Args : string
}.

(** ** Collaborators *)

(** The script engine behind [block.nvm], as the deploy payload drives it.
    An [Engine] is the engine that [CreateEngine] set up; the deploy call
    may change the block it was bound to. *)
Record NVM : Type := mkNVM {
  Engine : Type;
  CreateEngine : Block -> Transaction -> bytes -> bytes -> xresult Engine;
  SetEngineExecutionLimits : Engine -> Z -> xresult Engine;
  DeployAndInitEngine :
    Engine -> string -> string -> string -> Block ->
    (string * option Error * Engine) * Block;
  ExecutionInstructions : Engine -> xresult Z
}.

(** Everything the code below calls and the sources under study do not
    contain: constants and helpers of package [core] declared in other
    files, and the libraries (encoding/json, protobuf, crypto, hash). *)
Record Collaborators : Type := mkCollaborators {
  (* constants of package core *)
  TxExecutionFailed : Z;
  TxExecutionSuccess : Z;
  TopicTransactionExecutionResult : string;
  (* err.Error() *)
  ErrorText : Error -> string;
  (* encoding/json and protobuf *)
  json_Unmarshal_DeployPayload : bytes -> xresult DeployPayload;
  json_Marshal_TransactionEvent : TransactionEvent -> string;
  proto_Marshal_Data : corepb_Data -> xresult bytes;
  (* hash.Sha3256 over the concatenation of its arguments *)
  Sha3256 : bytes -> bytes;
  (* crypto.NewSignature, Signature.RecoverPublic, PublicKey.Encoded *)
  Signature : Type;
  PublicKey : Type;
  NewSignature : Z -> xresult Signature;
  RecoverPublic : Signature -> bytes -> bytes -> xresult PublicKey;
  Encoded : PublicKey -> xresult bytes;
  (* core/address.go *)
  NewAddressFromPublicKey : bytes -> xresult Address;
  NewContractAddressFromHash : bytes -> xresult Address;
  (* the call payload *)
  LoadCallPayload : bytes -> xresult TxPayload;
  (* block.nvm *)
  nvm : NVM
}.

(** ** The monad of code that works on a block in place *)

Definition St (A : Type) : Type := Block -> result A * Block.

Definition ret {A : Type} (a : A) : St A := fun b => (Ok a, b).

Definition fail {A : Type} (e : Error) : St A := fun b => (Fail e, b).

Definition lift {A : Type} (r : result A) : St A := fun b => (r, b).

Definition bind {A B : Type} (m : St A) (k : A -> St B) : St B :=
  fun b =>
    match m b with
    | (Ok a, b') => k a b'
    | (Fail e, b') => (Fail e, b')
    end.

Declare Scope st_scope.
Delimit Scope st_scope with st.
Notation "x <- m ;; k" := (bind m (fun x => k))
  (at level 100, m at next level, right associativity) : st_scope.
Notation "m ;;; k" := (bind m (fun _ => k))
  (at level 100, right associativity) : st_scope.
Local Open Scope st_scope.

(** ** The account state and the block, as the engine uses them *)

Definition newAccount (birth : option bytes) : Account :=
  mkAccount Uint128.NewUint128 0 birth.

Definition set_accState (f : gmap bytes Account -> gmap bytes Account) (b : Block) : Block :=
  mkBlock (f (accState b)) (eventsState b) (coinbase b).

(** Modelled from the spec: [get_or_create_user_account(address) ->
    Account], "account lookup/creation": the account at [addr] is fetched,
    or materialized with a zero balance when there is none.  The account
    handed back is the live one of the block, named by its key. *)
Definition GetOrCreateUserAccount (addr : bytes) : St bytes :=
  fun b =>
    match accState b !! addr with
    | Some _ => (Ok addr, b)
    | None => (Ok addr, set_accState (insert addr (newAccount None)) b)
    end.

(** Modelled from the spec: [create_contract_account(address,
    code_identity) -> Account], "create a fresh contract account keyed by
    the derived address and bound to the transaction's hash as its code
    identity". *)
Definition CreateContractAccount (addr : bytes) (birth : bytes) : St bytes :=
  fun b => (Ok addr, set_accState (insert addr (newAccount (Some birth))) b).

(** Modelled from the spec: [acc.Balance()] of a live account of the block;
    an address without account reads as the zero balance a created account
    would have. *)
Definition Balance (acc : bytes) (b : Block) : Uint128.t :=
  match accState b !! acc with
  | Some a => balance a
  | None => Uint128.NewUint128
  end.

Definition set_balance (acc : bytes) (v : Uint128.t) (b : Block) : Block :=
  set_accState
    (fun m =>
       match m !! acc with
       | Some a => <[acc := mkAccount v (acc_nonce a) (birthPlace a)]> m
       | None => <[acc := mkAccount v 0 None]> m
       end) b.

(** Modelled from the spec: [sub_balance(account, amount) -> Result]; a
    balance is never negative, so taking more than the balance fails and
    changes nothing. *)
Definition SubBalance (acc : bytes) (v : Uint128.t) : St unit :=
  fun b =>
    if Uint128.Cmp (Balance acc b) v <? 0 then (Fail ErrBalanceInsufficient, b)
    else
      match Uint128.Sub (Balance acc b) v with
      | Ok n => (Ok tt, set_balance acc n b)
      | Fail e => (Fail e, b)
      end.

(** Modelled from the spec: [add_balance(account, amount) -> Result]; the sum
    is a checked 128-bit addition. *)
Definition AddBalance (acc : bytes) (v : Uint128.t) : St unit :=
  fun b =>
    match Uint128.Add (Balance acc b) v with
    | Ok n => (Ok tt, set_balance acc n b)
    | Fail e => (Fail e, b)
    end.

(** Modelled from the spec: [coinbase() -> Address]. *)
Definition Coinbase (b : Block) : Address := coinbase b.

(** Modelled from the spec: [record_event(tx_hash, Event)] appends to the
    event log of the block, under the hash of the transaction. *)
Definition recordEvent (txHash : bytes) (event : Event) : St unit :=
  fun b => (Ok tt, mkBlock (accState b) (eventsState b ++ [(txHash, event)]) (coinbase b)).

(** Modelled from the spec: [clone() -> Snapshot] "produces an independent
    child snapshot"; with blocks as values the child is the same value. *)
Definition Clone (b : Block) : result Block := Ok b.

(** Modelled from the spec: [merge(child)] "atomically folds a child's
    mutations into its parent": the parent takes over the account state and
    the event log of the child. *)
Definition Merge (block source : Block) : Block :=
  mkBlock (accState source) (eventsState source) (coinbase block).

(** Sequencing of plain results (Go's [if err != nil { return nil, err }]). *)
Definition rbind {A B : Type} (r : result A) (k : A -> result B) : result B :=
  match r with
  | Ok a => k a
  | Fail e => Fail e
  end.

Notation "x <-- r ;; k" := (rbind r (fun x => k))
  (at level 100, r at next level, right associativity) : st_scope.

Definition gets {A : Type} (f : Block -> A) : St A := fun b => (Ok (f b), b).

Definition modify (f : Block -> Block) : St unit := fun b => (Ok tt, f b).

(** ** Constants of [core/transaction.go] *)

Definition TxHashByteLength : Z := 32.
Definition TransactionMaxGasPrice : Uint128.t := 50000000000.
Definition TransactionMaxGas : Uint128.t := 50000000000.
Definition TransactionGasPrice : Uint128.t := 1000000.
Definition MinGasCountPerTransaction : Uint128.t := 20000.
Definition GasCountPerByte : Uint128.t := 1.
Definition MaxDataPayLoadLength : Z := 1024 * 1024.

(** Modelled from the spec: the payload type tags are declared outside the
    sources under study; the spec names them [binary], [deploy], [call]. *)
Definition TxPayloadBinaryType : string := "binary".
Definition TxPayloadDeployType : string := "deploy".
Definition TxPayloadCallType : string := "call".

(** [int64(x)] of an unsigned 64-bit [x]: the same bits, read signed. *)
Definition int64_of_uint64 (x : Z) : Z := (x + 2 ^ 63) mod 2 ^ 64 - 2 ^ 63.

(** ** [core/transaction.go] and the deploy payload *)

Section Engine.

Context (C : Collaborators).

(** [tx.DataLen()]. *)
Definition DataLen (tx : Transaction) : Z :=
  Z.of_nat (length (Payload (data tx))).

(** [tx.GasCountOfTxBase()]. *)
Definition GasCountOfTxBase (tx : Transaction) : result Uint128.t :=
  let txGas := Uint128.DeepCopy MinGasCountPerTransaction in
  if 0 <? DataLen tx then
    dataLen <-- Uint128.NewUint128FromInt (DataLen tx) ;;
    dataGas <-- Uint128.Mul dataLen GasCountPerByte ;;
    txGas <-- Uint128.Add txGas dataGas ;;
    Ok txGas
  else Ok txGas.

(** [tx.PayloadGasLimit(payload)]; the payload is used through its
    [BaseGasCount()] only, which is what the function takes here (and so
    there is no nil payload). *)
Definition PayloadGasLimit (tx : Transaction) (payloadBaseGasCount : Uint128.t)
  : result Uint128.t :=
  gasCountOfTxBase <-- GasCountOfTxBase tx ;;
  match Uint128.Sub (gasLimit tx) gasCountOfTxBase with
  | Fail _ => Fail ErrOutOfGasLimit
  | Ok payloadGasLimit =>
      match Uint128.Sub payloadGasLimit payloadBaseGasCount with
      | Fail _ => Fail ErrOutOfGasLimit
      | Ok payloadGasLimit => Ok payloadGasLimit
      end
  end.

(** [tx.MinBalanceRequired()]: gasprice * gaslimit + tx.value. *)
Definition MinBalanceRequired (tx : Transaction) : result Uint128.t :=
  total <-- Uint128.Mul (gasPrice tx) (gasLimit tx) ;;
  total <-- Uint128.Add total (value tx) ;;
  Ok total.

(** [tx.GenerateContractAddress()]. *)
Definition GenerateContractAddress (tx : Transaction) : result Address :=
  of_xresult
    (NewContractAddressFromHash C
       (Sha3256 C (address (from tx) ++ FromUint64 (nonce tx)))).

(** [HashTransaction(tx)]. *)
Definition HashTransaction (tx : Transaction) : result bytes :=
  value <-- Uint128.ToFixedSizeByteSlice (value tx) ;;
  data <-- of_xresult (proto_Marshal_Data C (data tx)) ;;
  gasPrice <-- Uint128.ToFixedSizeByteSlice (gasPrice tx) ;;
  gasLimit <-- Uint128.ToFixedSizeByteSlice (gasLimit tx) ;;
  Ok (Sha3256 C
        (address (from tx) ++ address (to tx) ++ value ++
         FromUint64 (nonce tx) ++ FromInt64 (timestamp tx) ++ data ++
         FromUint32 (chainID tx) ++ gasPrice ++ gasLimit)).

(** [payload.BaseGasCount()] of a deploy payload. *)
Definition DeployPayload_BaseGasCount (payload : DeployPayload) : Uint128.t :=
  Uint128.NewUint128.

(** [payload.Execute(block, tx)] of a deploy payload.  Every early return
    of the Go code is [util.NewUint128(), "", err]; the body below stops
    with [err] and the last line turns that into the triple.  Block and
    transaction are values, so the opening guard against nil has no case.
    The deferred [DisposeEngine] drops the engine and leaves the block
    alone. *)
Definition DeployPayload_Execute (payload : DeployPayload) (tx : Transaction)
  : Block -> ExecuteResult * Block :=
  fun block =>
    let body : St ExecuteResult :=
      if negb (Address_Equals (from tx) (to tx)) then
        fail ErrContractTransactionAddressNotEqual
      else
        payloadGasLimit <- lift (PayloadGasLimit tx (DeployPayload_BaseGasCount payload)) ;;
        (* payloadGasLimit <= 0, v8 engine not limit the execution instructions *)
        if Uint128.Cmp payloadGasLimit Uint128.NewUint128 <=? 0 then
          fail ErrOutOfGasLimit
        else
          addr <- lift (GenerateContractAddress tx) ;;
          owner <- GetOrCreateUserAccount (address (from tx)) ;;
          contract <- CreateContractAccount (address addr) (hash tx) ;;
          engine <- (fun b => (of_xresult (CreateEngine (nvm C) b tx owner contract), b)) ;;
          engine <- lift (of_xresult
                           (SetEngineExecutionLimits (nvm C) engine
                              (Uint128.Uint64 payloadGasLimit))) ;;
          (* Deploy and Init. *)
          run <- (fun b =>
                    let '(r, b') :=
                      DeployAndInitEngine (nvm C) engine
                        (Source payload) (SourceType payload) (Args payload) b in
                    (Ok r, b')) ;;
          let '(result, exeErr, engine) := run in
          gasCout <- lift (of_xresult (ExecutionInstructions (nvm C) engine)) ;;
          instructions <- lift (Uint128.NewUint128FromInt (int64_of_uint64 gasCout)) ;;
          ret (instructions, result, exeErr)
    in
    match body block with
    | (Ok r, block') => (r, block')
    | (Fail err, block') => ((Uint128.NewUint128, EmptyString, Some err), block')
    end.

(** A deploy payload seen through the interface [TxPayload]. *)
Definition DeployPayload_TxPayload (payload : DeployPayload) : TxPayload :=
  mkTxPayload (DeployPayload_BaseGasCount payload) (DeployPayload_Execute payload).

(** [LoadDeployPayload(bytes)]. *)
Definition LoadDeployPayload (bs : bytes) : result DeployPayload :=
  of_xresult (json_Unmarshal_DeployPayload C bs).

(** Modelled from the spec: the binary payload is declared outside the
    sources under study; it is a "plain value transfer, zero base cost, no
    execution engine involvement" and any bytes decode to one. *)
Definition BinaryPayload_TxPayload (bs : bytes) : TxPayload :=
  mkTxPayload Uint128.NewUint128
    (fun _ block => ((Uint128.NewUint128, EmptyString, None), block)).

Definition LoadBinaryPayload (bs : bytes) : result TxPayload :=
  Ok (BinaryPayload_TxPayload bs).

(** [tx.LoadPayload()]. *)
Definition LoadPayload (tx : Transaction) : result TxPayload :=
  let ty := DataType (data tx) in
  if String.eqb ty TxPayloadBinaryType then
    LoadBinaryPayload (Payload (data tx))
  else if String.eqb ty TxPayloadDeployType then
    payload <-- LoadDeployPayload (Payload (data tx)) ;;
    Ok (DeployPayload_TxPayload payload)
  else if String.eqb ty TxPayloadCallType then
    of_xresult (LoadCallPayload C (Payload (data tx)))
  else Fail ErrInvalidTxPayloadType.

(** [tx.transfer(block, from, to, value)]. *)
Definition transfer (from to : Address) (value : Uint128.t) : St unit :=
  fromAcc <- GetOrCreateUserAccount (address from) ;;
  toAcc <- GetOrCreateUserAccount (address to) ;;
  SubBalance fromAcc value ;;;
  AddBalance toAcc value.

(** [tx.recordResultEvent(block, gasUsed, err)].  [json.Marshal] has no
    error on a struct of three strings and an [int8]. *)
Definition recordResultEvent (tx : Transaction) (gasUsed : Uint128.t)
    (err : option Error) : St unit :=
  let txEvent :=
    match err with
    | Some e =>
        mkTransactionEvent (hex_of_bytes (hash tx)) (TxExecutionFailed C)
          (Uint128.String gasUsed) (ErrorText C e)
    | None =>
        mkTransactionEvent (hex_of_bytes (hash tx)) (TxExecutionSuccess C)
          (Uint128.String gasUsed) EmptyString
    end in
  let txData := json_Marshal_TransactionEvent C txEvent in
  let event := mkEvent (TopicTransactionExecutionResult C) txData in
  recordEvent (hash tx) event.

(** [tx.VerifyExecution(block)].  The block is the state of the monad; the
    child [txBlock] of step 5 is a second block, threaded by hand.  A block
    is a value here, so the opening guard [block == nil] has no case; the
    metrics marks and the debug logs touch no block and are left out. *)
Definition VerifyExecution (tx : Transaction) : St Uint128.t :=
  (* step1. check gasLimit >= GasCountOfTxBase() *)
  gasUsed <- lift (GasCountOfTxBase tx) ;;
  if Uint128.Cmp (gasLimit tx) gasUsed <? 0 then fail ErrOutOfGasLimit
  else
    (* step2. check balance >= gasLimit*gasPric + tx.value *)
    minBalanceRequired <- lift (MinBalanceRequired tx) ;;
    fromAcc <- GetOrCreateUserAccount (address (from tx)) ;;
    fromBalance <- gets (Balance fromAcc) ;;
    if Uint128.Cmp fromBalance minBalanceRequired <? 0 then
      fail ErrInsufficientBalance
    else
      (* step3. check payload vaild *)
      match LoadPayload tx with
      | Fail payloadErr =>
          gas <- lift (Uint128.Mul (gasPrice tx) gasUsed) ;;
          cb <- gets Coinbase ;;
          transfer (from tx) cb gas ;;;
          recordResultEvent tx gasUsed (Some payloadErr) ;;;
          ret gasUsed
      | Ok payload =>
          (* step4. check gasLimit > gas + payload.baseGasCount *)
          gasUsed <- lift (Uint128.Add gasUsed (BaseGasCount payload)) ;;
          if Uint128.Cmp (gasLimit tx) gasUsed <? 0 then
            gas <- lift (Uint128.Mul (gasPrice tx) (gasLimit tx)) ;;
            cb <- gets Coinbase ;;
            transfer (from tx) cb gas ;;;
            recordResultEvent tx (gasLimit tx) (Some ErrOutOfGasLimit) ;;;
            ret (gasLimit tx)
          else
            (* step5. transfer tx value *)
            txBlock <- (fun block => (Clone block, block)) ;;
            match transfer (from tx) (to tx) (value tx) txBlock with
            | (Fail err, _) => fail err
            | (Ok _, txBlock) =>
                (* step6. execute payload *)
                let '((gasExecution, _, exeErr), txBlock) :=
                  Execute payload tx txBlock in
                (* step7. gas + gasExecution *)
                gasUsed <- lift (Uint128.Add gasUsed gasExecution) ;;
                let '(gasUsed, exeErr) :=
                  if Uint128.Cmp (gasLimit tx) gasUsed <? 0
                  then (gasLimit tx, Some ErrOutOfGasLimit)
                  else (gasUsed, exeErr) in
                (* only execute success, merge the state to use *)
                match exeErr with
                | None => modify (fun block => Merge block txBlock)
                | Some _ => ret tt
                end ;;;
                (* step8. consume gas *)
                gas <- lift (Uint128.Mul (gasPrice tx) gasUsed) ;;
                cb <- gets Coinbase ;;
                transfer (from tx) cb gas ;;;
                recordResultEvent tx gas exeErr ;;;
                ret gasUsed
            end
      end.

(** [tx.verifySign()]; [Ok tt] is the nil error. *)
Definition verifySign (tx : Transaction) : result unit :=
  signature <-- of_xresult (NewSignature C (alg tx)) ;;
  pub <-- of_xresult (RecoverPublic C signature (hash tx) (sign tx)) ;;
  pubdata <-- of_xresult (Encoded C pub) ;;
  addr <-- of_xresult (NewAddressFromPublicKey C pubdata) ;;
  if negb (Address_Equals (from tx) addr) then Fail ErrInvalidTransactionSigner
  else Ok tt.

(** [tx.VerifyIntegrity(chainID)]; [Ok tt] is the nil error. *)
Definition VerifyIntegrity (tx : Transaction) (chainID' : Z) : result unit :=
  (* check ChainID. *)
  if negb (chainID tx =? chainID') then Fail ErrInvalidChainID
  else
    (* check Hash. *)
    wantedHash <-- HashTransaction tx ;;
    if negb (bool_decide (wantedHash = hash tx)) then Fail ErrInvalidTransactionHash
    else
      (* check Signature. *)
      verifySign tx.

End Engine.

(** [NewTransaction(chainID, from, to, value, nonce, payloadType, payload,
    gasPrice, gasLimit)].  The pointer arguments may be nil ([None]);
    [now] is [time.Now().Unix()].  A new transaction has no hash, algorithm
    or signature yet. *)
Definition NewTransaction (chainID : Z) (from to : option Address)
    (value : option Uint128.t) (nonce : Z) (payloadType : string)
    (payload : bytes) (gasPrice gasLimit : option Uint128.t) (now : Z)
  : result Transaction :=
  (* if gasPrice is not specified, use the default gasPrice *)
  let gasPrice :=
    match gasPrice with
    | None => TransactionGasPrice
    | Some p =>
        if Uint128.Cmp p Uint128.NewUint128 <=? 0 then TransactionGasPrice else p
    end in
  let gasLimit :=
    match gasLimit with
    | None => MinGasCountPerTransaction
    | Some l =>
        if Uint128.Cmp l Uint128.NewUint128 <=? 0 then MinGasCountPerTransaction else l
    end in
  match from, to, value with
  | Some from, Some to, Some value =>
      if MaxDataPayLoadLength <? Z.of_nat (length payload) then
        Fail ErrTxDataPayLoadOutOfMaxLength
      else
        Ok (mkTransaction [] from to value nonce now
              (mkData payloadType payload) chainID gasPrice gasLimit 0 [])
  | _, _, _ => Fail ErrInvalidArgument
  end.

(** ** A small instance of the collaborators

    Used to run the definitions on concrete transactions.  The JSON and
    crypto functions are stand-ins that agree with the real libraries on the
    few inputs they are run on: the deploy decoder knows one document, the
    event encoder writes its fields without escaping, a signature carries
    the public key it recovers to, and the hash keeps its input. *)
Module Fixture.

Definition dq : string := String "034"%char EmptyString.

Definition jstr (s : string) : string := dq ++ s ++ dq.

Definition jfield (k v : string) : string := jstr k ++ ":" ++ v.

Definition ErrorText (e : Error) : string :=
  match e with
  | ErrNilArgument => "argument(s) is nil"
  | ErrInvalidArgument => "invalid argument(s)"
  | ErrOutOfGasLimit => "out of gas limit"
  | ErrInsufficientBalance => "insufficient balance"
  | ErrInvalidTxPayloadType => "invalid transaction data payload type"
  | ErrTxDataPayLoadOutOfMaxLength => "data's payload is out of max data length"
  | ErrInvalidChainID => "invalid transaction chainID"
  | ErrInvalidTransactionHash => "invalid transaction hash"
  | ErrInvalidTransactionSigner => "invalid transaction signer"
  | ErrContractTransactionAddressNotEqual =>
      "contract transaction from-address not equal to to-address"
  | ErrUint128Overflow => "uint128: overflow"
  | ErrUint128Underflow => "uint128: underflow"
  | ErrBalanceInsufficient => "cannot subtract a value which is bigger than current balance"
  | ErrOther msg => msg
  end.

Definition json_Marshal_TransactionEvent (ev : TransactionEvent) : string :=
  "{" ++ jfield "hash" (jstr (ev_Hash ev)) ++ "," ++
  jfield "status" (Uint128.String (ev_Status ev)) ++ "," ++
  jfield "gas_used" (jstr (ev_GasUsed ev)) ++ "," ++
  jfield "error" (jstr (ev_Error ev)) ++ "}".

Definition counter : DeployPayload :=
  mkDeployPayload "js" "module.exports = function () {};" EmptyString.

(** [payload.ToBytes()] of a deploy payload without characters to escape. *)
Definition DeployPayload_ToBytes (p : DeployPayload) : bytes :=
  list_byte_of_string
    ("{" ++ jfield "SourceType" (jstr (SourceType p)) ++ "," ++
     jfield "Source" (jstr (Source p)) ++ "," ++
     jfield "Args" (jstr (Args p)) ++ "}").

Definition json_Unmarshal_DeployPayload (bs : bytes) : xresult DeployPayload :=
  if bool_decide (bs = DeployPayload_ToBytes counter) then XOk counter
  else XFail "invalid character looking for beginning of value".

Definition proto_Marshal_Data (d : corepb_Data) : xresult bytes :=
  XOk (app (list_byte_of_string (DataType d)) (Payload d)).

(** An engine that leaves the block as it found it: it can be created or
    not, counts [instructions] for a deployment and reports [exeErr]. *)
Definition nvm_of (available : bool) (instructions : Z) (exeErr : option Error) : NVM :=
  mkNVM Z
    (fun _ _ _ _ => if available then XOk 0 else XFail "engine unavailable")
    (fun _ limit => XOk limit)
    (fun engine _ _ _ block => ((EmptyString, exeErr, engine), block))
    (fun _ => XOk instructions).

(** A call payload of base gas 60 whose execution does nothing. *)
Definition LoadCallPayload (bs : bytes) : xresult TxPayload :=
  XOk (mkTxPayload 60
         (fun _ block => ((Uint128.NewUint128, EmptyString, None), block))).

Definition with_nvm (engine : NVM) : Collaborators :=
  mkCollaborators
    0 1 "chain.transactionResult"
    ErrorText
    json_Unmarshal_DeployPayload
    json_Marshal_TransactionEvent
    proto_Marshal_Data
    (fun bs => bs)
    unit bytes
    (fun alg => if alg =? 1 then XOk tt else XFail "invalid algorithm")
    (fun _ _ sign => XOk sign)
    (fun pub => XOk pub)
    (fun pub => XOk (mkAddress pub))
    (fun h => XOk (mkAddress h))
    LoadCallPayload
    engine.

(** The usual collaborators: every deployment succeeds after 100
    instructions. *)
Definition collaborators : Collaborators := with_nvm (nvm_of true 100 None).

Definition alice : Address := mkAddress [x0a].
Definition bob : Address := mkAddress [x0b].
Definition miner : Address := mkAddress [x0c].

(** A block where alice owns [n] and nobody else has an account. *)
Definition block_of (n : Uint128.t) : Block :=
  mkBlock {[ address alice := mkAccount n 0 None ]} [] miner.

(** A transaction with no hash or signature, timestamp 0, chain 1, nonce 1. *)
Definition tx_of (from to : Address) (value : Uint128.t) (ty : string)
    (payload : bytes) (gasPrice gasLimit : Uint128.t) : Transaction :=
  mkTransaction [] from to value 1 0 (mkData ty payload) 1 gasPrice gasLimit 0 [].

(** [tx] with its hash recomputed and stored, under a signature that
    recovers to the address [signer]. *)
Definition signed (signer : Address) (tx : Transaction) : Transaction :=
  match HashTransaction collaborators tx with
  | Ok h =>
      mkTransaction h (from tx) (to tx) (value tx) (nonce tx) (timestamp tx)
        (data tx) (chainID tx) (gasPrice tx) (gasLimit tx) 1 (address signer)
  | Fail _ => tx
  end.

Definition transfer100 : Transaction :=
  tx_of alice bob 100 "binary" [] 1000000 21000.

(** A deployment of [counter] by [from], addressed to [to]. *)
Definition deploy_of (from to : Address) (gasPrice gasLimit : Uint128.t) : Transaction :=
  tx_of from to 0 "deploy" (DeployPayload_ToBytes counter) gasPrice gasLimit.


(** Where a deployment of alice with nonce 1 puts its contract (the
    stand-in hash keeps its input). *)
Definition contract_of_alice : Address :=
  mkAddress (app (address alice) (FromUint64 1)).

End Fixture.

(** * The rest of [core/transaction.go] and the genesis checks *)

(** ** Signing *)

(** The interface [keystore.Signature] as [Sign] uses it. *)
Record Signer : Type := mkSigner {
  Signer_Sign : bytes -> xresult bytes;
  Signer_Algorithm : Z
}.

(** [tx.Sign(signature)].  The transaction is written in place: what comes
    back is the error and the transaction afterwards; a nil signature is
    [None]. *)
Definition Sign (C : Collaborators) (tx : Transaction) (signature : option Signer)
  : result unit * Transaction :=
  match signature with
  | None => (Fail ErrNilArgument, tx)
  | Some signature =>
      match HashTransaction C tx with
      | Fail err => (Fail err, tx)
      | Ok hash =>
          match of_xresult (Signer_Sign signature hash) with
          | Fail err => (Fail err, tx)
          | Ok sign =>
              (Ok tt,
               mkTransaction hash (from tx) (to tx) (value tx) (nonce tx)
                 (timestamp tx) (data tx) (chainID tx) (gasPrice tx) (gasLimit tx)
                 (Signer_Algorithm signature) sign)
          end
      end
  end.

(** ** Dry runs *)

(** [tx.LocalExecution(block)]: the Go triple [(gas, result, err)], a nil
    gas being [None].  [begin] and the deferred [rollback] act on the clone
    [txBlock], which is dropped when the call returns. *)
Definition LocalExecution (C : Collaborators) (tx : Transaction) (block : option Block)
  : option Uint128.t * string * option Error :=
  match block with
  | None => (None, EmptyString, Some ErrNilArgument)
  | Some block =>
      match Clone block with
      | Fail err => (None, EmptyString, Some err)
      | Ok txBlock =>
          match LoadPayload C tx with
          | Fail err => (None, EmptyString, Some err)
          | Ok payload =>
              match GasCountOfTxBase tx with
              | Fail err => (None, EmptyString, Some err)
              | Ok gasUsed =>
                  match Uint128.Add gasUsed (BaseGasCount payload) with
                  | Fail err => (None, EmptyString, Some err)
                  | Ok gasUsed =>
                      let '((gasExecution, result, exeErr), _) :=
                        Execute payload tx txBlock in
                      match Uint128.Add gasUsed gasExecution with
                      | Fail err => (None, result, Some err)
                      | Ok gasUsed => (Some gasUsed, result, exeErr)
                      end
                  end
              end
          end
      end
  end.

(** ** Wire form *)

(** [corepb.Transaction]; [Data] is a pointer and may be nil. *)
Record corepb_Transaction : Type := mkPbTransaction {
  pb_Hash : bytes;
  pb_From : bytes;
  pb_To : bytes;
  pb_Value : bytes;
  pb_Nonce : Z;
  pb_Timestamp : Z;
  pb_Data : option corepb_Data;
  pb_ChainId : Z;
  pb_GasPrice : bytes;
  pb_GasLimit : bytes;
  pb_Alg : Z;
  pb_Sign : bytes
}.

(** A [proto.Message]: a transaction message or a message of another type. *)
Inductive proto_Message : Type :=
| Msg_Transaction (msg : corepb_Transaction)
| Msg_Other.

(** The errors of the conversions: those of [Error] and the two of package
    [core] that only [FromProto] raises. *)
Inductive ConvError : Type :=
| ErrCore (e : Error)
| ErrInvalidTransactionData
| ErrCannotConvertTransaction.

(** The decoders [FromProto] calls and the conversions between
    [keystore.Algorithm] and [uint32]; none is among the sources under
    study. *)
Record Codecs : Type := mkCodecs {
  AddressParseFromBytes : bytes -> xresult Address;
  NewUint128FromFixedSizeByteSlice : bytes -> xresult Uint128.t;
  uint32_of_Algorithm : Z -> Z;
  Algorithm_of_uint32 : Z -> Z
}.

(** [tx.ToProto()]. *)
Definition ToProto (K : Codecs) (tx : Transaction) : result corepb_Transaction :=
  value <-- Uint128.ToFixedSizeByteSlice (value tx) ;;
  gasPrice <-- Uint128.ToFixedSizeByteSlice (gasPrice tx) ;;
  gasLimit <-- Uint128.ToFixedSizeByteSlice (gasLimit tx) ;;
  Ok (mkPbTransaction (hash tx) (address (from tx)) (address (to tx)) value
        (nonce tx) (timestamp tx) (Some (data tx)) (chainID tx) gasPrice gasLimit
        (uint32_of_Algorithm K (alg tx)) (sign tx)).

Definition set_hash (v : bytes) (tx : Transaction) : Transaction :=
  mkTransaction v (from tx) (to tx) (value tx) (nonce tx) (timestamp tx) (data tx)
    (chainID tx) (gasPrice tx) (gasLimit tx) (alg tx) (sign tx).

Definition set_from (v : Address) (tx : Transaction) : Transaction :=
  mkTransaction (hash tx) v (to tx) (value tx) (nonce tx) (timestamp tx) (data tx)
    (chainID tx) (gasPrice tx) (gasLimit tx) (alg tx) (sign tx).

Definition set_to (v : Address) (tx : Transaction) : Transaction :=
  mkTransaction (hash tx) (from tx) v (value tx) (nonce tx) (timestamp tx) (data tx)
    (chainID tx) (gasPrice tx) (gasLimit tx) (alg tx) (sign tx).

(** [tx.value = v; tx.nonce = n; tx.timestamp = t]. *)
Definition set_value_nonce_timestamp (v : Uint128.t) (n t : Z) (tx : Transaction)
  : Transaction :=
  mkTransaction (hash tx) (from tx) (to tx) v n t (data tx)
    (chainID tx) (gasPrice tx) (gasLimit tx) (alg tx) (sign tx).

(** [tx.data = d; tx.chainID = c]. *)
Definition set_data_chainID (d : corepb_Data) (c : Z) (tx : Transaction) : Transaction :=
  mkTransaction (hash tx) (from tx) (to tx) (value tx) (nonce tx) (timestamp tx) d
    c (gasPrice tx) (gasLimit tx) (alg tx) (sign tx).

Definition set_gasPrice (v : Uint128.t) (tx : Transaction) : Transaction :=
  mkTransaction (hash tx) (from tx) (to tx) (value tx) (nonce tx) (timestamp tx) (data tx)
    (chainID tx) v (gasLimit tx) (alg tx) (sign tx).

(** [tx.gasLimit = v; tx.alg = a; tx.sign = s]. *)
Definition set_gasLimit_alg_sign (v : Uint128.t) (a : Z) (s : bytes) (tx : Transaction)
  : Transaction :=
  mkTransaction (hash tx) (from tx) (to tx) (value tx) (nonce tx) (timestamp tx) (data tx)
    (chainID tx) (gasPrice tx) v a s.

(** [tx.FromProto(msg)].  The receiver is written field by field, so an
    error in the middle leaves the fields assigned before it: what comes
    back is the error ([None] for nil) and the receiver afterwards. *)
Definition FromProto (K : Codecs) (tx : Transaction) (msg : proto_Message)
  : option ConvError * Transaction :=
  match msg with
  | Msg_Transaction msg =>
      let tx := set_hash (pb_Hash msg) tx in
      match AddressParseFromBytes K (pb_From msg) with
      | XFail err => (Some (ErrCore (ErrOther err)), tx)
      | XOk from =>
      let tx := set_from from tx in
      match AddressParseFromBytes K (pb_To msg) with
      | XFail err => (Some (ErrCore (ErrOther err)), tx)
      | XOk to =>
      let tx := set_to to tx in
      match NewUint128FromFixedSizeByteSlice K (pb_Value msg) with
      | XFail err => (Some (ErrCore (ErrOther err)), tx)
      | XOk value =>
      let tx := set_value_nonce_timestamp value (pb_Nonce msg) (pb_Timestamp msg) tx in
      match pb_Data msg with
      | None => (Some ErrInvalidTransactionData, tx)
      | Some data =>
      if MaxDataPayLoadLength <? Z.of_nat (length (Payload data)) then
        (Some (ErrCore ErrTxDataPayLoadOutOfMaxLength), tx)
      else
      let tx := set_data_chainID data (pb_ChainId msg) tx in
      match NewUint128FromFixedSizeByteSlice K (pb_GasPrice msg) with
      | XFail err => (Some (ErrCore (ErrOther err)), tx)
      | XOk gasPrice =>
      let tx := set_gasPrice gasPrice tx in
      match NewUint128FromFixedSizeByteSlice K (pb_GasLimit msg) with
      | XFail err => (Some (ErrCore (ErrOther err)), tx)
      | XOk gasLimit =>
      (None,
       set_gasLimit_alg_sign gasLimit (Algorithm_of_uint32 K (pb_Alg msg)) (pb_Sign msg) tx)
      end end end end end end
  | Msg_Other => (Some ErrCannotConvertTransaction, tx)
  end.

(** ** The genesis configuration *)

(** [corepb.GenesisTokenDistribution]. *)
Record GenesisTokenDistribution : Type := mkGenesisTokenDistribution {
  gtd_Address : string;
  gtd_Value : string
}.

#[global] Instance GenesisTokenDistribution_eq_dec : EqDecision GenesisTokenDistribution.
Proof. solve_decision. Defined.

(** [corepb.Genesis], with the nested messages flattened: [Meta.ChainId],
    [Consensus.Dpos.Dynasty] and [TokenDistribution]. *)
Record Genesis : Type := mkGenesis {
  Meta_ChainId : Z;
  Dpos_Dynasty : list string;
  TokenDistribution : list GenesisTokenDistribution
}.

(** The errors of [CheckGenesisConfByDB]. *)
Inductive GenesisError : Type :=
| ErrGenesisNotEqualChainIDInDB
| ErrGenesisNotEqualDynastyLenInDB
| ErrGenesisNotEqualTokenLenInDB
| ErrGenesisNotEqualDynastyInDB
| ErrGenesisNotEqualTokenInDB.

(** The loop "check dpos equal": every address of the configuration must
    occur in the dynasty of the database. *)
Fixpoint check_dynasty (conf db : list string) : option GenesisError :=
  match conf with
  | [] => None
  | confDposAddr :: rest =>
      if existsb (fun dposAddr => String.eqb dposAddr confDposAddr) db
      then check_dynasty rest db
      else Some ErrGenesisNotEqualDynastyInDB
  end.

(** The loop "check distribution equal": every entry of the configuration
    must occur, address and value, in the distribution of the database. *)
Fixpoint check_distribution (conf db : list GenesisTokenDistribution)
  : option GenesisError :=
  match conf with
  | [] => None
  | confDistribution :: rest =>
      if existsb
           (fun distribution =>
              String.eqb (gtd_Address distribution) (gtd_Address confDistribution) &&
              String.eqb (gtd_Value distribution) (gtd_Value confDistribution))
           db
      then check_distribution rest db
      else Some ErrGenesisNotEqualTokenInDB
  end.

(** [CheckGenesisConfByDB(pGenesisDB, pGenesis)]; [None] is the nil error,
    and the nil database configuration is [None]. *)
Definition CheckGenesisConfByDB (pGenesisDB : option Genesis) (pGenesis : Genesis)
  : option GenesisError :=
  match pGenesisDB with
  | Some pGenesisDB =>
      if negb (Meta_ChainId pGenesis =? Meta_ChainId pGenesisDB) then
        Some ErrGenesisNotEqualChainIDInDB
      else if negb (length (Dpos_Dynasty pGenesis) =? length (Dpos_Dynasty pGenesisDB))%nat then
        Some ErrGenesisNotEqualDynastyLenInDB
      else if negb (length (TokenDistribution pGenesis) =?
                    length (TokenDistribution pGenesisDB))%nat then
        Some ErrGenesisNotEqualTokenLenInDB
      else
        match check_dynasty (Dpos_Dynasty pGenesis) (Dpos_Dynasty pGenesisDB) with
        | Some err => Some err
        | None =>
            check_distribution (TokenDistribution pGenesis) (TokenDistribution pGenesisDB)
        end
  | None => None
  end.

(** ** More sample data *)
Module Samples.

(** Big-endian bytes read back as a number. *)
Definition Z_of_be_bytes (bs : bytes) : Z :=
  fold_left (fun acc b => acc * 256 + Z.of_N (Byte.to_N b)) bs 0.

(** Decoders that accept any address bytes and any sixteen bytes of
    number; algorithms are kept as they are. *)
Definition codecs : Codecs :=
  mkCodecs
    (fun bs => XOk (mkAddress bs))
    (fun bs => if (length bs =? 16)%nat then XOk (Z_of_be_bytes bs)
               else XFail "uint128: invalid bytes size")
    (fun a => a)
    (fun a => a).

(** A signer whose signature recovers (with the stand-in crypto) to the
    address [who]. *)
Definition signer_of (who : Address) : Signer :=
  mkSigner (fun _ => XOk (address who)) 1.

Definition empty_tx : Transaction :=
  mkTransaction [] (mkAddress []) (mkAddress []) 0 0 0 (mkData EmptyString []) 0 0 0 0 [].

End Samples.

(** ** Definitions used to state the properties *)

(** The gas price and the gas limit [NewTransaction] is to settle on: the
    default for a nil or non-positive argument. *)
Definition effective_gas (default : Uint128.t) (given : option Uint128.t) : Uint128.t :=
  match given with
  | None => default
  | Some g => if g <=? 0 then default else g
  end.

(** The address derived from the public key recovered from the stored hash
    and the signature of a transaction. *)
Definition recoveredAddress (C : Collaborators) (tx : Transaction) : result Address :=
  signature <-- of_xresult (NewSignature C (alg tx)) ;;
  pub <-- of_xresult (RecoverPublic C signature (hash tx) (sign tx)) ;;
  pubdata <-- of_xresult (Encoded C pub) ;;
  of_xresult (NewAddressFromPublicKey C pubdata).

(** The block a deployment hands to the engine: the sender's account is
    there (fetched or materialized) and a fresh contract account sits at
    [addr], born from the transaction. *)
Definition deploy_accounts (tx : Transaction) (addr : Address) (block : Block) : Block :=
  snd (CreateContractAccount (address addr) (hash tx)
         (snd (GetOrCreateUserAccount (address (from tx)) block))).

(** The block after [GetOrCreateUserAccount addr]. *)
Definition materialize (addr : bytes) (b : Block) : Block :=
  snd (GetOrCreateUserAccount addr b).

(** The block after [v] has moved from the balance of [src] to that of
    [dst]; an account that was missing is there afterwards. *)
Definition pay (src dst : bytes) (v : Uint128.t) (b : Block) : Block :=
  let b1 := set_balance src (Balance src b - v) b in
  set_balance dst (Balance dst b1 + v) b1.

(** The execution-result event of [tx] for [gasUsed] and [err]. *)
Definition result_event (C : Collaborators) (tx : Transaction) (gasUsed : Uint128.t)
    (err : option Error) : Event :=
  mkEvent (TopicTransactionExecutionResult C)
    (json_Marshal_TransactionEvent C
       (mkTransactionEvent (hex_of_bytes (hash tx))
          (match err with Some _ => TxExecutionFailed C | None => TxExecutionSuccess C end)
          (Uint128.String gasUsed)
          (match err with Some e => ErrorText C e | None => EmptyString end))).

(** The block with one more event. *)
Definition with_event (txHash : bytes) (ev : Event) (b : Block) : Block :=
  mkBlock (accState b) (eventsState b ++ [(txHash, ev)]) (coinbase b).

(** [b'] is [b] after the sender of [tx] has paid [fee] to the coinbase and
    nothing else has happened to the accounts: the two balances have moved
    by [fee] (not at all when the sender is the coinbase), every other
    address is as it was, and every contract account of [b'] is one of [b]. *)
Definition charged (tx : Transaction) (fee : Uint128.t) (b b' : Block) : Prop :=
  let f := address (from tx) in
  let c := address (coinbase b) in
  coinbase b' = coinbase b /\
  (f <> c -> Balance f b' = Balance f b - fee /\ Balance c b' = Balance c b + fee) /\
  (f = c -> Balance f b' = Balance f b) /\
  (forall a, a <> f -> a <> c -> accState b' !! a = accState b !! a) /\
  (forall a acc' code,
     accState b' !! a = Some acc' -> birthPlace acc' = Some code ->
     exists acc, accState b !! a = Some acc /\ birthPlace acc = Some code).

(** Step 8 of [VerifyExecution] on its own (the lines from "consume gas" to
    the end): the outer block pays for [gasUsed] and gets the result event
    for [exeErr]. *)
Definition fee_settlement (C : Collaborators) (tx : Transaction)
    (gasUsed : Uint128.t) (exeErr : option Error) : St Uint128.t :=
  gas <- lift (Uint128.Mul (gasPrice tx) gasUsed) ;;
  cb <- gets Coinbase ;;
  transfer (from tx) cb gas ;;;
  recordResultEvent C tx gas exeErr ;;;
  ret gasUsed.

(** The errors of the arithmetic and of the account state: the ones a
    failing step of the engine itself can raise. *)
Definition infrastructure_error (e : Error) : Prop :=
  e = ErrUint128Overflow \/ e = ErrUint128Underflow \/ e = ErrBalanceInsufficient.

(** * Properties *)

(** ** Checked arithmetic *)

Lemma Validate_ok (z : Z) :
  0 <= z < Uint128.modulus -> Uint128.Validate z = Ok z.
Proof.
  intros [Hlo Hhi]. unfold Uint128.Validate.
  destruct (Z.ltb_spec z 0); [lia |].
  destruct (Z.leb_spec Uint128.modulus z); [lia | reflexivity].
Qed.

Lemma Validate_inv (z v : Z) :
  Uint128.Validate z = Ok v -> v = z /\ 0 <= z < Uint128.modulus.
Proof.
  unfold Uint128.Validate.
  destruct (Z.ltb_spec z 0); [discriminate |].
  destruct (Z.leb_spec Uint128.modulus z); [discriminate |].
  intros [= <-]. lia.
Qed.

Lemma Validate_overflow (z : Z) :
  Uint128.modulus <= z -> Uint128.Validate z = Fail ErrUint128Overflow.
Proof.
  intros H. unfold Uint128.Validate.
  assert (0 < Uint128.modulus) by reflexivity.
  destruct (Z.ltb_spec z 0); [lia |].
  destruct (Z.leb_spec Uint128.modulus z); [reflexivity | lia].
Qed.

Lemma Validate_underflow (z : Z) :
  z < 0 -> Uint128.Validate z = Fail ErrUint128Underflow.
Proof.
  intros H. unfold Uint128.Validate.
  destruct (Z.ltb_spec z 0); [reflexivity | lia].
Qed.

Lemma Cmp_ltb (u x : Z) : (Uint128.Cmp u x <? 0) = (u <? x).
Proof.
  unfold Uint128.Cmp, Z.ltb at 2. destruct (u ?= x); reflexivity.
Qed.

Lemma Cmp_leb (u x : Z) : (Uint128.Cmp u x <=? 0) = (u <=? x).
Proof.
  unfold Uint128.Cmp, Z.leb at 2. destruct (u ?= x); reflexivity.
Qed.

(** ** Gas accounting *)

Lemma DataLen_nonneg (tx : Transaction) : 0 <= DataLen tx.
Proof. unfold DataLen. lia. Qed.

(** [GasCountOfTxBase] is the base gas plus one unit per payload byte. *)
Lemma GasCountOfTxBase_ok (tx : Transaction) :
  MinGasCountPerTransaction + DataLen tx < Uint128.modulus ->
  GasCountOfTxBase tx = Ok (MinGasCountPerTransaction + DataLen tx * GasCountPerByte).
Proof.
  intros Hlt. pose proof (DataLen_nonneg tx) as Hn.
  unfold GasCountOfTxBase, Uint128.DeepCopy, MinGasCountPerTransaction, GasCountPerByte in *.
  destruct (Z.ltb_spec 0 (DataLen tx)) as [Hpos | Hz].
  - unfold Uint128.NewUint128FromInt, Uint128.Mul, Uint128.Add.
    rewrite Validate_ok by lia. cbn [rbind].
    rewrite Validate_ok by lia. cbn [rbind].
    rewrite Validate_ok by lia. reflexivity.
  - f_equal. lia.
Qed.

(** Whatever [GasCountOfTxBase] returns is a 128-bit value, at least the
    minimum gas of a transaction. *)
Lemma GasCountOfTxBase_inv (tx : Transaction) (g : Uint128.t) :
  GasCountOfTxBase tx = Ok g ->
  g = MinGasCountPerTransaction + DataLen tx /\ 0 <= g < Uint128.modulus.
Proof.
  pose proof (DataLen_nonneg tx) as Hn.
  unfold GasCountOfTxBase, Uint128.DeepCopy, MinGasCountPerTransaction, GasCountPerByte.
  destruct (Z.ltb_spec 0 (DataLen tx)) as [Hpos | Hz].
  - unfold Uint128.NewUint128FromInt, Uint128.Mul, Uint128.Add.
    destruct (Uint128.Validate (DataLen tx)) as [a |] eqn:Ha; [| discriminate].
    apply Validate_inv in Ha as [-> _]. cbn [rbind].
    destruct (Uint128.Validate (DataLen tx * 1)) as [c |] eqn:Hc; [| discriminate].
    apply Validate_inv in Hc as [-> _]. cbn [rbind].
    destruct (Uint128.Validate (20000 + DataLen tx * 1)) as [d |] eqn:Hd; [| discriminate].
    apply Validate_inv in Hd as [-> Hr]. cbn [rbind].
    intros [= <-]. lia.
  - intros [= <-]. split; [lia |]. split; [lia | reflexivity].
Qed.

(** ** C7: the minimum balance a sender needs *)

(** C7.  When [gas_price * gas_limit] and then the addition of [value] fit in
    an unsigned 128-bit integer, [MinBalanceRequired] returns exactly
    [gas_price * gas_limit + value]; when the multiplication overflows 128
    bits, or the multiplication fits and the addition overflows, it returns
    the overflow error and no wrapped value. *)
Theorem MinBalanceRequired_exact_or_overflow (tx : Transaction) :
  (0 <= gasPrice tx * gasLimit tx < Uint128.modulus ->
   0 <= gasPrice tx * gasLimit tx + value tx < Uint128.modulus ->
   MinBalanceRequired tx = Ok (gasPrice tx * gasLimit tx + value tx)) /\
  (Uint128.modulus <= gasPrice tx * gasLimit tx ->
   MinBalanceRequired tx = Fail ErrUint128Overflow) /\
  (0 <= gasPrice tx * gasLimit tx < Uint128.modulus ->
   Uint128.modulus <= gasPrice tx * gasLimit tx + value tx ->
   MinBalanceRequired tx = Fail ErrUint128Overflow).
Proof.
  unfold MinBalanceRequired, Uint128.Mul, Uint128.Add.
  split; [| split].
  - intros Hm Ha. rewrite Validate_ok by exact Hm. cbn [rbind].
    rewrite Validate_ok by exact Ha. reflexivity.
  - intros Hm. rewrite Validate_overflow by exact Hm. reflexivity.
  - intros Hm Ha. rewrite Validate_ok by exact Hm. cbn [rbind].
    rewrite Validate_overflow by exact Ha. reflexivity.
Qed.

(** The three cases of C7 on concrete transactions: an ordinary one, one
    whose product is [2^64 * 2^64], and one whose sum is [2^128]. *)
Lemma MinBalanceRequired_exact_or_overflow_witness :
  MinBalanceRequired (Fixture.tx_of Fixture.alice Fixture.bob 100 "binary" [] 1000000 21000)
    = Ok 21000000100 /\
  MinBalanceRequired (Fixture.tx_of Fixture.alice Fixture.bob 0 "binary" [] (2 ^ 64) (2 ^ 64))
    = Fail ErrUint128Overflow /\
  MinBalanceRequired (Fixture.tx_of Fixture.alice Fixture.bob 1 "binary" [] (2 ^ 128 - 1) 1)
    = Fail ErrUint128Overflow.
Proof.
  split; [| split].
  - apply (proj1 (MinBalanceRequired_exact_or_overflow
             (Fixture.tx_of Fixture.alice Fixture.bob 100 "binary" [] 1000000 21000)));
      vm_compute; split; congruence.
  - apply (proj1 (proj2 (MinBalanceRequired_exact_or_overflow
             (Fixture.tx_of Fixture.alice Fixture.bob 0 "binary" [] (2 ^ 64) (2 ^ 64)))));
      vm_compute; congruence.
  - apply (proj2 (proj2 (MinBalanceRequired_exact_or_overflow
             (Fixture.tx_of Fixture.alice Fixture.bob 1 "binary" [] (2 ^ 128 - 1) 1))));
      vm_compute; try split; congruence.
Defined.

(** ** C9: the base gas of a deploy payload *)

(** C9.  [BaseGasCount()] of a deploy payload is zero whatever its source,
    source type and arguments are, so adding it to the running gas at the
    payload-gas check of [VerifyExecution] succeeds and leaves exactly
    [GasCountOfTxBase]. *)
Theorem DeployPayload_BaseGasCount_zero (C : Collaborators) (payload : DeployPayload) :
  DeployPayload_BaseGasCount payload = 0 /\
  BaseGasCount (DeployPayload_TxPayload C payload) = 0 /\
  forall (tx : Transaction) (g : Uint128.t),
    GasCountOfTxBase tx = Ok g ->
    Uint128.Add g (BaseGasCount (DeployPayload_TxPayload C payload)) = Ok g.
Proof.
  split; [reflexivity |]. split; [reflexivity |].
  intros tx g Hg. apply GasCountOfTxBase_inv in Hg as [_ Hr].
  cbn [DeployPayload_TxPayload BaseGasCount].
  unfold DeployPayload_BaseGasCount, Uint128.NewUint128, Uint128.Add.
  rewrite Z.add_0_r. apply Validate_ok, Hr.
Qed.

Lemma DeployPayload_BaseGasCount_zero_witness :
  Uint128.Add 20073
    (BaseGasCount (DeployPayload_TxPayload Fixture.collaborators Fixture.counter))
  = Ok 20073.
Proof.
  apply (proj2 (proj2 (DeployPayload_BaseGasCount_zero Fixture.collaborators Fixture.counter))
           (Fixture.tx_of Fixture.alice Fixture.alice 0 "deploy"
              (Fixture.DeployPayload_ToBytes Fixture.counter) 1 30000)).
  vm_compute. reflexivity.
Defined.

(** ** C10: the defaults of [NewTransaction] *)

(** C10.  In every transaction [NewTransaction] builds, a nil or non-positive
    [gasLimit] argument has been replaced by the default minimum gas count
    20000, and a nil or non-positive [gasPrice] by the default gas price
    10^6; both fields are therefore strictly positive. *)
Theorem NewTransaction_gas_defaults
    (chainID : Z) (from to : option Address) (value : option Uint128.t)
    (nonce : Z) (payloadType : string) (payload : bytes)
    (gasPrice' gasLimit' : option Uint128.t) (now : Z) (tx : Transaction) :
  NewTransaction chainID from to value nonce payloadType payload gasPrice' gasLimit' now
    = Ok tx ->
  gasLimit tx = effective_gas 20000 gasLimit' /\
  gasPrice tx = effective_gas (10 ^ 6) gasPrice' /\
  0 < gasPrice tx /\ 0 < gasLimit tx.
Proof.
  unfold NewTransaction.
  destruct from as [f |]; [| discriminate].
  destruct to as [t |]; [| discriminate].
  destruct value as [v |]; [| discriminate].
  destruct (MaxDataPayLoadLength <? Z.of_nat (length payload)); [discriminate |].
  intros [= <-]. cbn [gasLimit gasPrice].
  unfold effective_gas, TransactionGasPrice, MinGasCountPerTransaction, Uint128.NewUint128.
  destruct gasPrice' as [p |], gasLimit' as [l |]; rewrite ?Cmp_leb;
    repeat match goal with
           | |- context [?x <=? 0] => destruct (Z.leb_spec x 0)
           end; repeat split; lia.
Qed.

(** [NewTransaction] with a zero gas limit and no gas price. *)
Lemma NewTransaction_gas_defaults_witness :
  exists tx,
    NewTransaction 1 (Some Fixture.alice) (Some Fixture.bob) (Some 5) 1 "binary" []
      None (Some 0) 1500000000 = Ok tx /\
    gasLimit tx = 20000 /\ gasPrice tx = 1000000.
Proof.
  eexists. split; [reflexivity |].
  pose proof (NewTransaction_gas_defaults 1 (Some Fixture.alice) (Some Fixture.bob) (Some 5)
                1 "binary" [] None (Some 0) 1500000000 _ eq_refl) as (Hl & Hp & _).
  split; [exact Hl | exact Hp].
Defined.

(** ** C6: integrity of a transaction *)

Lemma verifySign_recoveredAddress (C : Collaborators) (tx : Transaction) :
  verifySign C tx =
  match recoveredAddress C tx with
  | Ok addr => if negb (Address_Equals (from tx) addr)
               then Fail ErrInvalidTransactionSigner else Ok tt
  | Fail e => Fail e
  end.
Proof.
  unfold verifySign, recoveredAddress.
  destruct (NewSignature C (alg tx)) as [s |]; [| reflexivity]. cbn [of_xresult rbind].
  destruct (RecoverPublic C s (hash tx) (sign tx)) as [p |]; [| reflexivity].
  cbn [of_xresult rbind].
  destruct (Encoded C p) as [d |]; [| reflexivity]. cbn [of_xresult rbind].
  destruct (NewAddressFromPublicKey C d) as [a |]; reflexivity.
Qed.

(** A collaborator never fails with an error of package [core]. *)
Lemma recoveredAddress_Fail (C : Collaborators) (tx : Transaction) (e : Error) :
  recoveredAddress C tx = Fail e -> exists msg, e = ErrOther msg.
Proof.
  unfold recoveredAddress.
  destruct (NewSignature C (alg tx)) as [s | m]; cbn [of_xresult rbind];
    [| intros [= <-]; eauto].
  destruct (RecoverPublic C s (hash tx) (sign tx)) as [p | m]; cbn [of_xresult rbind];
    [| intros [= <-]; eauto].
  destruct (Encoded C p) as [d | m]; cbn [of_xresult rbind]; [| intros [= <-]; eauto].
  destruct (NewAddressFromPublicKey C d) as [a | m]; cbn [of_xresult];
    [discriminate | intros [= <-]; eauto].
Qed.

(** C6.  [VerifyIntegrity] checks in this order: a chain id other than the
    expected one gives [ErrInvalidChainID]; otherwise a recomputed hash other
    than the stored one gives [ErrInvalidTransactionHash]; otherwise the
    answer is that of the signature check, which is
    [ErrInvalidTransactionSigner] exactly when an address is derived from
    the public key recovered from (stored hash, signature) and it differs
    from [from], and is nil exactly when that address is [from]. *)
Theorem VerifyIntegrity_order (C : Collaborators) (tx : Transaction) (expected : Z) :
  (chainID tx <> expected ->
   VerifyIntegrity C tx expected = Fail ErrInvalidChainID) /\
  (forall wanted,
     chainID tx = expected ->
     HashTransaction C tx = Ok wanted ->
     wanted <> hash tx ->
     VerifyIntegrity C tx expected = Fail ErrInvalidTransactionHash) /\
  (chainID tx = expected ->
   HashTransaction C tx = Ok (hash tx) ->
   (VerifyIntegrity C tx expected = Fail ErrInvalidTransactionSigner <->
    exists addr, recoveredAddress C tx = Ok addr /\ addr <> from tx) /\
   (VerifyIntegrity C tx expected = Ok tt <->
    recoveredAddress C tx = Ok (from tx))).
Proof.
  unfold VerifyIntegrity. split; [| split].
  - intros Hne. destruct (Z.eqb_spec (chainID tx) expected); [contradiction | reflexivity].
  - intros wanted Hc Hh Hne.
    destruct (Z.eqb_spec (chainID tx) expected); [| contradiction]. cbn [negb].
    rewrite Hh. cbn [rbind]. rewrite bool_decide_eq_false_2 by exact Hne. reflexivity.
  - intros Hc Hh.
    destruct (Z.eqb_spec (chainID tx) expected); [| contradiction]. cbn [negb].
    rewrite Hh. cbn [rbind]. rewrite bool_decide_eq_true_2 by reflexivity. cbn [negb].
    rewrite verifySign_recoveredAddress. unfold Address_Equals.
    destruct (recoveredAddress C tx) as [addr | err] eqn:Hr.
    + destruct (decide (from tx = addr)) as [Heq | Hne].
      * rewrite bool_decide_eq_true_2 by exact Heq. cbn [negb]. split; split.
        -- discriminate.
        -- intros (a & [= <-] & Ha). congruence.
        -- intros _. congruence.
        -- reflexivity.
      * rewrite bool_decide_eq_false_2 by exact Hne. cbn [negb]. split; split.
        -- intros _. exists addr. split; [reflexivity | congruence].
        -- reflexivity.
        -- discriminate.
        -- intros [= ->]. contradiction.
    + apply recoveredAddress_Fail in Hr as Hm. destruct Hm as [msg ->]. split; split.
      * discriminate.
      * intros (a & Ha & _). discriminate.
      * discriminate.
      * discriminate.
Qed.

(** The four outcomes of C6 on a transfer of alice: verified on another
    chain, verified unsigned (no stored hash), signed by bob, signed by
    alice. *)
Lemma VerifyIntegrity_order_witness :
  VerifyIntegrity Fixture.collaborators Fixture.transfer100 2 = Fail ErrInvalidChainID /\
  VerifyIntegrity Fixture.collaborators Fixture.transfer100 1
    = Fail ErrInvalidTransactionHash /\
  VerifyIntegrity Fixture.collaborators (Fixture.signed Fixture.bob Fixture.transfer100) 1
    = Fail ErrInvalidTransactionSigner /\
  VerifyIntegrity Fixture.collaborators (Fixture.signed Fixture.alice Fixture.transfer100) 1
    = Ok tt.
Proof.
  split; [| split; [| split]].
  - apply (proj1 (VerifyIntegrity_order Fixture.collaborators Fixture.transfer100 2)).
    vm_compute. congruence.
  - eapply (proj1 (proj2 (VerifyIntegrity_order Fixture.collaborators Fixture.transfer100 1))).
    + reflexivity.
    + vm_compute. reflexivity.
    + vm_compute. congruence.
  - apply (proj2 (proj2 (VerifyIntegrity_order Fixture.collaborators
                           (Fixture.signed Fixture.bob Fixture.transfer100) 1))
             eq_refl eq_refl).
    exists Fixture.bob. split; [reflexivity | vm_compute; congruence].
  - apply (proj2 (proj2 (VerifyIntegrity_order Fixture.collaborators
                           (Fixture.signed Fixture.alice Fixture.transfer100) 1))
             eq_refl eq_refl).
    reflexivity.
Defined.

(** ** C8: the preconditions of a deployment *)

Lemma PayloadGasLimit_ok (tx : Transaction) (base g : Uint128.t) :
  GasCountOfTxBase tx = Ok g ->
  0 <= gasLimit tx - g - base ->
  0 <= base ->
  gasLimit tx - g < Uint128.modulus ->
  PayloadGasLimit tx base = Ok (gasLimit tx - g - base).
Proof.
  intros Hg Hlo Hb Hhi. unfold PayloadGasLimit, Uint128.Sub. rewrite Hg. cbn [rbind].
  rewrite Validate_ok by lia. rewrite Validate_ok by lia. reflexivity.
Qed.

(** C8.  [Execute] of a deploy payload checks, in this order and before
    anything else: [from] must equal [to], else the answer is
    [ErrContractTransactionAddressNotEqual]; the payload gas limit
    [gasLimit - GasCountOfTxBase - BaseGasCount] must be strictly positive,
    else the answer is [ErrOutOfGasLimit].  Both answers come with zero gas,
    an empty result and the block untouched, whatever the collaborators are.
    When both checks pass and the contract address is derived, the engine is
    created on a block that holds the sender's account and the new contract
    account. *)
Theorem DeployPayload_Execute_preconditions
    (C : Collaborators) (payload : DeployPayload) (tx : Transaction) (block : Block) :
  (from tx <> to tx ->
   DeployPayload_Execute C payload tx block =
   ((0, EmptyString, Some ErrContractTransactionAddressNotEqual), block)) /\
  (forall g,
     from tx = to tx ->
     GasCountOfTxBase tx = Ok g ->
     gasLimit tx - g - DeployPayload_BaseGasCount payload <= 0 ->
     DeployPayload_Execute C payload tx block =
     ((0, EmptyString, Some ErrOutOfGasLimit), block)) /\
  (forall g addr msg,
     from tx = to tx ->
     GasCountOfTxBase tx = Ok g ->
     0 < gasLimit tx - g - DeployPayload_BaseGasCount payload ->
     gasLimit tx < Uint128.modulus ->
     GenerateContractAddress C tx = Ok addr ->
     CreateEngine (nvm C) (deploy_accounts tx addr block) tx
       (address (from tx)) (address addr) = XFail msg ->
     DeployPayload_Execute C payload tx block =
     ((0, EmptyString, Some (ErrOther msg)), deploy_accounts tx addr block)).
Proof.
  unfold DeployPayload_Execute, Address_Equals, DeployPayload_BaseGasCount, Uint128.NewUint128.
  split; [| split].
  - intros Hne. rewrite bool_decide_eq_false_2 by exact Hne. reflexivity.
  - intros g Heq Hg Hle. rewrite bool_decide_eq_true_2 by exact Heq. cbn [negb].
    unfold bind, lift, fail, PayloadGasLimit, Uint128.Sub. rewrite Hg. cbn [rbind].
    destruct (Z.lt_ge_cases (gasLimit tx - g) 0) as [Hneg | Hnn].
    + rewrite Validate_underflow by exact Hneg. reflexivity.
    + assert (gasLimit tx - g = 0) as -> by lia.
      reflexivity.
  - intros g addr msg Heq Hg Hpos Hlim Haddr Heng.
    rewrite bool_decide_eq_true_2 by exact Heq. cbn [negb].
    pose proof (GasCountOfTxBase_inv _ _ Hg) as [_ Hgr].
    unfold bind at 1, lift at 1.
    rewrite (PayloadGasLimit_ok tx 0 g Hg) by lia.
    rewrite Cmp_leb. destruct (Z.leb_spec (gasLimit tx - g - 0) 0) as [Hc | _]; [lia |].
    unfold bind at 1, lift at 1. rewrite Haddr.
    unfold deploy_accounts in Heng |- *.
    unfold bind, GetOrCreateUserAccount, CreateContractAccount in Heng |- *.
    destruct (accState block !! address (from tx)); cbn [fst snd] in Heng |- *;
      rewrite Heng; reflexivity.
Qed.

(** The three cases of C8 on deployments of 73 bytes (base gas 20073) run on
    a block where alice owns 10^6: addressed to bob; addressed to alice
    with a gas limit of exactly the base gas; addressed to alice with gas
    to spare while no engine can be created. *)
Lemma DeployPayload_Execute_preconditions_witness :
  DeployPayload_Execute Fixture.collaborators Fixture.counter
    (Fixture.deploy_of Fixture.alice Fixture.bob 1 30000) (Fixture.block_of 1000000)
  = ((0, EmptyString, Some ErrContractTransactionAddressNotEqual), Fixture.block_of 1000000) /\
  DeployPayload_Execute Fixture.collaborators Fixture.counter
    (Fixture.deploy_of Fixture.alice Fixture.alice 1 20073) (Fixture.block_of 1000000)
  = ((0, EmptyString, Some ErrOutOfGasLimit), Fixture.block_of 1000000) /\
  exists addr,
    DeployPayload_Execute (Fixture.with_nvm (Fixture.nvm_of false 100 None)) Fixture.counter
      (Fixture.deploy_of Fixture.alice Fixture.alice 1 30000) (Fixture.block_of 1000000)
    = ((0, EmptyString, Some (ErrOther "engine unavailable")),
       deploy_accounts (Fixture.deploy_of Fixture.alice Fixture.alice 1 30000) addr
         (Fixture.block_of 1000000)) /\
    accState (deploy_accounts (Fixture.deploy_of Fixture.alice Fixture.alice 1 30000) addr
                (Fixture.block_of 1000000)) !! address addr
    = Some (mkAccount 0 0 (Some [])).
Proof.
  split; [| split].
  - apply (proj1 (DeployPayload_Execute_preconditions Fixture.collaborators Fixture.counter
                    (Fixture.deploy_of Fixture.alice Fixture.bob 1 30000)
                    (Fixture.block_of 1000000))).
    vm_compute. congruence.
  - apply (proj1 (proj2 (DeployPayload_Execute_preconditions Fixture.collaborators
                           Fixture.counter
                           (Fixture.deploy_of Fixture.alice Fixture.alice 1 20073)
                           (Fixture.block_of 1000000))) 20073).
    + reflexivity.
    + vm_compute. reflexivity.
    + vm_compute. congruence.
  - eexists. split.
    + apply (proj2 (proj2 (DeployPayload_Execute_preconditions
                             (Fixture.with_nvm (Fixture.nvm_of false 100 None))
                             Fixture.counter
                             (Fixture.deploy_of Fixture.alice Fixture.alice 1 30000)
                             (Fixture.block_of 1000000))) 20073).
      * reflexivity.
      * vm_compute. reflexivity.
      * vm_compute. reflexivity.
      * vm_compute. reflexivity.
      * vm_compute. reflexivity.
      * reflexivity.
    + vm_compute. reflexivity.
Defined.

(** ** Accounts and transfers *)

Lemma GetOrCreateUserAccount_eq (addr : bytes) (b : Block) :
  GetOrCreateUserAccount addr b = (Ok addr, materialize addr b).
Proof.
  unfold materialize, GetOrCreateUserAccount.
  destruct (accState b !! addr); reflexivity.
Qed.

Lemma materialize_present (addr : bytes) (b : Block) :
  is_Some (accState b !! addr) -> materialize addr b = b.
Proof.
  intros [acc Hacc]. unfold materialize, GetOrCreateUserAccount. rewrite Hacc. reflexivity.
Qed.

Lemma materialize_absent (addr : bytes) (b : Block) :
  accState b !! addr = None ->
  materialize addr b = set_accState (insert addr (newAccount None)) b.
Proof.
  intros Hacc. unfold materialize, GetOrCreateUserAccount. rewrite Hacc. reflexivity.
Qed.

Lemma materialize_lookup_ne (addr a : bytes) (b : Block) :
  a <> addr -> accState (materialize addr b) !! a = accState b !! a.
Proof.
  intros Hne. unfold materialize, GetOrCreateUserAccount.
  destruct (accState b !! addr); cbn; [reflexivity |].
  apply lookup_insert_ne. congruence.
Qed.

Lemma Balance_materialize (addr a : bytes) (b : Block) :
  Balance a (materialize addr b) = Balance a b.
Proof.
  unfold Balance. destruct (decide (a = addr)) as [-> | Hne].
  - unfold materialize, GetOrCreateUserAccount.
    destruct (accState b !! addr) as [acc |] eqn:Hacc; cbn.
    + rewrite Hacc. reflexivity.
    + rewrite lookup_insert_eq. reflexivity.
  - rewrite materialize_lookup_ne by exact Hne. reflexivity.
Qed.

Lemma materialize_events (addr : bytes) (b : Block) :
  eventsState (materialize addr b) = eventsState b.
Proof.
  unfold materialize, GetOrCreateUserAccount. destruct (accState b !! addr); reflexivity.
Qed.

Lemma materialize_coinbase (addr : bytes) (b : Block) :
  coinbase (materialize addr b) = coinbase b.
Proof.
  unfold materialize, GetOrCreateUserAccount. destruct (accState b !! addr); reflexivity.
Qed.

Lemma Balance_set_balance (acc a : bytes) (v : Uint128.t) (b : Block) :
  Balance a (set_balance acc v b) = if decide (a = acc) then v else Balance a b.
Proof.
  unfold Balance, set_balance, set_accState. cbn [accState].
  destruct (decide (a = acc)) as [-> | Hne].
  - destruct (accState b !! acc); rewrite lookup_insert_eq; reflexivity.
  - destruct (accState b !! acc); rewrite lookup_insert_ne by congruence; reflexivity.
Qed.

Lemma set_balance_lookup_ne (acc a : bytes) (v : Uint128.t) (b : Block) :
  a <> acc -> accState (set_balance acc v b) !! a = accState b !! a.
Proof.
  intros Hne. unfold set_balance, set_accState. cbn [accState].
  destruct (accState b !! acc); apply lookup_insert_ne; congruence.
Qed.

Lemma set_balance_materialize (acc : bytes) (v : Uint128.t) (b : Block) :
  set_balance acc v (materialize acc b) = set_balance acc v b.
Proof.
  unfold materialize, GetOrCreateUserAccount.
  destruct (accState b !! acc) as [a |] eqn:Ha; cbn [snd]; [reflexivity |].
  unfold set_balance, set_accState. cbn [accState eventsState coinbase].
  rewrite lookup_insert_eq, Ha. cbn [newAccount acc_nonce birthPlace].
  rewrite insert_insert_eq. reflexivity.
Qed.

(** A contract account of [set_balance acc v b] is one of [b]. *)
Lemma set_balance_birthPlace (acc a : bytes) (v : Uint128.t) (b : Block)
    (acc' : Account) (code : bytes) :
  accState (set_balance acc v b) !! a = Some acc' ->
  birthPlace acc' = Some code ->
  exists old, accState b !! a = Some old /\ birthPlace old = Some code.
Proof.
  destruct (decide (a = acc)) as [-> | Hne].
  - unfold set_balance, set_accState. cbn [accState].
    destruct (accState b !! acc) as [old |] eqn:Hold; rewrite lookup_insert_eq;
      intros [= <-]; cbn [birthPlace]; intros Hb; [eauto | discriminate].
  - rewrite set_balance_lookup_ne by exact Hne. eauto.
Qed.

Lemma block_ext (b b' : Block) :
  (forall a, accState b !! a = accState b' !! a) ->
  eventsState b = eventsState b' ->
  coinbase b = coinbase b' ->
  b = b'.
Proof.
  destruct b as [m ev cb], b' as [m' ev' cb']. cbn. intros Hm -> ->.
  f_equal. apply map_eq. exact Hm.
Qed.

Lemma set_balance_lookup (acc a : bytes) (v : Uint128.t) (b : Block) :
  accState (set_balance acc v b) !! a =
  if decide (a = acc)
  then Some (mkAccount v
               (acc_nonce (default (newAccount None) (accState b !! acc)))
               (birthPlace (default (newAccount None) (accState b !! acc))))
  else accState b !! a.
Proof.
  destruct (decide (a = acc)) as [-> | Hne].
  - unfold set_balance, set_accState. cbn [accState].
    destruct (accState b !! acc); rewrite lookup_insert_eq; reflexivity.
  - apply set_balance_lookup_ne, Hne.
Qed.

Lemma materialize_lookup (addr a : bytes) (b : Block) :
  accState (materialize addr b) !! a =
  if decide (a = addr)
  then Some (default (newAccount None) (accState b !! addr))
  else accState b !! a.
Proof.
  destruct (decide (a = addr)) as [-> | Hne].
  - unfold materialize, GetOrCreateUserAccount.
    destruct (accState b !! addr) as [acc |] eqn:Hacc; cbn.
    + exact Hacc.
    + apply lookup_insert_eq.
  - apply materialize_lookup_ne, Hne.
Qed.

Lemma set_balance_events (acc : bytes) (v : Uint128.t) (b : Block) :
  eventsState (set_balance acc v b) = eventsState b.
Proof. reflexivity. Qed.

Lemma set_balance_coinbase (acc : bytes) (v : Uint128.t) (b : Block) :
  coinbase (set_balance acc v b) = coinbase b.
Proof. reflexivity. Qed.

(** Paying on a block where the two accounts have been materialized is
    paying on the block itself. *)
Lemma pay_materialize (src dst : bytes) (v : Uint128.t) (b : Block) :
  set_balance dst
    (Balance dst (set_balance src (Balance src b - v)
                    (materialize dst (materialize src b))) + v)
    (set_balance src (Balance src b - v) (materialize dst (materialize src b)))
  = pay src dst v b.
Proof.
  unfold pay. apply block_ext.
  - intros a.
    rewrite !Balance_set_balance, !Balance_materialize.
    rewrite !set_balance_lookup, !materialize_lookup.
    destruct (decide (a = dst)) as [-> | Had].
    + destruct (decide (dst = src)) as [-> | Hds].
      * rewrite decide_True by reflexivity. reflexivity.
      * rewrite !decide_True by reflexivity.
        destruct (accState b !! dst); reflexivity.
    + destruct (decide (a = src)) as [-> | Has]; [| reflexivity].
      destruct (decide (src = dst)) as [-> | Hsd]; [contradiction |].
      rewrite decide_True by reflexivity.
      destruct (accState b !! src); reflexivity.
  - rewrite !set_balance_events, !materialize_events. reflexivity.
  - rewrite !set_balance_coinbase, !materialize_coinbase. reflexivity.
Qed.

(** A transfer the sender can afford and the recipient can hold succeeds
    and is [pay]. *)
Lemma transfer_ok (src dst : Address) (v : Uint128.t) (b : Block) :
  0 <= v <= Balance (address src) b ->
  Balance (address src) b < Uint128.modulus ->
  0 <= Balance (address dst) b + v < Uint128.modulus ->
  transfer src dst v b = (Ok tt, pay (address src) (address dst) v b).
Proof.
  intros Hv Hsrc Hdst. unfold transfer, bind.
  rewrite !GetOrCreateUserAccount_eq.
  set (b2 := materialize (address dst) (materialize (address src) b)).
  assert (Hbal : forall a, Balance a b2 = Balance a b).
  { intros a. unfold b2. rewrite !Balance_materialize. reflexivity. }
  unfold SubBalance. rewrite Cmp_ltb, Hbal.
  destruct (Z.ltb_spec (Balance (address src) b) v) as [Hlt | _]; [lia |].
  unfold Uint128.Sub. rewrite Validate_ok by lia.
  unfold AddBalance, Uint128.Add.
  rewrite <- pay_materialize. fold b2.
  rewrite Validate_ok; [reflexivity |].
  rewrite Balance_set_balance, Hbal.
  destruct (decide (address dst = address src)) as [Heq | Hne]; [| exact Hdst].
  rewrite Heq in Hdst. lia.
Qed.

Lemma pay_after_materialize (src dst : bytes) (v : Uint128.t) (b : Block) :
  pay src dst v (materialize src b) = pay src dst v b.
Proof.
  unfold pay. apply block_ext.
  - intros a.
    rewrite !Balance_set_balance, !Balance_materialize.
    rewrite !set_balance_lookup, !materialize_lookup.
    destruct (decide (a = dst)) as [-> | Had].
    + destruct (decide (dst = src)) as [-> | Hds].
      * rewrite ?decide_True by reflexivity.
        destruct (accState b !! src); reflexivity.
      * reflexivity.
    + destruct (decide (a = src)) as [-> | Has]; [| reflexivity].
      rewrite ?decide_True by reflexivity.
      destruct (accState b !! src); reflexivity.
  - rewrite !set_balance_events, !materialize_events. reflexivity.
  - rewrite !set_balance_coinbase, !materialize_coinbase. reflexivity.
Qed.

Lemma Balance_with_event (a txHash : bytes) (ev : Event) (b : Block) :
  Balance a (with_event txHash ev b) = Balance a b.
Proof. reflexivity. Qed.

Lemma Balance_pay (src dst a : bytes) (v : Uint128.t) (b : Block) :
  Balance a (pay src dst v b) =
  if decide (a = dst)
  then (if decide (dst = src) then Balance src b else Balance dst b + v)
  else if decide (a = src) then Balance src b - v else Balance a b.
Proof.
  unfold pay. rewrite !Balance_set_balance.
  destruct (decide (a = dst)) as [-> | Had]; [| reflexivity].
  destruct (decide (dst = src)); [lia | reflexivity].
Qed.

Lemma pay_charged (tx : Transaction) (fee : Uint128.t) (b : Block)
    (txHash : bytes) (ev : Event) :
  charged tx fee b
    (with_event txHash ev (pay (address (from tx)) (address (coinbase b)) fee b)).
Proof.
  unfold charged.
  set (f := address (from tx)). set (c := address (coinbase b)).
  rewrite !Balance_with_event, !Balance_pay.
  split; [reflexivity |]. split; [| split; [| split]].
  - intros Hne.
    rewrite (decide_False (P := f = c)) by exact Hne.
    rewrite (decide_False (P := c = f)) by congruence.
    rewrite !decide_True by reflexivity. split; reflexivity.
  - intros Heq. rewrite <- Heq. rewrite !decide_True by reflexivity. reflexivity.
  - intros a Haf Hac. unfold with_event, pay. cbn [accState].
    rewrite !set_balance_lookup_ne by assumption. reflexivity.
  - intros a acc' code. unfold with_event, pay. cbn [accState]. intros Hl Hb.
    destruct (set_balance_birthPlace _ _ _ _ _ _ Hl Hb) as (mid & Hmid & Hbm).
    exact (set_balance_birthPlace _ _ _ _ _ _ Hmid Hbm).
Qed.

(** The fee settlement that closes three paths of [VerifyExecution]: the
    sender pays [gasPrice * count] to the coinbase, the result event is
    recorded with the gas figure [evgas] makes of the fee, and [count']
    goes back to the caller. *)
Lemma fee_settlement_ok (C : Collaborators) (tx : Transaction)
    (count count' : Uint128.t) (evgas : Uint128.t -> Uint128.t)
    (err : option Error) (b : Block) :
  0 <= gasPrice tx * count <= Balance (address (from tx)) b ->
  Balance (address (from tx)) b < Uint128.modulus ->
  0 <= Balance (address (coinbase b)) b + gasPrice tx * count < Uint128.modulus ->
  (gas <- lift (Uint128.Mul (gasPrice tx) count) ;;
   cb <- gets Coinbase ;;
   transfer (from tx) cb gas ;;;
   recordResultEvent C tx (evgas gas) err ;;;
   ret count')%st b
  = (Ok count',
     with_event (hash tx) (result_event C tx (evgas (gasPrice tx * count)) err)
       (pay (address (from tx)) (address (coinbase b)) (gasPrice tx * count) b)).
Proof.
  intros Hfee Hsrc Hdst.
  unfold bind at 1, lift at 1, Uint128.Mul. rewrite Validate_ok by lia.
  unfold bind at 1, gets at 1, Coinbase.
  unfold bind at 1. rewrite transfer_ok by assumption.
  unfold bind, recordResultEvent, recordEvent, ret, with_event, result_event.
  destruct err; reflexivity.
Qed.

(** ** C1: the two admission checks *)

(** C1, as the code has it.  A transaction rejected at the base-gas check
    leaves the block exactly as it was.  A transaction rejected at the
    balance check moves no balance, pays no fee and records no event; the
    block is unchanged when the sender already has an account, and
    otherwise its only change is the sender's account, materialized with a
    zero balance by the account lookup that precedes the check. *)
Theorem VerifyExecution_admission_rejections
    (C : Collaborators) (tx : Transaction) (b : Block) :
  (forall g,
     GasCountOfTxBase tx = Ok g ->
     gasLimit tx < g ->
     VerifyExecution C tx b = (Fail ErrOutOfGasLimit, b)) /\
  (forall g m,
     GasCountOfTxBase tx = Ok g ->
     g <= gasLimit tx ->
     MinBalanceRequired tx = Ok m ->
     Balance (address (from tx)) b < m ->
     exists b',
       VerifyExecution C tx b = (Fail ErrInsufficientBalance, b') /\
       eventsState b' = eventsState b /\
       coinbase b' = coinbase b /\
       (forall a, Balance a b' = Balance a b) /\
       (forall a, a <> address (from tx) -> accState b' !! a = accState b !! a) /\
       (is_Some (accState b !! address (from tx)) -> b' = b) /\
       (accState b !! address (from tx) = None ->
        accState b' = <[address (from tx) := newAccount None]> (accState b))).
Proof.
  split.
  - intros g Hg Hlt. unfold VerifyExecution.
    unfold bind at 1, lift at 1. rewrite Hg, Cmp_ltb.
    destruct (Z.ltb_spec (gasLimit tx) g) as [_ | Hge]; [reflexivity | lia].
  - intros g m Hg Hle Hm Hbal. exists (materialize (address (from tx)) b).
    split; [| split; [| split; [| split; [| split; [| split]]]]].
    + unfold VerifyExecution.
      unfold bind at 1, lift at 1. rewrite Hg, Cmp_ltb.
      destruct (Z.ltb_spec (gasLimit tx) g) as [Hlt | _]; [lia |].
      unfold bind at 1, lift at 1. rewrite Hm.
      unfold bind at 1. rewrite GetOrCreateUserAccount_eq.
      unfold bind at 1, gets at 1. rewrite Cmp_ltb, Balance_materialize.
      destruct (Z.ltb_spec (Balance (address (from tx)) b) m) as [_ | Hge];
        [reflexivity | lia].
    + apply materialize_events.
    + apply materialize_coinbase.
    + intros a. apply Balance_materialize.
    + intros a Hne. apply materialize_lookup_ne, Hne.
    + apply materialize_present.
    + intros Hnone. rewrite materialize_absent by exact Hnone. reflexivity.
Qed.

(** C1 on two rejected transfers run on a block where alice owns 10^6 and
    bob has no account: one of alice with a gas limit below the base gas,
    one of alice asking for more than she owns. *)
Lemma VerifyExecution_admission_rejections_witness :
  VerifyExecution Fixture.collaborators
    (Fixture.tx_of Fixture.alice Fixture.bob 100 "binary" [] 1 19999)
    (Fixture.block_of 1000000)
  = (Fail ErrOutOfGasLimit, Fixture.block_of 1000000) /\
  VerifyExecution Fixture.collaborators
    (Fixture.tx_of Fixture.alice Fixture.bob 100 "binary" [] 1000000 21000)
    (Fixture.block_of 1000000)
  = (Fail ErrInsufficientBalance, Fixture.block_of 1000000).
Proof.
  split.
  - apply (proj1 (VerifyExecution_admission_rejections Fixture.collaborators
                    (Fixture.tx_of Fixture.alice Fixture.bob 100 "binary" [] 1 19999)
                    (Fixture.block_of 1000000)) 20000).
    + reflexivity.
    + vm_compute. reflexivity.
  - destruct (proj2 (VerifyExecution_admission_rejections Fixture.collaborators
                       (Fixture.tx_of Fixture.alice Fixture.bob 100 "binary" [] 1000000 21000)
                       (Fixture.block_of 1000000)) 20000 21000000100)
      as (b' & Hrun & _ & _ & _ & _ & Hsame & _).
    + reflexivity.
    + vm_compute. congruence.
    + reflexivity.
    + vm_compute. reflexivity.
    + rewrite Hrun. f_equal. apply Hsame. vm_compute. eauto.
Defined.

(** The claim that a rejection at the balance check leaves the block
    unchanged fails when the sender has no account yet: bob, unknown to the
    block, sends a transaction he cannot pay for, and an empty account of
    bob is in the block afterwards. *)
Lemma VerifyExecution_balance_rejection_creates_account :
  let tx := Fixture.tx_of Fixture.bob Fixture.alice 0 "binary" [] 1 20000 in
  let b := Fixture.block_of 1000000 in
  fst (VerifyExecution Fixture.collaborators tx b) = Fail ErrInsufficientBalance /\
  accState b !! address Fixture.bob = None /\
  accState (snd (VerifyExecution Fixture.collaborators tx b)) !! address Fixture.bob
    = Some (mkAccount 0 0 None) /\
  snd (VerifyExecution Fixture.collaborators tx b) <> b.
Proof.
  cbv zeta. split; [vm_compute; reflexivity |].
  split; [vm_compute; reflexivity |].
  split; [vm_compute; reflexivity |].
  intros Heq.
  assert (H : accState (snd (VerifyExecution Fixture.collaborators
                               (Fixture.tx_of Fixture.bob Fixture.alice 0 "binary" [] 1 20000)
                               (Fixture.block_of 1000000))) !! address Fixture.bob
              = accState (Fixture.block_of 1000000) !! address Fixture.bob)
    by (rewrite Heq; reflexivity).
  vm_compute in H. discriminate H.
Qed.

(** ** The paths of [VerifyExecution] past the admission checks *)

Lemma MinBalanceRequired_inv (tx : Transaction) (m : Uint128.t) :
  MinBalanceRequired tx = Ok m ->
  m = gasPrice tx * gasLimit tx + value tx /\
  0 <= gasPrice tx * gasLimit tx < Uint128.modulus /\
  0 <= m < Uint128.modulus.
Proof.
  unfold MinBalanceRequired, Uint128.Mul, Uint128.Add.
  destruct (Uint128.Validate (gasPrice tx * gasLimit tx)) as [p |] eqn:Hp; [| discriminate].
  apply Validate_inv in Hp as [-> Hpr]. cbn [rbind].
  destruct (Uint128.Validate (gasPrice tx * gasLimit tx + value tx)) as [s |] eqn:Hs;
    [| discriminate].
  apply Validate_inv in Hs as [-> Hsr]. cbn [rbind]. intros [= <-]. auto.
Qed.

(** A fee of at most [gasLimit] gas units is covered by a balance that
    passed the balance check. *)
Lemma fee_covered (tx : Transaction) (m g count : Uint128.t) :
  GasCountOfTxBase tx = Ok g ->
  MinBalanceRequired tx = Ok m ->
  0 <= gasPrice tx -> 0 <= value tx ->
  0 <= count <= gasLimit tx ->
  0 <= gasPrice tx * count <= m.
Proof.
  intros Hg Hm Hp Hv Hc.
  apply MinBalanceRequired_inv in Hm as (-> & Hmul & _). nia.
Qed.

(** Steps 1 and 2 of [VerifyExecution] on a transaction that passes them:
    what is left runs on the block where the sender's account is
    materialized. *)
Ltac pass_admission Hg Hm :=
  unfold VerifyExecution;
  unfold bind at 1, lift at 1; rewrite Hg, Cmp_ltb;
  match goal with
  | |- context [?x <? ?y] => destruct (Z.ltb_spec x y); [lia |]
  end;
  unfold bind at 1, lift at 1; rewrite Hm;
  unfold bind at 1; rewrite GetOrCreateUserAccount_eq;
  unfold bind at 1, gets at 1; rewrite Cmp_ltb, Balance_materialize;
  match goal with
  | |- context [?x <? ?y] => destruct (Z.ltb_spec x y); [lia |]
  end.

(** ** C5: a payload that does not decode *)

(** C5.  A transaction that passes the base-gas and balance checks and
    whose payload fails to decode pays exactly
    [gasPrice * GasCountOfTxBase] to the coinbase on the block it was given,
    gets a failure event with that gas count and the text of the decode
    error, and [VerifyExecution] returns [(GasCountOfTxBase, nil)]: the
    decode error does not reach the caller.  (The fields of the transaction
    are unsigned, the sender's balance is a 128-bit value and the coinbase
    can hold the fee.) *)
Theorem VerifyExecution_undecodable_payload
    (C : Collaborators) (tx : Transaction) (b : Block)
    (g m : Uint128.t) (payloadErr : Error) :
  GasCountOfTxBase tx = Ok g ->
  g <= gasLimit tx ->
  MinBalanceRequired tx = Ok m ->
  m <= Balance (address (from tx)) b ->
  LoadPayload C tx = Fail payloadErr ->
  0 <= gasPrice tx -> 0 <= value tx ->
  Balance (address (from tx)) b < Uint128.modulus ->
  0 <= Balance (address (coinbase b)) b + gasPrice tx * g < Uint128.modulus ->
  let b' :=
    with_event (hash tx) (result_event C tx g (Some payloadErr))
      (pay (address (from tx)) (address (coinbase b)) (gasPrice tx * g) b) in
  VerifyExecution C tx b = (Ok g, b') /\
  charged tx (gasPrice tx * g) b b' /\
  eventsState b' =
    (eventsState b ++ [(hash tx, result_event C tx g (Some payloadErr))])%list /\
  Data (result_event C tx g (Some payloadErr)) =
    json_Marshal_TransactionEvent C
      (mkTransactionEvent (hex_of_bytes (hash tx)) (TxExecutionFailed C)
         (Uint128.String g) (ErrorText C payloadErr)).
Proof.
  intros Hg Hle Hm Hbal Hload Hp Hv Hsrc Hcb.
  pose proof (GasCountOfTxBase_inv _ _ Hg) as [Hgeq Hgr].
  assert (Hfee : 0 <= gasPrice tx * g <= m).
  { apply (fee_covered tx m g g Hg Hm Hp Hv). unfold MinGasCountPerTransaction in Hgeq.
    pose proof (DataLen_nonneg tx). lia. }
  cbv zeta. split; [| split; [| split]].
  - pass_admission Hg Hm. rewrite Hload.
    rewrite (fee_settlement_ok C tx g g (fun _ => g) (Some payloadErr)
               (materialize (address (from tx)) b)).
    + rewrite materialize_coinbase, pay_after_materialize. reflexivity.
    + rewrite Balance_materialize. lia.
    + rewrite Balance_materialize. exact Hsrc.
    + rewrite materialize_coinbase, Balance_materialize. exact Hcb.
  - apply pay_charged.
  - reflexivity.
  - reflexivity.
Qed.

(** C5 on a transaction of alice with an unknown payload type, gas price 2
    and gas limit 20000, run on a block where alice owns 10^6: the fee is
    40000, the gas returned 20000. *)
Lemma VerifyExecution_undecodable_payload_witness :
  exists b',
    VerifyExecution Fixture.collaborators
      (Fixture.tx_of Fixture.alice Fixture.bob 0 "transfer" [] 2 20000)
      (Fixture.block_of 1000000) = (Ok 20000, b') /\
    Balance (address Fixture.alice) b' = 960000 /\
    Balance (address Fixture.miner) b' = 40000 /\
    accState b' !! address Fixture.bob = None.
Proof.
  destruct (VerifyExecution_undecodable_payload Fixture.collaborators
              (Fixture.tx_of Fixture.alice Fixture.bob 0 "transfer" [] 2 20000)
              (Fixture.block_of 1000000) 20000 40000 ErrInvalidTxPayloadType)
    as (Hrun & Hch & _).
  - reflexivity.
  - vm_compute. congruence.
  - reflexivity.
  - vm_compute. congruence.
  - reflexivity.
  - vm_compute. congruence.
  - vm_compute. congruence.
  - vm_compute. reflexivity.
  - vm_compute. split; [congruence | reflexivity].
  - eexists. split; [exact Hrun |].
    destruct Hch as (_ & Hne & _ & Hother & _).
    destruct Hne as [Ha Hm]; [vm_compute; congruence |].
    split; [exact Ha |]. split; [exact Hm |].
    exact (Hother (address Fixture.bob) ltac:(vm_compute; congruence)
             ltac:(vm_compute; congruence)).
Defined.

(** ** C3: the payload-gas check *)

(** C3, as the code has it.  A transaction that passes the base-gas and
    balance checks, whose payload decodes and whose gas limit is below
    [GasCountOfTxBase] plus the payload's [BaseGasCount], pays
    [gasPrice * gasLimit] (the entire limit) to the coinbase on the block it
    was given, gets a failure event with [ErrOutOfGasLimit] and the gas
    limit as gas count, and [VerifyExecution] returns [(gasLimit, nil)].
    The block that results is given in full: it does not depend on what
    the payload would execute, no child block has a part in it and no
    contract account is new in it.  (The fields of the transaction and the
    base gas of the payload are unsigned, the sender's balance is a 128-bit
    value and the coinbase can hold the fee.) *)
Theorem VerifyExecution_payload_gas_check
    (C : Collaborators) (tx : Transaction) (b : Block)
    (g m : Uint128.t) (payload : TxPayload) :
  GasCountOfTxBase tx = Ok g ->
  g <= gasLimit tx ->
  MinBalanceRequired tx = Ok m ->
  m <= Balance (address (from tx)) b ->
  LoadPayload C tx = Ok payload ->
  gasLimit tx < g + BaseGasCount payload ->
  g + BaseGasCount payload < Uint128.modulus ->
  0 <= gasPrice tx -> 0 <= value tx ->
  Balance (address (from tx)) b < Uint128.modulus ->
  0 <= Balance (address (coinbase b)) b + gasPrice tx * gasLimit tx < Uint128.modulus ->
  let b' :=
    with_event (hash tx) (result_event C tx (gasLimit tx) (Some ErrOutOfGasLimit))
      (pay (address (from tx)) (address (coinbase b)) (gasPrice tx * gasLimit tx) b) in
  VerifyExecution C tx b = (Ok (gasLimit tx), b') /\
  charged tx (gasPrice tx * gasLimit tx) b b' /\
  eventsState b' =
    (eventsState b ++
     [(hash tx, result_event C tx (gasLimit tx) (Some ErrOutOfGasLimit))])%list /\
  Data (result_event C tx (gasLimit tx) (Some ErrOutOfGasLimit)) =
    json_Marshal_TransactionEvent C
      (mkTransactionEvent (hex_of_bytes (hash tx)) (TxExecutionFailed C)
         (Uint128.String (gasLimit tx)) (ErrorText C ErrOutOfGasLimit)).
Proof.
  intros Hg Hle Hm Hbal Hload Hlow Hsum Hp Hv Hsrc Hcb.
  pose proof (GasCountOfTxBase_inv _ _ Hg) as [Hgeq Hgr].
  assert (Hfee : 0 <= gasPrice tx * gasLimit tx <= m).
  { apply (fee_covered tx m g (gasLimit tx) Hg Hm Hp Hv). lia. }
  cbv zeta. split; [| split; [| split]].
  - pass_admission Hg Hm. rewrite Hload.
    unfold bind at 1, lift at 1, Uint128.Add. rewrite Validate_ok by lia.
    rewrite Cmp_ltb.
    destruct (Z.ltb_spec (gasLimit tx) (g + BaseGasCount payload)) as [_ | Hge]; [| lia].
    rewrite (fee_settlement_ok C tx (gasLimit tx) (gasLimit tx) (fun _ => gasLimit tx)
               (Some ErrOutOfGasLimit) (materialize (address (from tx)) b)).
    + rewrite materialize_coinbase, pay_after_materialize. reflexivity.
    + rewrite Balance_materialize. lia.
    + rewrite Balance_materialize. exact Hsrc.
    + rewrite materialize_coinbase, Balance_materialize. exact Hcb.
  - apply pay_charged.
  - reflexivity.
  - reflexivity.
Qed.

(** C3 on a call of alice (base gas 20000, payload base gas 60) with gas
    price 3 and gas limit 20050, run on a block where alice owns 10^6: the
    fee is 3 * 20050 and the value 5 stays with alice. *)
Lemma VerifyExecution_payload_gas_check_witness :
  exists b',
    VerifyExecution Fixture.collaborators
      (Fixture.tx_of Fixture.alice Fixture.bob 5 "call" [] 3 20050)
      (Fixture.block_of 1000000) = (Ok 20050, b') /\
    Balance (address Fixture.alice) b' = 939850 /\
    Balance (address Fixture.miner) b' = 60150 /\
    accState b' !! address Fixture.bob = None.
Proof.
  destruct (VerifyExecution_payload_gas_check Fixture.collaborators
              (Fixture.tx_of Fixture.alice Fixture.bob 5 "call" [] 3 20050)
              (Fixture.block_of 1000000) 20000 60155
              (mkTxPayload 60
                 (fun _ block => ((Uint128.NewUint128, EmptyString, None), block))))
    as (Hrun & Hch & _).
  - reflexivity.
  - vm_compute. congruence.
  - reflexivity.
  - vm_compute. congruence.
  - reflexivity.
  - vm_compute. reflexivity.
  - vm_compute. reflexivity.
  - vm_compute. congruence.
  - vm_compute. congruence.
  - vm_compute. reflexivity.
  - vm_compute. split; [congruence | reflexivity].
  - eexists. split; [exact Hrun |].
    destruct Hch as (_ & Hne & _ & Hother & _).
    destruct Hne as [Ha Hm]; [vm_compute; congruence |].
    split; [exact Ha |]. split; [exact Hm |].
    exact (Hother (address Fixture.bob) ltac:(vm_compute; congruence)
             ltac:(vm_compute; congruence)).
Defined.

(** The claim read for every transaction whose payload decodes and whose
    gas limit is below [GasCountOfTxBase + BaseGasCount] fails below
    [GasCountOfTxBase] itself: a deployment of 73 bytes (base gas 20073)
    with gas limit 20063 decodes, and is turned away at the base-gas check
    with [ErrOutOfGasLimit]; no fee is paid and no event recorded. *)
Lemma VerifyExecution_below_base_gas_not_charged :
  let tx := Fixture.deploy_of Fixture.alice Fixture.alice 1 20063 in
  let b := Fixture.block_of 1000000 in
  (exists payload,
     LoadPayload Fixture.collaborators tx = Ok payload /\
     GasCountOfTxBase tx = Ok 20073 /\
     gasLimit tx < 20073 + BaseGasCount payload) /\
  VerifyExecution Fixture.collaborators tx b = (Fail ErrOutOfGasLimit, b) /\
  fst (VerifyExecution Fixture.collaborators tx b) <> Ok (gasLimit tx) /\
  eventsState (snd (VerifyExecution Fixture.collaborators tx b)) = [] /\
  Balance (address Fixture.alice) (snd (VerifyExecution Fixture.collaborators tx b))
    = 1000000.
Proof.
  cbv zeta. split; [| split; [| split; [| split]]].
  - exists (DeployPayload_TxPayload Fixture.collaborators Fixture.counter).
    split; [reflexivity |]. split; reflexivity.
  - vm_compute. reflexivity.
  - vm_compute. discriminate.
  - vm_compute. reflexivity.
  - vm_compute. reflexivity.
Qed.

(** ** C4: merge on success only *)

(** C4.  Take a transaction that reaches payload execution: it passes the
    two admission checks and the payload-gas check, the value transfer on
    the child block succeeds and gives [child], the payload runs on [child]
    and leaves [child'], and the gas total is a 128-bit value.  After the
    clamp of step 7 let [exeErr'] be the execution error.  If [exeErr'] is
    nil, what follows is the fee settlement on the outer block merged with
    [child'].  If [exeErr'] is set, what follows is the fee settlement on
    the outer block as it was before the child was made: [child'] has no
    part in the result, the call returns the clamped gas with a nil error,
    and the block that results is the one given but for the fee the sender
    has paid to the coinbase (no value transferred, no account touched by
    the payload, no contract account new). *)
Theorem VerifyExecution_merge_on_success
    (C : Collaborators) (tx : Transaction) (b : Block)
    (g m : Uint128.t) (payload : TxPayload) (child child' : Block)
    (gasExecution : Uint128.t) (result : string) (exeErr : option Error)
    (total : Uint128.t) :
  GasCountOfTxBase tx = Ok g ->
  MinBalanceRequired tx = Ok m ->
  m <= Balance (address (from tx)) b ->
  LoadPayload C tx = Ok payload ->
  0 <= BaseGasCount payload ->
  g + BaseGasCount payload <= gasLimit tx ->
  gasLimit tx < Uint128.modulus ->
  transfer (from tx) (to tx) (value tx) (materialize (address (from tx)) b)
    = (Ok tt, child) ->
  Execute payload tx child = ((gasExecution, result, exeErr), child') ->
  Uint128.Add (g + BaseGasCount payload) gasExecution = Ok total ->
  let outer := materialize (address (from tx)) b in
  let gasUsed := if gasLimit tx <? total then gasLimit tx else total in
  let exeErr' := if gasLimit tx <? total then Some ErrOutOfGasLimit else exeErr in
  (exeErr' = None ->
   VerifyExecution C tx b = fee_settlement C tx gasUsed None (Merge outer child')) /\
  (exeErr' <> None ->
   VerifyExecution C tx b = fee_settlement C tx gasUsed exeErr' outer) /\
  (exeErr' <> None ->
   0 <= gasPrice tx -> 0 <= value tx ->
   Balance (address (from tx)) b < Uint128.modulus ->
   0 <= Balance (address (coinbase b)) b + gasPrice tx * gasUsed < Uint128.modulus ->
   exists b',
     VerifyExecution C tx b = (Ok gasUsed, b') /\
     charged tx (gasPrice tx * gasUsed) b b' /\
     accState b' =
       accState (pay (address (from tx)) (address (coinbase b))
                   (gasPrice tx * gasUsed) b)).
Proof.
  intros Hg Hm Hbal Hload Hbase Hstep4 Hlim Htransfer Hexec Hadd.
  pose proof (GasCountOfTxBase_inv _ _ Hg) as [Hgeq Hgr].
  pose proof (DataLen_nonneg tx) as Hlen. unfold MinGasCountPerTransaction in Hgeq.
  assert (Hrun : forall outer gasUsed exeErr',
             outer = materialize (address (from tx)) b ->
             (gasUsed, exeErr') =
               (if gasLimit tx <? total then (gasLimit tx, Some ErrOutOfGasLimit)
                else (total, exeErr)) ->
             VerifyExecution C tx b =
             fee_settlement C tx gasUsed exeErr'
               (match exeErr' with None => Merge outer child' | Some _ => outer end)).
  { intros outer gasUsed exeErr' -> Hclamp.
    pass_admission Hg Hm. rewrite Hload.
    unfold bind at 1, lift at 1, Uint128.Add. rewrite Validate_ok by lia.
    rewrite Cmp_ltb.
    destruct (Z.ltb_spec (gasLimit tx) (g + BaseGasCount payload)) as [Hlt | _]; [lia |].
    unfold bind at 1, Clone. rewrite Htransfer, Hexec.
    unfold bind at 1, lift at 1. unfold Uint128.Add in Hadd. rewrite Hadd.
    rewrite Cmp_ltb, <- Hclamp.
    unfold fee_settlement. destruct exeErr'; reflexivity. }
  cbv zeta. split; [| split].
  - intros Hnil.
    rewrite (Hrun _ (if gasLimit tx <? total then gasLimit tx else total) None eq_refl).
    + reflexivity.
    + rewrite <- Hnil. destruct (gasLimit tx <? total); reflexivity.
  - intros Hset.
    rewrite (Hrun _ (if gasLimit tx <? total then gasLimit tx else total)
               (if gasLimit tx <? total then Some ErrOutOfGasLimit else exeErr) eq_refl).
    + destruct (if gasLimit tx <? total then Some ErrOutOfGasLimit else exeErr);
        [reflexivity | contradiction].
    + destruct (gasLimit tx <? total); reflexivity.
  - intros Hset Hp Hv Hsrc Hcb.
    set (gasUsed := if gasLimit tx <? total then gasLimit tx else total) in *.
    set (exeErr' := if gasLimit tx <? total then Some ErrOutOfGasLimit else exeErr) in *.
    assert (Hused : 0 <= gasUsed <= gasLimit tx).
    { apply Validate_inv in Hadd as [Htotal Htot]. unfold gasUsed.
      destruct (Z.ltb_spec (gasLimit tx) total); lia. }
    pose proof (fee_covered tx m g gasUsed Hg Hm Hp Hv Hused) as Hfee.
    rewrite (Hrun _ gasUsed exeErr' eq_refl)
      by (unfold gasUsed, exeErr'; destruct (gasLimit tx <? total); reflexivity).
    destruct exeErr' as [err |] eqn:Herr; [| contradiction].
    unfold fee_settlement.
    rewrite (fee_settlement_ok C tx gasUsed gasUsed (fun gas => gas) (Some err)
               (materialize (address (from tx)) b)).
    + rewrite materialize_coinbase, pay_after_materialize.
      eexists. split; [reflexivity |]. split; [apply pay_charged | reflexivity].
    + rewrite Balance_materialize. lia.
    + rewrite Balance_materialize. exact Hsrc.
    + rewrite materialize_coinbase, Balance_materialize. exact Hcb.
Qed.

(** C4 on two deployments of alice (73 bytes, base gas 20073, gas price 2,
    gas limit 30000) run on a block where alice owns 10^6.  The first is
    addressed to bob and carries the value 7: its execution fails, the 7
    that reached bob on the child block and bob's account are gone, and
    alice has paid the fee only.  The second is addressed to alice herself:
    its execution succeeds after 100 instructions and the contract account
    made on the child block is in the block that results. *)
Lemma VerifyExecution_merge_on_success_witness :
  (exists b',
     VerifyExecution Fixture.collaborators
       (Fixture.tx_of Fixture.alice Fixture.bob 7 "deploy"
          (Fixture.DeployPayload_ToBytes Fixture.counter) 2 30000)
       (Fixture.block_of 1000000) = (Ok 20073, b') /\
     Balance (address Fixture.alice) b' = 959854 /\
     Balance (address Fixture.miner) b' = 40146 /\
     accState b' !! address Fixture.bob = None) /\
  (VerifyExecution Fixture.collaborators
     (Fixture.deploy_of Fixture.alice Fixture.alice 2 30000) (Fixture.block_of 1000000)
   = fee_settlement Fixture.collaborators
       (Fixture.deploy_of Fixture.alice Fixture.alice 2 30000) 20173 None
       (Merge (Fixture.block_of 1000000)
          (deploy_accounts (Fixture.deploy_of Fixture.alice Fixture.alice 2 30000)
             Fixture.contract_of_alice (Fixture.block_of 1000000))) /\
   accState (snd (VerifyExecution Fixture.collaborators
                    (Fixture.deploy_of Fixture.alice Fixture.alice 2 30000)
                    (Fixture.block_of 1000000)))
     !! address Fixture.contract_of_alice = Some (mkAccount 0 0 (Some []))).
Proof.
  split.
  - destruct (proj2 (proj2
        (VerifyExecution_merge_on_success Fixture.collaborators
           (Fixture.tx_of Fixture.alice Fixture.bob 7 "deploy"
              (Fixture.DeployPayload_ToBytes Fixture.counter) 2 30000)
           (Fixture.block_of 1000000) 20073 60007
           (DeployPayload_TxPayload Fixture.collaborators Fixture.counter)
           (pay (address Fixture.alice) (address Fixture.bob) 7 (Fixture.block_of 1000000))
           (pay (address Fixture.alice) (address Fixture.bob) 7 (Fixture.block_of 1000000))
           0 EmptyString (Some ErrContractTransactionAddressNotEqual) 20073
           eq_refl eq_refl ltac:(vm_compute; congruence) eq_refl
           ltac:(vm_compute; congruence) ltac:(vm_compute; congruence)
           ltac:(vm_compute; reflexivity) ltac:(vm_compute; reflexivity)
           ltac:(vm_compute; reflexivity) eq_refl)))
      as (b' & Hrun & Hch & _).
    + vm_compute. congruence.
    + vm_compute. congruence.
    + vm_compute. congruence.
    + vm_compute. reflexivity.
    + vm_compute. split; [congruence | reflexivity].
    + exists b'. split; [exact Hrun |].
      destruct Hch as (_ & Hne & _ & Hother & _).
      destruct Hne as [Ha Hm]; [vm_compute; congruence |].
      split; [exact Ha |]. split; [exact Hm |].
      exact (Hother (address Fixture.bob) ltac:(vm_compute; congruence)
               ltac:(vm_compute; congruence)).
  - split; [| vm_compute; reflexivity].
    apply (proj1
        (VerifyExecution_merge_on_success Fixture.collaborators
           (Fixture.deploy_of Fixture.alice Fixture.alice 2 30000)
           (Fixture.block_of 1000000) 20073 60000
           (DeployPayload_TxPayload Fixture.collaborators Fixture.counter)
           (Fixture.block_of 1000000)
           (deploy_accounts (Fixture.deploy_of Fixture.alice Fixture.alice 2 30000)
              Fixture.contract_of_alice (Fixture.block_of 1000000))
           100 EmptyString None 20173
           eq_refl eq_refl ltac:(vm_compute; congruence) eq_refl
           ltac:(vm_compute; congruence) ltac:(vm_compute; congruence)
           ltac:(vm_compute; reflexivity) ltac:(vm_compute; reflexivity)
           ltac:(vm_compute; reflexivity) eq_refl)).
    reflexivity.
Defined.

(** ** C2: the gas figure of the result event *)

(** The result event of the last step carries the fee, not the gas count:
    this is what [fee_settlement] does whenever the sender can pay. *)
Lemma fee_settlement_event (C : Collaborators) (tx : Transaction)
    (gasUsed : Uint128.t) (exeErr : option Error) (b : Block) :
  0 <= gasPrice tx * gasUsed <= Balance (address (from tx)) b ->
  Balance (address (from tx)) b < Uint128.modulus ->
  0 <= Balance (address (coinbase b)) b + gasPrice tx * gasUsed < Uint128.modulus ->
  fee_settlement C tx gasUsed exeErr b =
  (Ok gasUsed,
   with_event (hash tx) (result_event C tx (gasPrice tx * gasUsed) exeErr)
     (pay (address (from tx)) (address (coinbase b)) (gasPrice tx * gasUsed) b)).
Proof.
  intros Hfee Hsrc Hcb. unfold fee_settlement.
  exact (fee_settlement_ok C tx gasUsed gasUsed (fun gas => gas) exeErr b Hfee Hsrc Hcb).
Qed.

(** C2 fails on the last step.  The transfer of the spec's scenario (value
    100, gas price 10^6, gas limit 21000, binary payload without data), run
    on a block where alice owns 10^12, succeeds and [VerifyExecution]
    returns the gas count 20000, while the one event it records has the fee
    20000000000 in its gas-used field. *)
Theorem VerifyExecution_final_event_records_fee :
  let tx := Fixture.transfer100 in
  let b := Fixture.block_of (10 ^ 12) in
  fst (VerifyExecution Fixture.collaborators tx b) = Ok 20000 /\
  eventsState (snd (VerifyExecution Fixture.collaborators tx b)) =
    [(hash tx,
      mkEvent "chain.transactionResult"
        (Fixture.json_Marshal_TransactionEvent
           (mkTransactionEvent EmptyString 1 "20000000000" EmptyString)))] /\
  Uint128.String 20000 = "20000" /\
  Uint128.String (gasPrice tx * 20000) = "20000000000".
Proof.
  cbv zeta. repeat split; vm_compute; reflexivity.
Qed.

(** * More properties of the code *)

(** ** Gas accounting *)

(** X1.  For a payload within the limit of [MaxDataPayLoadLength] bytes,
    [GasCountOfTxBase] never fails and is the minimum gas 20000 plus one
    unit per payload byte, hence at most 20000 + 2^20. *)
Theorem GasCountOfTxBase_within_limit (tx : Transaction) :
  DataLen tx <= MaxDataPayLoadLength ->
  GasCountOfTxBase tx = Ok (20000 + Z.of_nat (length (Payload (data tx)))) /\
  20000 + Z.of_nat (length (Payload (data tx))) <= 1068576.
Proof.
  intros Hlen. pose proof (DataLen_nonneg tx) as Hn.
  unfold MaxDataPayLoadLength in Hlen.
  split.
  - rewrite GasCountOfTxBase_ok.
    + unfold MinGasCountPerTransaction, GasCountPerByte, DataLen. f_equal. lia.
    + unfold MinGasCountPerTransaction, Uint128.modulus. lia.
  - fold (DataLen tx). lia.
Qed.

Lemma GasCountOfTxBase_within_limit_witness :
  GasCountOfTxBase (Fixture.deploy_of Fixture.alice Fixture.alice 1 30000) = Ok 20073.
Proof.
  apply (proj1 (GasCountOfTxBase_within_limit
                  (Fixture.deploy_of Fixture.alice Fixture.alice 1 30000)
                  ltac:(vm_compute; congruence))).
Defined.

(** X2.  [NewTransaction] fails with [ErrInvalidArgument] when [from], [to]
    or [value] is nil, whatever the payload is; with all three given it
    fails with [ErrTxDataPayLoadOutOfMaxLength] on a payload of more than
    [MaxDataPayLoadLength] bytes; otherwise it returns a transaction with the
    arguments in their fields, the time as timestamp, no hash and no
    signature, whose base gas is 20000 plus the payload length. *)
Theorem NewTransaction_validation
    (chainID' : Z) (from' to' : option Address) (value' : option Uint128.t)
    (nonce' : Z) (payloadType : string) (payload : bytes)
    (gasPrice' gasLimit' : option Uint128.t) (now : Z) :
  (from' = None \/ to' = None \/ value' = None ->
   NewTransaction chainID' from' to' value' nonce' payloadType payload
     gasPrice' gasLimit' now = Fail ErrInvalidArgument) /\
  (forall f t v,
     from' = Some f -> to' = Some t -> value' = Some v ->
     MaxDataPayLoadLength < Z.of_nat (length payload) ->
     NewTransaction chainID' from' to' value' nonce' payloadType payload
       gasPrice' gasLimit' now = Fail ErrTxDataPayLoadOutOfMaxLength) /\
  (forall f t v,
     from' = Some f -> to' = Some t -> value' = Some v ->
     Z.of_nat (length payload) <= MaxDataPayLoadLength ->
     exists tx,
       NewTransaction chainID' from' to' value' nonce' payloadType payload
         gasPrice' gasLimit' now = Ok tx /\
       from tx = f /\ to tx = t /\ value tx = v /\ nonce tx = nonce' /\
       chainID tx = chainID' /\ timestamp tx = now /\
       data tx = mkData payloadType payload /\
       hash tx = [] /\ sign tx = [] /\
       GasCountOfTxBase tx = Ok (20000 + Z.of_nat (length payload))).
Proof.
  unfold NewTransaction. split; [| split].
  - intros [-> | [-> | ->]].
    + reflexivity.
    + destruct from'; reflexivity.
    + destruct from', to'; reflexivity.
  - intros f t v -> -> -> Hlen.
    destruct (Z.ltb_spec MaxDataPayLoadLength (Z.of_nat (length payload))); [reflexivity | lia].
  - intros f t v -> -> -> Hlen.
    destruct (Z.ltb_spec MaxDataPayLoadLength (Z.of_nat (length payload))); [lia |].
    eexists. split; [reflexivity |]. cbn [from to value nonce chainID timestamp data hash sign].
    repeat (split; [reflexivity |]).
    rewrite GasCountOfTxBase_ok.
    + unfold MinGasCountPerTransaction, GasCountPerByte, DataLen. cbn [data Payload].
      f_equal. lia.
    + unfold MinGasCountPerTransaction, Uint128.modulus, DataLen, MaxDataPayLoadLength in *.
      cbn [data Payload]. lia.
Qed.

Lemma NewTransaction_validation_witness :
  NewTransaction 1 None (Some Fixture.bob) (Some 5) 1 "binary" [] None None 7
    = Fail ErrInvalidArgument /\
  exists tx,
    NewTransaction 1 (Some Fixture.alice) (Some Fixture.bob) (Some 5) 1 "binary"
      [x01; x02] None None 7 = Ok tx /\
    GasCountOfTxBase tx = Ok 20002.
Proof.
  split.
  - apply (proj1 (NewTransaction_validation 1 None (Some Fixture.bob) (Some 5) 1 "binary"
                    [] None None 7)).
    left. reflexivity.
  - destruct (proj2 (proj2 (NewTransaction_validation 1 (Some Fixture.alice)
                              (Some Fixture.bob) (Some 5) 1 "binary" [x01; x02] None None 7))
                Fixture.alice Fixture.bob 5 eq_refl eq_refl eq_refl
                ltac:(vm_compute; congruence))
      as (tx & Hnew & _ & _ & _ & _ & _ & _ & _ & _ & _ & Hgas).
    exists tx. split; [exact Hnew | exact Hgas].
Defined.

(** X3.  With an unsigned payload base gas and a 128-bit gas limit,
    [PayloadGasLimit] is [gasLimit - GasCountOfTxBase - base] when that is
    not negative and [ErrOutOfGasLimit] otherwise: an underflow of either
    subtraction comes out as [ErrOutOfGasLimit], never as an arithmetic
    error. *)
Theorem PayloadGasLimit_spec (tx : Transaction) (base g : Uint128.t) :
  GasCountOfTxBase tx = Ok g ->
  0 <= base ->
  gasLimit tx < Uint128.modulus ->
  PayloadGasLimit tx base =
  if gasLimit tx <? g + base then Fail ErrOutOfGasLimit
  else Ok (gasLimit tx - g - base).
Proof.
  intros Hg Hbase Hlim. pose proof (GasCountOfTxBase_inv _ _ Hg) as [_ Hgr].
  destruct (Z.ltb_spec (gasLimit tx) (g + base)) as [Hlt | Hge].
  - unfold PayloadGasLimit, Uint128.Sub. rewrite Hg. cbn [rbind].
    destruct (Z.lt_ge_cases (gasLimit tx - g) 0) as [Hneg | Hnn].
    + rewrite Validate_underflow by exact Hneg. reflexivity.
    + rewrite Validate_ok by lia. rewrite Validate_underflow by lia. reflexivity.
  - apply PayloadGasLimit_ok; [exact Hg | lia | exact Hbase | lia].
Qed.

Lemma PayloadGasLimit_spec_witness :
  PayloadGasLimit (Fixture.tx_of Fixture.alice Fixture.bob 5 "call" [] 3 20050) 60
    = Fail ErrOutOfGasLimit /\
  PayloadGasLimit (Fixture.tx_of Fixture.alice Fixture.bob 5 "call" [] 3 20100) 60
    = Ok 40.
Proof.
  split.
  - exact (PayloadGasLimit_spec (Fixture.tx_of Fixture.alice Fixture.bob 5 "call" [] 3 20050)
             60 20000 eq_refl ltac:(vm_compute; congruence) ltac:(vm_compute; reflexivity)).
  - exact (PayloadGasLimit_spec (Fixture.tx_of Fixture.alice Fixture.bob 5 "call" [] 3 20100)
             60 20000 eq_refl ltac:(vm_compute; congruence) ltac:(vm_compute; reflexivity)).
Defined.

(** ** Payload dispatch *)

(** X4.  [LoadPayload] fails with [ErrInvalidTxPayloadType] exactly when the
    type tag of the transaction is none of [binary], [deploy] and [call]:
    a known tag never gives that error, whatever its bytes are. *)
Theorem LoadPayload_InvalidTxPayloadType_iff (C : Collaborators) (tx : Transaction) :
  LoadPayload C tx = Fail ErrInvalidTxPayloadType <->
  DataType (data tx) <> TxPayloadBinaryType /\
  DataType (data tx) <> TxPayloadDeployType /\
  DataType (data tx) <> TxPayloadCallType.
Proof.
  unfold LoadPayload, LoadBinaryPayload, LoadDeployPayload.
  destruct (String.eqb_spec (DataType (data tx)) TxPayloadBinaryType) as [Hb | Hb].
  { split; [discriminate | intros [H _]; contradiction]. }
  destruct (String.eqb_spec (DataType (data tx)) TxPayloadDeployType) as [Hd | Hd].
  { split; [| intros (_ & H & _); contradiction].
    destruct (json_Unmarshal_DeployPayload C (Payload (data tx))); discriminate. }
  destruct (String.eqb_spec (DataType (data tx)) TxPayloadCallType) as [Hc | Hc].
  { split; [| intros (_ & _ & H); contradiction].
    destruct (LoadCallPayload C (Payload (data tx))); discriminate. }
  split; [intros _; auto | reflexivity].
Qed.

(** ** Transfers *)

Lemma transfer_run (src dst : Address) (v : Uint128.t) (b : Block) :
  transfer src dst v b =
  (fromAcc <- ret (address src) ;;
   toAcc <- ret (address dst) ;;
   SubBalance fromAcc v ;;;
   AddBalance toAcc v)%st (materialize (address dst) (materialize (address src) b)).
Proof.
  unfold transfer, bind, ret. rewrite !GetOrCreateUserAccount_eq. reflexivity.
Qed.

(** X5.  A transfer of [v] that the sender can afford and the recipient can
    hold succeeds; it takes [v] from the sender and gives [v] to the
    recipient, so that a transfer to oneself changes no balance; no other
    balance, no event and no coinbase changes, and both accounts exist
    afterwards. *)
Theorem transfer_moves_value (src dst : Address) (v : Uint128.t) (b : Block) :
  0 <= v <= Balance (address src) b ->
  Balance (address src) b < Uint128.modulus ->
  0 <= Balance (address dst) b + v < Uint128.modulus ->
  exists b',
    transfer src dst v b = (Ok tt, b') /\
    (address src <> address dst ->
     Balance (address src) b' = Balance (address src) b - v /\
     Balance (address dst) b' = Balance (address dst) b + v) /\
    (address src = address dst -> Balance (address src) b' = Balance (address src) b) /\
    (forall a, a <> address src -> a <> address dst -> accState b' !! a = accState b !! a) /\
    is_Some (accState b' !! address src) /\ is_Some (accState b' !! address dst) /\
    eventsState b' = eventsState b /\ coinbase b' = coinbase b.
Proof.
  intros Hv Hsrc Hdst. exists (pay (address src) (address dst) v b).
  split; [apply transfer_ok; assumption |].
  rewrite !Balance_pay.
  split; [| split; [| split; [| split; [| split; [| split]]]]].
  - intros Hne.
    rewrite (decide_False (P := address src = address dst)) by exact Hne.
    rewrite (decide_False (P := address dst = address src)) by congruence.
    rewrite !decide_True by reflexivity.
    split; reflexivity.
  - intros Heq. rewrite <- Heq. rewrite !decide_True by reflexivity. reflexivity.
  - intros a Has Had. unfold pay. rewrite !set_balance_lookup_ne by assumption. reflexivity.
  - unfold pay. rewrite !set_balance_lookup.
    destruct (decide (address src = address dst)); [eauto |].
    rewrite decide_True by reflexivity. eauto.
  - unfold pay. rewrite set_balance_lookup. rewrite decide_True by reflexivity. eauto.
  - reflexivity.
  - reflexivity.
Qed.

Lemma transfer_moves_value_witness :
  exists b',
    transfer Fixture.alice Fixture.bob 100 (Fixture.block_of 1000) = (Ok tt, b') /\
    Balance (address Fixture.alice) b' = 900 /\
    Balance (address Fixture.bob) b' = 100.
Proof.
  destruct (transfer_moves_value Fixture.alice Fixture.bob 100 (Fixture.block_of 1000))
    as (b' & Hrun & Hne & _).
  - vm_compute. split; congruence.
  - vm_compute. reflexivity.
  - vm_compute. split; [congruence | reflexivity].
  - exists b'. split; [exact Hrun |].
    exact (Hne ltac:(vm_compute; congruence)).
Defined.

(** X6.  A transfer of more than the sender owns fails with
    [ErrBalanceInsufficient] and changes no balance; the accounts of sender
    and recipient have been looked up, so they exist afterwards (empty if
    they were missing). *)
Theorem transfer_insufficient (src dst : Address) (v : Uint128.t) (b : Block) :
  Balance (address src) b < v ->
  exists b',
    transfer src dst v b = (Fail ErrBalanceInsufficient, b') /\
    (forall a, Balance a b' = Balance a b) /\
    (forall a, a <> address src -> a <> address dst -> accState b' !! a = accState b !! a) /\
    is_Some (accState b' !! address src) /\ is_Some (accState b' !! address dst) /\
    eventsState b' = eventsState b.
Proof.
  intros Hlt. exists (materialize (address dst) (materialize (address src) b)).
  split; [| split; [| split; [| split; [| split]]]].
  - rewrite transfer_run. unfold bind, ret, SubBalance.
    rewrite Cmp_ltb, !Balance_materialize.
    destruct (Z.ltb_spec (Balance (address src) b) v); [reflexivity | lia].
  - intros a. rewrite !Balance_materialize. reflexivity.
  - intros a Has Had. rewrite !materialize_lookup_ne by assumption. reflexivity.
  - rewrite !materialize_lookup.
    destruct (decide (address src = address dst)); [eauto |].
    rewrite decide_True by reflexivity. eauto.
  - rewrite materialize_lookup. rewrite decide_True by reflexivity. eauto.
  - rewrite !materialize_events. reflexivity.
Qed.

Lemma transfer_insufficient_witness :
  exists b',
    transfer Fixture.alice Fixture.bob 1001 (Fixture.block_of 1000)
      = (Fail ErrBalanceInsufficient, b') /\
    Balance (address Fixture.alice) b' = 1000 /\
    accState b' !! address Fixture.bob = Some (mkAccount 0 0 None).
Proof.
  destruct (transfer_insufficient Fixture.alice Fixture.bob 1001 (Fixture.block_of 1000))
    as (b' & Hrun & Hbal & _).
  - vm_compute. reflexivity.
  - exists b'. split; [exact Hrun |]. split; [exact (Hbal (address Fixture.alice)) |].
    assert (Hb : b' = snd (transfer Fixture.alice Fixture.bob 1001 (Fixture.block_of 1000)))
      by (rewrite Hrun; reflexivity).
    rewrite Hb. vm_compute. reflexivity.
Defined.

(** X7.  The debit of a transfer is not undone when the credit fails: if the
    recipient (another account) cannot hold [v] more in 128 bits, the
    transfer fails with [ErrUint128Overflow] after the sender's balance has
    gone down by [v]; the recipient's balance is as before. *)
Theorem transfer_credit_overflow_keeps_debit
    (src dst : Address) (v : Uint128.t) (b : Block) :
  address src <> address dst ->
  0 <= v <= Balance (address src) b ->
  Balance (address src) b < Uint128.modulus ->
  Uint128.modulus <= Balance (address dst) b + v ->
  exists b',
    transfer src dst v b = (Fail ErrUint128Overflow, b') /\
    Balance (address src) b' = Balance (address src) b - v /\
    Balance (address dst) b' = Balance (address dst) b.
Proof.
  intros Hne Hv Hsrc Hover.
  exists (set_balance (address src) (Balance (address src) b - v)
            (materialize (address dst) (materialize (address src) b))).
  split; [| split].
  - rewrite transfer_run. unfold bind, ret, SubBalance.
    rewrite Cmp_ltb, !Balance_materialize.
    destruct (Z.ltb_spec (Balance (address src) b) v); [lia |].
    unfold Uint128.Sub. rewrite Validate_ok by lia.
    unfold AddBalance, Uint128.Add.
    rewrite Balance_set_balance, !Balance_materialize.
    rewrite (decide_False (P := address dst = address src)) by congruence.
    rewrite Validate_overflow by exact Hover. reflexivity.
  - rewrite Balance_set_balance, decide_True by reflexivity. reflexivity.
  - rewrite Balance_set_balance, !Balance_materialize.
    rewrite (decide_False (P := address dst = address src)) by congruence. reflexivity.
Qed.

Lemma transfer_credit_overflow_keeps_debit_witness :
  exists b',
    transfer Fixture.alice Fixture.bob 1
      (mkBlock {[ address Fixture.alice := mkAccount 10 0 None;
                  address Fixture.bob := mkAccount (2 ^ 128 - 1) 0 None ]} [] Fixture.miner)
    = (Fail ErrUint128Overflow, b') /\
    Balance (address Fixture.alice) b' = 9 /\
    Balance (address Fixture.bob) b' = 2 ^ 128 - 1.
Proof.
  destruct (transfer_credit_overflow_keeps_debit Fixture.alice Fixture.bob 1
              (mkBlock {[ address Fixture.alice := mkAccount 10 0 None;
                          address Fixture.bob := mkAccount (2 ^ 128 - 1) 0 None ]}
                 [] Fixture.miner))
    as (b' & Hrun & Ha & Hb).
  - vm_compute. congruence.
  - vm_compute. split; congruence.
  - vm_compute. reflexivity.
  - vm_compute. congruence.
  - exists b'. split; [exact Hrun |]. split; [exact Ha | exact Hb].
Defined.

(** ** Every path of [VerifyExecution] *)

Lemma Validate_Fail (z : Z) (e : Error) :
  Uint128.Validate z = Fail e -> infrastructure_error e.
Proof.
  unfold Uint128.Validate, infrastructure_error.
  destruct (z <? 0); [intros [= <-]; auto |].
  destruct (Uint128.modulus <=? z); [intros [= <-]; auto | discriminate].
Qed.

Lemma GasCountOfTxBase_Fail (tx : Transaction) (e : Error) :
  GasCountOfTxBase tx = Fail e -> infrastructure_error e.
Proof.
  unfold GasCountOfTxBase, Uint128.NewUint128FromInt, Uint128.Mul, Uint128.Add.
  destruct (0 <? DataLen tx); [| discriminate].
  destruct (Uint128.Validate (DataLen tx)) as [a |] eqn:Ha; cbn [rbind];
    [| intros [= <-]; exact (Validate_Fail _ _ Ha)].
  destruct (Uint128.Validate (a * GasCountPerByte)) as [c |] eqn:Hc; cbn [rbind];
    [| intros [= <-]; exact (Validate_Fail _ _ Hc)].
  destruct (Uint128.Validate (Uint128.DeepCopy MinGasCountPerTransaction + c)) as [d |] eqn:Hd;
    cbn [rbind]; [discriminate | intros [= <-]; exact (Validate_Fail _ _ Hd)].
Qed.

Lemma MinBalanceRequired_Fail (tx : Transaction) (e : Error) :
  MinBalanceRequired tx = Fail e -> infrastructure_error e.
Proof.
  unfold MinBalanceRequired, Uint128.Mul, Uint128.Add.
  destruct (Uint128.Validate (gasPrice tx * gasLimit tx)) as [p |] eqn:Hp; cbn [rbind];
    [| intros [= <-]; exact (Validate_Fail _ _ Hp)].
  destruct (Uint128.Validate (p + value tx)) as [q |] eqn:Hq; cbn [rbind];
    [discriminate | intros [= <-]; exact (Validate_Fail _ _ Hq)].
Qed.

(** A transfer ends well or with an error of the arithmetic or of the
    account state, and records nothing. *)
Lemma transfer_inv (src dst : Address) (v : Uint128.t) (b b' : Block) (r : result unit) :
  transfer src dst v b = (r, b') ->
  (r = Ok tt \/ exists e, r = Fail e /\ infrastructure_error e) /\
  eventsState b' = eventsState b /\ coinbase b' = coinbase b.
Proof.
  rewrite transfer_run. unfold bind, ret, SubBalance, AddBalance.
  set (b2 := materialize (address dst) (materialize (address src) b)).
  assert (Hev : eventsState b2 = eventsState b)
    by (unfold b2; rewrite !materialize_events; reflexivity).
  assert (Hcb : coinbase b2 = coinbase b)
    by (unfold b2; rewrite !materialize_coinbase; reflexivity).
  destruct (Uint128.Cmp (Balance (address src) b2) v <? 0).
  { intros [= <- <-]. split; [right; eexists; split; [reflexivity |] |].
    - unfold infrastructure_error. auto.
    - auto. }
  unfold Uint128.Sub, Uint128.Add.
  destruct (Uint128.Validate (Balance (address src) b2 - v)) as [n |] eqn:Hn.
  - destruct (Uint128.Validate (Balance (address dst) (set_balance (address src) n b2) + v))
      as [k |] eqn:Hk; intros [= <- <-].
    + split; [left; reflexivity | auto].
    + split; [right; eexists; split; [reflexivity | exact (Validate_Fail _ _ Hk)] | auto].
  - intros [= <- <-].
    split; [right; eexists; split; [reflexivity | exact (Validate_Fail _ _ Hn)] | auto].
Qed.

(** A transfer that ends well is [pay], and the sender could afford it. *)
Lemma transfer_Ok_inv (src dst : Address) (v : Uint128.t) (b b' : Block) :
  transfer src dst v b = (Ok tt, b') ->
  b' = pay (address src) (address dst) v b /\ v <= Balance (address src) b.
Proof.
  rewrite transfer_run. unfold bind, ret, SubBalance, AddBalance.
  set (b2 := materialize (address dst) (materialize (address src) b)).
  assert (Hbal : Balance (address src) b2 = Balance (address src) b)
    by (unfold b2; rewrite !Balance_materialize; reflexivity).
  rewrite Cmp_ltb, Hbal.
  destruct (Z.ltb_spec (Balance (address src) b) v) as [| Hge]; [discriminate |].
  unfold Uint128.Sub, Uint128.Add.
  destruct (Uint128.Validate (Balance (address src) b - v)) as [n |] eqn:Hn;
    [| discriminate].
  apply Validate_inv in Hn as [-> _].
  destruct (Uint128.Validate
              (Balance (address dst)
                 (set_balance (address src) (Balance (address src) b - v) b2) + v))
    as [k |] eqn:Hk; [| discriminate].
  apply Validate_inv in Hk as [-> _].
  intros [= <-]. split; [| exact Hge].
  unfold b2. apply pay_materialize.
Qed.

(** The fee settlement, whatever gas figure [evgas] puts in the event:
    either the fee is paid by a transfer on the block and the event is
    appended, or the settlement stops with an error of the arithmetic or of
    the account state. *)
Lemma settle_inv (C : Collaborators) (tx : Transaction)
    (count count' : Uint128.t) (evgas : Uint128.t -> Uint128.t)
    (err : option Error) (pre b' : Block) (r : result Uint128.t) :
  (gas <- lift (Uint128.Mul (gasPrice tx) count) ;;
   cb <- gets Coinbase ;;
   transfer (from tx) cb gas ;;;
   recordResultEvent C tx (evgas gas) err ;;;
   ret count')%st pre = (r, b') ->
  (r = Ok count' /\
   exists mid,
     transfer (from tx) (coinbase pre) (gasPrice tx * count) pre = (Ok tt, mid) /\
     b' = with_event (hash tx) (result_event C tx (evgas (gasPrice tx * count)) err) mid) \/
  (exists e, r = Fail e /\ infrastructure_error e).
Proof.
  unfold bind at 1, lift at 1, Uint128.Mul.
  destruct (Uint128.Validate (gasPrice tx * count)) as [gas |] eqn:Hgas.
  - apply Validate_inv in Hgas as [-> _].
    unfold bind at 1, gets at 1, Coinbase. unfold bind at 1.
    destruct (transfer (from tx) (coinbase pre) (gasPrice tx * count) pre)
      as [[[] | e] mid] eqn:Htr.
    + unfold bind, recordResultEvent, recordEvent, ret. intros Heq. left.
      assert (Hr : r = Ok count') by (destruct err; congruence).
      split; [exact Hr |]. exists mid. split; [reflexivity |].
      unfold with_event, result_event. destruct err; congruence.
    + intros [= <- <-]. right. exists e. split; [reflexivity |].
      destruct (transfer_inv _ _ _ _ _ _ Htr) as [[Hok | (e' & [= <-] & He)] _];
        [discriminate | exact He].
  - intros [= <- <-]. right. eexists. split; [reflexivity | exact (Validate_Fail _ _ Hgas)].
Qed.

(** All the ways [VerifyExecution] can end. *)
Lemma VerifyExecution_inv (C : Collaborators) (tx : Transaction) (b b' : Block)
    (r : result Uint128.t) :
  VerifyExecution C tx b = (r, b') ->
  (r = Fail ErrOutOfGasLimit /\ b' = b /\
   exists g, GasCountOfTxBase tx = Ok g /\ gasLimit tx < g) \/
  (r = Fail ErrInsufficientBalance /\ b' = materialize (address (from tx)) b /\
   exists m, MinBalanceRequired tx = Ok m /\ Balance (address (from tx)) b < m) \/
  (exists e, r = Fail e /\ infrastructure_error e) \/
  (exists used g gasEv err pre mid,
     r = Ok used /\
     GasCountOfTxBase tx = Ok g /\ g <= gasLimit tx /\ 0 <= used <= gasLimit tx /\
     (gasEv = used \/ gasEv = gasPrice tx * used) /\
     (pre = materialize (address (from tx)) b \/
      err = None /\ exists child, pre = Merge (materialize (address (from tx)) b) child) /\
     transfer (from tx) (coinbase pre) (gasPrice tx * used) pre = (Ok tt, mid) /\
     b' = with_event (hash tx) (result_event C tx gasEv err) mid).
Proof.
  unfold VerifyExecution. unfold bind at 1, lift at 1.
  destruct (GasCountOfTxBase tx) as [g | e] eqn:Hg;
    [| intros [= <- <-]; right; right; left; eexists; split;
       [reflexivity | exact (GasCountOfTxBase_Fail _ _ Hg)]].
  pose proof (GasCountOfTxBase_inv _ _ Hg) as [Hgeq Hgr].
  pose proof (DataLen_nonneg tx) as Hlen. unfold MinGasCountPerTransaction in Hgeq.
  rewrite Cmp_ltb. destruct (Z.ltb_spec (gasLimit tx) g) as [Hlt | Hge].
  { intros [= <- <-]. left. split; [reflexivity |]. split; [reflexivity | eauto]. }
  unfold bind at 1, lift at 1.
  destruct (MinBalanceRequired tx) as [m | e] eqn:Hm;
    [| intros [= <- <-]; right; right; left; eexists; split;
       [reflexivity | exact (MinBalanceRequired_Fail _ _ Hm)]].
  unfold bind at 1. rewrite GetOrCreateUserAccount_eq.
  unfold bind at 1, gets at 1. rewrite Cmp_ltb, Balance_materialize.
  destruct (Z.ltb_spec (Balance (address (from tx)) b) m) as [Hpoor | Hrich].
  { intros [= <- <-]. right. left. split; [reflexivity |]. split; [reflexivity | eauto]. }
  set (outer := materialize (address (from tx)) b).
  destruct (LoadPayload C tx) as [payload | payloadErr] eqn:Hload.
  - unfold bind at 1, lift at 1, Uint128.Add.
    destruct (Uint128.Validate (g + BaseGasCount payload)) as [g2 |] eqn:Hg2;
      [| intros [= <- <-]; right; right; left; eexists; split;
         [reflexivity | exact (Validate_Fail _ _ Hg2)]].
    apply Validate_inv in Hg2 as [-> Hg2r].
    rewrite Cmp_ltb.
    destruct (Z.ltb_spec (gasLimit tx) (g + BaseGasCount payload)) as [Hshort | Henough].
    + intros Hrun.
      destruct (settle_inv C tx (gasLimit tx) (gasLimit tx) (fun _ => gasLimit tx)
                  (Some ErrOutOfGasLimit) outer b' r Hrun)
        as [(-> & mid & Htr & ->) | Hfail].
      * right; right; right.
        exists (gasLimit tx), g, (gasLimit tx), (Some ErrOutOfGasLimit), outer, mid.
        repeat split; auto; lia.
      * right; right; left. exact Hfail.
    + unfold bind at 1, Clone.
      destruct (transfer (from tx) (to tx) (value tx) outer) as [[[] | e] child] eqn:Hchild.
      2:{ intros [= <- <-]. right; right; left. exists e. split; [reflexivity |].
          destruct (transfer_inv _ _ _ _ _ _ Hchild) as [[Hok | (e' & [= <-] & He)] _];
            [discriminate | exact He]. }
      destruct (Execute payload tx child) as [[[gasExecution res] exeErr] child'] eqn:Hexec.
      unfold bind at 1, lift at 1.
      destruct (Uint128.Validate (g + BaseGasCount payload + gasExecution)) as [total |] eqn:Ht;
        [| intros [= <- <-]; right; right; left; eexists; split;
           [reflexivity | exact (Validate_Fail _ _ Ht)]].
      apply Validate_inv in Ht as [-> Htr].
      rewrite Cmp_ltb.
      set (total := g + BaseGasCount payload + gasExecution) in *.
      destruct (Z.ltb_spec (gasLimit tx) total) as [Hclamp | Hfits].
      * unfold bind at 1, ret at 1. intros Hrun.
        destruct (settle_inv C tx (gasLimit tx) (gasLimit tx) (fun gas => gas)
                    (Some ErrOutOfGasLimit) outer b' r Hrun)
          as [(-> & mid & Hfee & ->) | Hfail].
        -- right; right; right.
           exists (gasLimit tx), g, (gasPrice tx * gasLimit tx), (Some ErrOutOfGasLimit),
             outer, mid.
           repeat split; auto; lia.
        -- right; right; left. exact Hfail.
      * destruct exeErr as [err |].
        -- unfold bind at 1, ret at 1. intros Hrun.
           destruct (settle_inv C tx total total (fun gas => gas) (Some err) outer b' r Hrun)
             as [(-> & mid & Hfee & ->) | Hfail].
           ++ right; right; right.
              exists total, g, (gasPrice tx * total), (Some err), outer, mid.
              repeat split; auto; lia.
           ++ right; right; left. exact Hfail.
        -- unfold bind at 1, modify at 1. intros Hrun.
           destruct (settle_inv C tx total total (fun gas => gas) None
                       (Merge outer child') b' r Hrun)
             as [(-> & mid & Hfee & ->) | Hfail].
           ++ right; right; right.
              exists total, g, (gasPrice tx * total), None, (Merge outer child'), mid.
              repeat split; eauto; lia.
           ++ right; right; left. exact Hfail.
  - intros Hrun.
    destruct (settle_inv C tx g g (fun _ => g) (Some payloadErr) outer b' r Hrun)
      as [(-> & mid & Htr & ->) | Hfail].
    + right; right; right.
      exists g, g, g, (Some payloadErr), outer, mid.
      repeat split; auto; lia.
    + right; right; left. exact Hfail.
Qed.

(** X8.  Whenever [VerifyExecution] returns a gas count, the count is within
    the gas limit of the transaction, and the limit covers the base gas
    [GasCountOfTxBase]: no path reports or charges more gas than the limit. *)
Theorem VerifyExecution_gas_within_limit
    (C : Collaborators) (tx : Transaction) (b b' : Block) (used : Uint128.t) :
  VerifyExecution C tx b = (Ok used, b') ->
  0 <= used <= gasLimit tx /\
  exists g, GasCountOfTxBase tx = Ok g /\ g <= gasLimit tx.
Proof.
  intros Hrun.
  destruct (VerifyExecution_inv C tx b b' _ Hrun)
    as [(Hr & _) | [(Hr & _) | [(e & Hr & _) |
        (u & g & gasEv & err & pre & mid & Hr & Hg & Hle & Hu & _)]]];
    try discriminate.
  injection Hr as <-. split; [exact Hu | eauto].
Qed.

Lemma VerifyExecution_gas_within_limit_witness :
  0 <= 20100 <= 20100 /\ exists g,
    GasCountOfTxBase (Fixture.deploy_of Fixture.alice Fixture.alice 1 20100) = Ok g /\
    g <= 20100.
Proof.
  assert (Hrun : VerifyExecution Fixture.collaborators
                   (Fixture.deploy_of Fixture.alice Fixture.alice 1 20100)
                   (Fixture.block_of 1000000)
                 = (Ok 20100,
                    snd (VerifyExecution Fixture.collaborators
                           (Fixture.deploy_of Fixture.alice Fixture.alice 1 20100)
                           (Fixture.block_of 1000000))))
    by (vm_compute; reflexivity).
  exact (VerifyExecution_gas_within_limit _ _ _ _ _ Hrun).
Defined.



(** X10.  Whenever [VerifyExecution] returns a gas count [used], the fee
    [gasPrice * used], which the sender could afford, has been paid by a
    transfer from the sender to the coinbase (the accounts of the result are
    those after that payment) and the result event of the transaction is the
    last event of the block.  If that event reports an error, the fee was paid on the
    block as given (with the sender's account looked up) and the event is
    the only new one; only an event without error can sit on a block merged
    from the child. *)
Theorem VerifyExecution_settles_and_records
    (C : Collaborators) (tx : Transaction) (b b' : Block) (used : Uint128.t) :
  VerifyExecution C tx b = (Ok used, b') ->
  exists gasEv err pre mid,
    transfer (from tx) (coinbase pre) (gasPrice tx * used) pre = (Ok tt, mid) /\
    gasPrice tx * used <= Balance (address (from tx)) pre /\
    accState b' =
      accState (pay (address (from tx)) (address (coinbase b)) (gasPrice tx * used) pre) /\
    eventsState b' = (eventsState pre ++ [(hash tx, result_event C tx gasEv err)])%list /\
    coinbase b' = coinbase b /\
    (gasEv = used \/ gasEv = gasPrice tx * used) /\
    (err <> None ->
     pre = materialize (address (from tx)) b /\
     eventsState b' = (eventsState b ++ [(hash tx, result_event C tx gasEv err)])%list) /\
    (pre <> materialize (address (from tx)) b ->
     err = None /\ exists child, pre = Merge (materialize (address (from tx)) b) child).
Proof.
  intros Hrun.
  destruct (VerifyExecution_inv C tx b b' _ Hrun)
    as [(Hr & _) | [(Hr & _) | [(e & Hr & _) |
        (u & g & gasEv & err & pre & mid & Hr & Hg & Hle & Hu & Hev & Hpre & Htr & ->)]]];
    try discriminate.
  injection Hr as <-.
  destruct (transfer_inv _ _ _ _ _ _ Htr) as (_ & Hmev & Hmcb).
  assert (Hcb : coinbase pre = coinbase b).
  { destruct Hpre as [-> | (_ & child & ->)]; [apply materialize_coinbase |].
    cbn [Merge coinbase]. apply materialize_coinbase. }
  destruct (transfer_Ok_inv _ _ _ _ _ Htr) as [Hmid Hafford].
  exists gasEv, err, pre, mid.
  split; [exact Htr |]. split; [exact Hafford |].
  split; [cbn [with_event accState]; rewrite Hmid, Hcb; reflexivity |].
  split; [cbn [with_event eventsState]; rewrite Hmev; reflexivity |].
  split; [cbn [with_event coinbase]; congruence |].
  split; [exact Hev |]. split.
  - intros Herr. destruct Hpre as [-> | (Hnone & _)]; [| contradiction].
    split; [reflexivity |].
    cbn [with_event eventsState]. rewrite Hmev, materialize_events. reflexivity.
  - intros Hne. destruct Hpre as [-> | Hm]; [contradiction | exact Hm].
Qed.

Lemma VerifyExecution_settles_and_records_witness :
  exists (gasEv : Uint128.t) (err : option Error) (pre mid : Block),
    transfer Fixture.alice (coinbase pre) (2 * 20000) pre = (Ok tt, mid) /\
    (gasEv = 20000 \/ gasEv = 2 * 20000) /\
    (err <> None ->
     pre = materialize (address Fixture.alice) (Fixture.block_of 1000000)).
Proof.
  assert (Hrun : VerifyExecution Fixture.collaborators
                   (Fixture.tx_of Fixture.alice Fixture.bob 0 "transfer" [] 2 20000)
                   (Fixture.block_of 1000000)
                 = (Ok 20000,
                    snd (VerifyExecution Fixture.collaborators
                           (Fixture.tx_of Fixture.alice Fixture.bob 0 "transfer" [] 2 20000)
                           (Fixture.block_of 1000000))))
    by (vm_compute; reflexivity).
  destruct (VerifyExecution_settles_and_records _ _ _ _ _ Hrun)
    as (gasEv & err & pre & mid & Htr & _ & _ & _ & _ & Hev & Herr & _).
  exists gasEv, err, pre, mid.
  split; [exact Htr |]. split; [exact Hev |].
  intros H. exact (proj1 (Herr H)).
Defined.

Lemma Merge_child (outer child : Block) :
  coinbase child = coinbase outer -> Merge outer child = child.
Proof. destruct child. cbn. intros ->. reflexivity. Qed.

Lemma pay_coinbase (src dst : bytes) (v : Uint128.t) (b : Block) :
  coinbase (pay src dst v b) = coinbase b.
Proof. reflexivity. Qed.

(** X11.  A transaction that passes the checks and whose payload executes
    without error, within the gas limit and without touching the block it
    runs on (as a plain transfer does) moves its value and its fee: the
    call returns the gas total [GasCountOfTxBase + BaseGasCount +
    gasExecution], and the block that results is the given one after the
    value has gone from sender to recipient and then the fee
    [gasPrice * total] from sender to coinbase, with the success event
    appended.  For three distinct accounts the sender has lost value and
    fee, the recipient has gained the value, the coinbase the fee. *)
Theorem VerifyExecution_value_and_fee
    (C : Collaborators) (tx : Transaction) (b : Block)
    (g m : Uint128.t) (payload : TxPayload) (gasExecution : Uint128.t) (res : string) :
  let f := address (from tx) in
  let t := address (to tx) in
  let c := address (coinbase b) in
  let total := g + BaseGasCount payload + gasExecution in
  let child := pay f t (value tx) b in
  GasCountOfTxBase tx = Ok g ->
  MinBalanceRequired tx = Ok m ->
  m <= Balance f b ->
  LoadPayload C tx = Ok payload ->
  0 <= BaseGasCount payload -> 0 <= gasExecution ->
  Execute payload tx child = ((gasExecution, res, None), child) ->
  total <= gasLimit tx ->
  gasLimit tx < Uint128.modulus ->
  0 <= gasPrice tx -> 0 <= value tx ->
  Balance f b < Uint128.modulus ->
  0 <= Balance t b + value tx < Uint128.modulus ->
  0 <= Balance c child + gasPrice tx * total < Uint128.modulus ->
  let b' :=
    with_event (hash tx) (result_event C tx (gasPrice tx * total) None)
      (pay f c (gasPrice tx * total) child) in
  VerifyExecution C tx b = (Ok total, b') /\
  (f <> t -> f <> c -> t <> c ->
   Balance f b' = Balance f b - value tx - gasPrice tx * total /\
   Balance t b' = Balance t b + value tx /\
   Balance c b' = Balance c b + gasPrice tx * total).
Proof.
  intros f t c total child Hg Hm Hbal Hload Hbase Hexe Hrun Hfit Hlim Hp Hv Hsrc Hdst Hcb b'.
  pose proof (GasCountOfTxBase_inv _ _ Hg) as [Hgeq Hgr].
  pose proof (DataLen_nonneg tx) as Hlen. unfold MinGasCountPerTransaction in Hgeq.
  pose proof (MinBalanceRequired_inv _ _ Hm) as (Hmeq & Hmul & Hmr).
  assert (Hfee : 0 <= gasPrice tx * total <= gasPrice tx * gasLimit tx) by (subst total; nia).
  assert (Hchild : transfer (from tx) (to tx) (value tx)
                     (materialize (address (from tx)) b) = (Ok tt, child)).
  { rewrite transfer_ok.
    - rewrite pay_after_materialize. reflexivity.
    - rewrite Balance_materialize. fold f. lia.
    - rewrite Balance_materialize. exact Hsrc.
    - rewrite Balance_materialize. exact Hdst. }
  assert (Hgle : g <= gasLimit tx) by (subst total; lia).
  assert (Hbal' : m <= Balance (address (from tx)) b) by exact Hbal.
  split.
  - pass_admission Hg Hm. rewrite Hload.
    unfold bind at 1, lift at 1, Uint128.Add. rewrite Validate_ok by lia.
    rewrite Cmp_ltb.
    destruct (Z.ltb_spec (gasLimit tx) (g + BaseGasCount payload)) as [Hlt | _];
      [subst total; lia |].
    unfold bind at 1, Clone. rewrite Hchild. fold f t child. rewrite Hrun.
    unfold bind at 1, lift at 1. fold total. rewrite Validate_ok by (subst total; lia).
    rewrite Cmp_ltb.
    destruct (Z.ltb_spec (gasLimit tx) total) as [Hlt | _]; [lia |].
    unfold bind at 1, modify at 1.
    rewrite Merge_child by (rewrite materialize_coinbase; reflexivity).
    rewrite (fee_settlement_ok C tx total total (fun gas => gas) None child).
    + reflexivity.
    + split; [lia |]. unfold child. rewrite Balance_pay. fold f t.
      repeat match goal with
             | |- context [decide (?x = ?y)] => destruct (decide (x = y))
             end; try congruence; lia.
    + unfold child. rewrite Balance_pay. fold f t.
      repeat match goal with
             | |- context [decide (?x = ?y)] => destruct (decide (x = y))
             end; try congruence; lia.
    + exact Hcb.
  - intros Hft Hfc Htc. unfold b', child.
    rewrite !Balance_with_event, !Balance_pay.
    repeat match goal with
           | |- context [decide (?x = ?y)] =>
               first [ rewrite (decide_True (P := x = y)) by reflexivity
                     | rewrite (decide_False (P := x = y)) by congruence ]
           end.
    repeat split; lia.
Qed.

(** X11 on the spec's scenario: alice, owning 10^12, sends 100 to bob with
    gas price 10^6 and gas limit 21000; 20000 gas are used. *)
Lemma VerifyExecution_value_and_fee_witness :
  exists b',
    VerifyExecution Fixture.collaborators Fixture.transfer100 (Fixture.block_of (10 ^ 12))
      = (Ok 20000, b') /\
    Balance (address Fixture.alice) b' = 10 ^ 12 - 100 - 20000000000 /\
    Balance (address Fixture.bob) b' = 100 /\
    Balance (address Fixture.miner) b' = 20000000000.
Proof.
  destruct (VerifyExecution_value_and_fee Fixture.collaborators Fixture.transfer100
              (Fixture.block_of (10 ^ 12)) 20000 21000000100
              (BinaryPayload_TxPayload []) 0 EmptyString)
    as (Hrun & Hbal).
  - reflexivity.
  - reflexivity.
  - vm_compute. congruence.
  - reflexivity.
  - vm_compute. congruence.
  - vm_compute. congruence.
  - reflexivity.
  - vm_compute. congruence.
  - vm_compute. reflexivity.
  - vm_compute. congruence.
  - vm_compute. congruence.
  - vm_compute. reflexivity.
  - vm_compute. split; [congruence | reflexivity].
  - vm_compute. split; [congruence | reflexivity].
  - eexists. split; [exact Hrun |].
    exact (Hbal ltac:(vm_compute; congruence) ltac:(vm_compute; congruence)
             ltac:(vm_compute; congruence)).
Defined.

(** ** Signing *)

(** The hash of a transaction does not cover its stored hash, algorithm and
    signature. *)
Lemma HashTransaction_signature_fields (C : Collaborators) (tx : Transaction)
    (h : bytes) (a : Z) (s : bytes) :
  HashTransaction C
    (mkTransaction h (from tx) (to tx) (value tx) (nonce tx) (timestamp tx) (data tx)
       (chainID tx) (gasPrice tx) (gasLimit tx) a s)
  = HashTransaction C tx.
Proof. reflexivity. Qed.

(** X12.  [Sign] either fails and leaves the transaction as it was (a nil
    signer gives [ErrNilArgument]), or succeeds and stores the hash the
    transaction hashes to, the signer's algorithm and the signer's signature
    of that hash, leaving every other field alone.  A transaction signed
    this way always passes the chain-id and hash checks of [VerifyIntegrity]
    on its own chain, so that the answer is the one of the signature check;
    it is nil when the signature recovers to the sender's address. *)
Theorem Sign_then_VerifyIntegrity
    (C : Collaborators) (tx tx' : Transaction) (signature : option Signer)
    (r : result unit) :
  Sign C tx signature = (r, tx') ->
  (signature = None -> r = Fail ErrNilArgument) /\
  (r <> Ok tt -> tx' = tx) /\
  (r = Ok tt ->
   exists s,
     signature = Some s /\
     HashTransaction C tx = Ok (hash tx') /\
     Signer_Sign s (hash tx') = XOk (sign tx') /\
     alg tx' = Signer_Algorithm s /\
     from tx' = from tx /\ to tx' = to tx /\ value tx' = value tx /\
     nonce tx' = nonce tx /\ timestamp tx' = timestamp tx /\ data tx' = data tx /\
     chainID tx' = chainID tx /\ gasPrice tx' = gasPrice tx /\ gasLimit tx' = gasLimit tx /\
     VerifyIntegrity C tx' (chainID tx) = verifySign C tx' /\
     (recoveredAddress C tx' = Ok (from tx) ->
      VerifyIntegrity C tx' (chainID tx) = Ok tt)).
Proof.
  unfold Sign. destruct signature as [s |].
  2:{ intros [= <- <-]. split; [reflexivity |]. split; [reflexivity | discriminate]. }
  destruct (HashTransaction C tx) as [h | e] eqn:Hh.
  2:{ intros [= <- <-]. split; [discriminate |]. split; [reflexivity | discriminate]. }
  destruct (Signer_Sign s h) as [sg | msg] eqn:Hs; cbn [of_xresult].
  2:{ intros [= <- <-]. split; [discriminate |]. split; [reflexivity | discriminate]. }
  intros [= <- <-]. split; [discriminate |]. split; [congruence |].
  intros _. exists s. cbn [hash sign alg from to value nonce timestamp data chainID
                            gasPrice gasLimit].
  repeat (split; [first [reflexivity | assumption] |]).
  assert (Hvi : VerifyIntegrity C
                  (mkTransaction h (from tx) (to tx) (value tx) (nonce tx) (timestamp tx)
                     (data tx) (chainID tx) (gasPrice tx) (gasLimit tx)
                     (Signer_Algorithm s) sg) (chainID tx)
                = verifySign C
                    (mkTransaction h (from tx) (to tx) (value tx) (nonce tx) (timestamp tx)
                       (data tx) (chainID tx) (gasPrice tx) (gasLimit tx)
                       (Signer_Algorithm s) sg)).
  { unfold VerifyIntegrity. cbn [chainID hash]. rewrite Z.eqb_refl. cbn [negb].
    rewrite HashTransaction_signature_fields, Hh. cbn [rbind].
    rewrite bool_decide_eq_true_2 by reflexivity. reflexivity. }
  split; [exact Hvi |].
  intros Hrec. rewrite Hvi, verifySign_recoveredAddress, Hrec. cbn [from].
  unfold Address_Equals. rewrite bool_decide_eq_true_2 by reflexivity. reflexivity.
Qed.

(** X12 on the transfer of alice signed by a signer that recovers to
    alice. *)
Lemma Sign_then_VerifyIntegrity_witness :
  exists tx',
    Sign Fixture.collaborators Fixture.transfer100 (Some (Samples.signer_of Fixture.alice))
      = (Ok tt, tx') /\
    VerifyIntegrity Fixture.collaborators tx' 1 = Ok tt.
Proof.
  eexists. split; [reflexivity |].
  destruct (proj2 (proj2 (Sign_then_VerifyIntegrity Fixture.collaborators
                            Fixture.transfer100 _ (Some (Samples.signer_of Fixture.alice))
                            (Ok tt) eq_refl)) eq_refl)
    as (s & _ & _ & _ & _ & _ & _ & _ & _ & _ & _ & _ & _ & _ & _ & Hok).
  apply Hok. reflexivity.
Defined.

(** ** Wire form *)

(** X13.  Whatever [FromProto] accepts is a transaction message with a
    payload of at most [MaxDataPayLoadLength] bytes; the receiver then holds
    exactly the fields of the message (addresses and numbers as decoded),
    nothing of what it held before, and its base gas is 20000 plus the
    payload length. *)
Theorem FromProto_accepted
    (K : Codecs) (tx tx' : Transaction) (msg : proto_Message) :
  FromProto K tx msg = (None, tx') ->
  exists m d,
    msg = Msg_Transaction m /\ pb_Data m = Some d /\
    Z.of_nat (length (Payload d)) <= MaxDataPayLoadLength /\
    hash tx' = pb_Hash m /\
    AddressParseFromBytes K (pb_From m) = XOk (from tx') /\
    AddressParseFromBytes K (pb_To m) = XOk (to tx') /\
    NewUint128FromFixedSizeByteSlice K (pb_Value m) = XOk (value tx') /\
    nonce tx' = pb_Nonce m /\ timestamp tx' = pb_Timestamp m /\
    data tx' = d /\ chainID tx' = pb_ChainId m /\
    NewUint128FromFixedSizeByteSlice K (pb_GasPrice m) = XOk (gasPrice tx') /\
    NewUint128FromFixedSizeByteSlice K (pb_GasLimit m) = XOk (gasLimit tx') /\
    alg tx' = Algorithm_of_uint32 K (pb_Alg m) /\ sign tx' = pb_Sign m /\
    (forall other, FromProto K other msg = (None, tx')) /\
    GasCountOfTxBase tx' = Ok (20000 + Z.of_nat (length (Payload d))).
Proof.
  unfold FromProto. destruct msg as [m |]; [| discriminate].
  destruct (AddressParseFromBytes K (pb_From m)) as [f |] eqn:Hf; [| discriminate].
  destruct (AddressParseFromBytes K (pb_To m)) as [t |] eqn:Ht; [| discriminate].
  destruct (NewUint128FromFixedSizeByteSlice K (pb_Value m)) as [v |] eqn:Hv;
    [| discriminate].
  destruct (pb_Data m) as [d |] eqn:Hd; [| discriminate].
  destruct (Z.ltb_spec MaxDataPayLoadLength (Z.of_nat (length (Payload d)))) as [| Hlen];
    [discriminate |].
  destruct (NewUint128FromFixedSizeByteSlice K (pb_GasPrice m)) as [gp |] eqn:Hgp;
    [| discriminate].
  destruct (NewUint128FromFixedSizeByteSlice K (pb_GasLimit m)) as [gl |] eqn:Hgl;
    [| discriminate].
  intros [= <-]. exists m, d.
  cbn [set_gasLimit_alg_sign set_gasPrice set_data_chainID set_value_nonce_timestamp
       set_to set_from set_hash hash from to value nonce timestamp data chainID
       gasPrice gasLimit alg sign].
  repeat (split; [first [reflexivity | assumption] |]).
  rewrite GasCountOfTxBase_ok.
  - unfold MinGasCountPerTransaction, GasCountPerByte, DataLen.
    unfold set_gasLimit_alg_sign, set_gasPrice, set_data_chainID. cbn [data Payload].
    f_equal. lia.
  - unfold MinGasCountPerTransaction, Uint128.modulus, DataLen, MaxDataPayLoadLength in *.
    unfold set_gasLimit_alg_sign, set_gasPrice, set_data_chainID. cbn [data Payload]. lia.
Qed.

(** X14.  [FromProto] writes the receiver field by field and stops at the
    first error.  A message of another type gives
    [ErrCannotConvertTransaction] and leaves the receiver alone.  A
    transaction message whose addresses and value decode but whose data is
    nil, or longer than [MaxDataPayLoadLength], gives
    [ErrInvalidTransactionData], respectively
    [ErrTxDataPayLoadOutOfMaxLength], and leaves a receiver that has the
    hash, addresses, value, nonce and timestamp of the message and still its
    own data, chain id, gas price, gas limit, algorithm and signature. *)
Theorem FromProto_stops_at_first_error
    (K : Codecs) (tx : Transaction) :
  FromProto K tx Msg_Other = (Some ErrCannotConvertTransaction, tx) /\
  forall m f t v,
    AddressParseFromBytes K (pb_From m) = XOk f ->
    AddressParseFromBytes K (pb_To m) = XOk t ->
    NewUint128FromFixedSizeByteSlice K (pb_Value m) = XOk v ->
    let half :=
      mkTransaction (pb_Hash m) f t v (pb_Nonce m) (pb_Timestamp m) (data tx)
        (chainID tx) (gasPrice tx) (gasLimit tx) (alg tx) (sign tx) in
    (pb_Data m = None ->
     FromProto K tx (Msg_Transaction m) = (Some ErrInvalidTransactionData, half)) /\
    (forall d,
       pb_Data m = Some d ->
       MaxDataPayLoadLength < Z.of_nat (length (Payload d)) ->
       FromProto K tx (Msg_Transaction m)
       = (Some (ErrCore ErrTxDataPayLoadOutOfMaxLength), half)).
Proof.
  split; [reflexivity |].
  intros m f t v Hf Ht Hv half. unfold FromProto. rewrite Hf, Ht, Hv. split.
  - intros ->. reflexivity.
  - intros d -> Hlen.
    destruct (Z.ltb_spec MaxDataPayLoadLength (Z.of_nat (length (Payload d))));
      [reflexivity | lia].
Qed.

Lemma FromProto_stops_at_first_error_witness :
  FromProto Samples.codecs Fixture.transfer100
    (Msg_Transaction
       (mkPbTransaction [x01] [x0b] [x0a] (be_bytes 16 7) 9 8 None 2 [] [] 0 []))
  = (Some ErrInvalidTransactionData,
     mkTransaction [x01] Fixture.bob Fixture.alice 7 9 8 (mkData "binary" []) 1
       1000000 21000 0 []).
Proof.
  apply (proj2 (FromProto_stops_at_first_error Samples.codecs Fixture.transfer100)
           (mkPbTransaction [x01] [x0b] [x0a] (be_bytes 16 7) 9 8 None 2 [] [] 0 [])
           Fixture.bob Fixture.alice 7 eq_refl eq_refl
           ltac:(vm_compute; reflexivity)).
  reflexivity.
Defined.

(** X15.  Round trip through the wire form.  If [ToProto] succeeds on a
    transaction whose payload is within [MaxDataPayLoadLength] and the
    decoders read back what the encoders wrote (the two addresses, the
    three numbers in their sixteen bytes, the algorithm), then [FromProto]
    on the message rebuilds that very transaction, whatever the receiver
    held. *)
Theorem ToProto_FromProto
    (K : Codecs) (tx other : Transaction) (m : corepb_Transaction) :
  ToProto K tx = Ok m ->
  DataLen tx <= MaxDataPayLoadLength ->
  AddressParseFromBytes K (address (from tx)) = XOk (from tx) ->
  AddressParseFromBytes K (address (to tx)) = XOk (to tx) ->
  NewUint128FromFixedSizeByteSlice K (be_bytes 16 (value tx)) = XOk (value tx) ->
  NewUint128FromFixedSizeByteSlice K (be_bytes 16 (gasPrice tx)) = XOk (gasPrice tx) ->
  NewUint128FromFixedSizeByteSlice K (be_bytes 16 (gasLimit tx)) = XOk (gasLimit tx) ->
  Algorithm_of_uint32 K (uint32_of_Algorithm K (alg tx)) = alg tx ->
  FromProto K other (Msg_Transaction m) = (None, tx).
Proof.
  unfold ToProto, Uint128.ToFixedSizeByteSlice.
  destruct (Uint128.Validate (value tx)) as [v |] eqn:Hv; [| discriminate].
  apply Validate_inv in Hv as [-> Hvr]. cbn [rbind].
  destruct (Uint128.Validate (gasPrice tx)) as [gp |] eqn:Hgp; [| discriminate].
  apply Validate_inv in Hgp as [-> Hgpr]. cbn [rbind].
  destruct (Uint128.Validate (gasLimit tx)) as [gl |] eqn:Hgl; [| discriminate].
  apply Validate_inv in Hgl as [-> Hglr]. cbn [rbind].
  intros Hm Hlen Hf Ht Hdv Hdp Hdl Halg.
  assert (Hmsg : mkPbTransaction (hash tx) (address (from tx)) (address (to tx))
                   (be_bytes 16 (value tx)) (nonce tx) (timestamp tx) (Some (data tx))
                   (chainID tx) (be_bytes 16 (gasPrice tx)) (be_bytes 16 (gasLimit tx))
                   (uint32_of_Algorithm K (alg tx)) (sign tx) = m) by congruence.
  clear Hm. subst m.
  unfold FromProto. cbn [pb_Hash pb_From pb_To pb_Value pb_Nonce pb_Timestamp pb_Data
                         pb_ChainId pb_GasPrice pb_GasLimit pb_Alg pb_Sign].
  rewrite Hf, Ht, Hdv, Hdp, Hdl.
  unfold DataLen in Hlen.
  destruct (Z.ltb_spec MaxDataPayLoadLength (Z.of_nat (length (Payload (data tx)))));
    [lia |].
  rewrite Halg. destruct tx. reflexivity.
Qed.

(** X15 on the signed transfer of alice, read back into an empty
    receiver. *)
Lemma ToProto_FromProto_witness :
  exists m,
    ToProto Samples.codecs (Fixture.signed Fixture.alice Fixture.transfer100) = Ok m /\
    FromProto Samples.codecs Samples.empty_tx (Msg_Transaction m)
    = (None, Fixture.signed Fixture.alice Fixture.transfer100).
Proof.
  eexists. split; [reflexivity |].
  apply (ToProto_FromProto Samples.codecs (Fixture.signed Fixture.alice Fixture.transfer100)).
  - reflexivity.
  - vm_compute. congruence.
  - reflexivity.
  - reflexivity.
  - vm_compute. reflexivity.
  - vm_compute. reflexivity.
  - vm_compute. reflexivity.
  - reflexivity.
Defined.

(** X13 on the wire form of the signed transfer of alice. *)
Lemma FromProto_accepted_witness :
  GasCountOfTxBase (Fixture.signed Fixture.alice Fixture.transfer100) = Ok 20000.
Proof.
  destruct (FromProto_accepted Samples.codecs Samples.empty_tx
              (Fixture.signed Fixture.alice Fixture.transfer100)
              (Msg_Transaction
                 (mkPbTransaction
                    (hash (Fixture.signed Fixture.alice Fixture.transfer100))
                    [x0a] [x0b] (be_bytes 16 100) 1 0 (Some (mkData "binary" [])) 1
                    (be_bytes 16 1000000) (be_bytes 16 21000) 1 [x0a]))
              ltac:(vm_compute; reflexivity))
    as (m & d & Hmsg & Hd & _ & _ & _ & _ & _ & _ & _ & _ & _ & _ & _ & _ & _ & _ & Hgas).
  injection Hmsg as <-. cbn [pb_Data] in Hd. injection Hd as <-. exact Hgas.
Defined.

(** ** The genesis configuration against the database *)

Lemma check_dynasty_None (conf db : list string) :
  check_dynasty conf db = None <-> forall a, In a conf -> In a db.
Proof.
  induction conf as [| c rest IH]; cbn [check_dynasty].
  - split; [intros _ a [] | reflexivity].
  - destruct (existsb (fun d => String.eqb d c) db) eqn:Hex.
    + apply existsb_exists in Hex as (d & Hd & Heq). apply String.eqb_eq in Heq as ->.
      rewrite IH. split.
      * intros H a [<- | Ha]; [exact Hd | exact (H a Ha)].
      * intros H a Ha. apply H. right. exact Ha.
    + split; [discriminate |]. intros H.
      assert (Hc : In c db) by (apply H; left; reflexivity).
      assert (Htrue : existsb (fun d => String.eqb d c) db = true).
      { apply existsb_exists. exists c. split; [exact Hc | apply String.eqb_refl]. }
      congruence.
Qed.

Lemma check_dynasty_Some (conf db : list string) (e : GenesisError) :
  check_dynasty conf db = Some e ->
  e = ErrGenesisNotEqualDynastyInDB /\ exists a, In a conf /\ ~ In a db.
Proof.
  induction conf as [| c rest IH]; cbn [check_dynasty]; [discriminate |].
  destruct (existsb (fun d => String.eqb d c) db) eqn:Hex.
  - intros H. destruct (IH H) as (-> & a & Ha & Hna).
    split; [reflexivity |]. exists a. split; [right; exact Ha | exact Hna].
  - intros [= <-]. split; [reflexivity |]. exists c. split; [left; reflexivity |].
    intros Hc.
    assert (Htrue : existsb (fun d => String.eqb d c) db = true).
    { apply existsb_exists. exists c. split; [exact Hc | apply String.eqb_refl]. }
    congruence.
Qed.

Lemma distribution_eqb (d c : GenesisTokenDistribution) :
  String.eqb (gtd_Address d) (gtd_Address c) && String.eqb (gtd_Value d) (gtd_Value c) = true
  <-> d = c.
Proof.
  rewrite andb_true_iff, !String.eqb_eq. destruct d, c; cbn. split.
  - intros [-> ->]. reflexivity.
  - intros [= -> ->]. auto.
Qed.

Lemma check_distribution_None (conf db : list GenesisTokenDistribution) :
  check_distribution conf db = None <-> forall d, In d conf -> In d db.
Proof.
  induction conf as [| c rest IH]; cbn [check_distribution].
  - split; [intros _ a [] | reflexivity].
  - match goal with |- context [existsb ?f db] => destruct (existsb f db) eqn:Hex end.
    + apply existsb_exists in Hex as (d & Hd & Heq). apply distribution_eqb in Heq as ->.
      rewrite IH. split.
      * intros H a [<- | Ha]; [exact Hd | exact (H a Ha)].
      * intros H a Ha. apply H. right. exact Ha.
    + split; [discriminate |]. intros H.
      assert (Hc : In c db) by (apply H; left; reflexivity).
      match type of Hex with
      | existsb ?f db = false =>
          assert (Htrue : existsb f db = true)
            by (apply existsb_exists; exists c; split;
                [exact Hc | apply distribution_eqb; reflexivity])
      end.
      congruence.
Qed.

Lemma check_distribution_Some (conf db : list GenesisTokenDistribution) (e : GenesisError) :
  check_distribution conf db = Some e ->
  e = ErrGenesisNotEqualTokenInDB /\ exists d, In d conf /\ ~ In d db.
Proof.
  induction conf as [| c rest IH]; cbn [check_distribution]; [discriminate |].
  match goal with |- context [existsb ?f db] => destruct (existsb f db) eqn:Hex end.
  - intros H. destruct (IH H) as (-> & a & Ha & Hna).
    split; [reflexivity |]. exists a. split; [right; exact Ha | exact Hna].
  - intros [= <-]. split; [reflexivity |]. exists c. split; [left; reflexivity |].
    intros Hc.
    match type of Hex with
    | existsb ?f db = false =>
        assert (Htrue : existsb f db = true)
          by (apply existsb_exists; exists c; split;
              [exact Hc | apply distribution_eqb; reflexivity])
    end.
    congruence.
Qed.

(** X16.  [CheckGenesisConfByDB] accepts exactly when there is no database
    configuration, or the chain ids are equal, the two dynasties have the
    same length, the two token distributions have the same length, every
    dynasty member of the configuration occurs in the database's dynasty,
    and every distribution entry of the configuration occurs (same address
    string, same value string) in the database's distribution.  Order and
    multiplicity are not compared. *)
Theorem CheckGenesisConfByDB_accepts_iff (pGenesisDB : option Genesis) (pGenesis : Genesis) :
  CheckGenesisConfByDB pGenesisDB pGenesis = None <->
  match pGenesisDB with
  | None => True
  | Some db =>
      Meta_ChainId pGenesis = Meta_ChainId db /\
      length (Dpos_Dynasty pGenesis) = length (Dpos_Dynasty db) /\
      length (TokenDistribution pGenesis) = length (TokenDistribution db) /\
      (forall a, In a (Dpos_Dynasty pGenesis) -> In a (Dpos_Dynasty db)) /\
      (forall d, In d (TokenDistribution pGenesis) -> In d (TokenDistribution db))
  end.
Proof.
  destruct pGenesisDB as [db |]; [| split; auto].
  unfold CheckGenesisConfByDB.
  destruct (Z.eqb_spec (Meta_ChainId pGenesis) (Meta_ChainId db)) as [Hc | Hc]; cbn [negb].
  2:{ split; [discriminate | intros (H & _); contradiction]. }
  destruct (Nat.eqb_spec (length (Dpos_Dynasty pGenesis)) (length (Dpos_Dynasty db)))
    as [Hd | Hd]; cbn [negb].
  2:{ split; [discriminate | intros (_ & H & _); contradiction]. }
  destruct (Nat.eqb_spec (length (TokenDistribution pGenesis))
              (length (TokenDistribution db))) as [Ht | Ht]; cbn [negb].
  2:{ split; [discriminate | intros (_ & _ & H & _); contradiction]. }
  destruct (check_dynasty (Dpos_Dynasty pGenesis) (Dpos_Dynasty db)) as [e |] eqn:Hdyn.
  - split; [discriminate |]. intros (_ & _ & _ & H & _).
    apply (proj2 (check_dynasty_None _ _)) in H. congruence.
  - pose proof (proj1 (check_dynasty_None _ _) Hdyn) as Hall.
    rewrite check_distribution_None. tauto.
Qed.

(** X17.  Each error of [CheckGenesisConfByDB] names the first check that
    failed: the chain id, then the length of the dynasty, then the length of
    the token distribution, then a dynasty member of the configuration
    missing in the database, then a distribution entry missing in the
    database; all the checks before it have passed. *)
Theorem CheckGenesisConfByDB_first_failure (db pGenesis : Genesis) (e : GenesisError) :
  CheckGenesisConfByDB (Some db) pGenesis = Some e ->
  match e with
  | ErrGenesisNotEqualChainIDInDB => Meta_ChainId pGenesis <> Meta_ChainId db
  | ErrGenesisNotEqualDynastyLenInDB =>
      Meta_ChainId pGenesis = Meta_ChainId db /\
      length (Dpos_Dynasty pGenesis) <> length (Dpos_Dynasty db)
  | ErrGenesisNotEqualTokenLenInDB =>
      Meta_ChainId pGenesis = Meta_ChainId db /\
      length (Dpos_Dynasty pGenesis) = length (Dpos_Dynasty db) /\
      length (TokenDistribution pGenesis) <> length (TokenDistribution db)
  | ErrGenesisNotEqualDynastyInDB =>
      Meta_ChainId pGenesis = Meta_ChainId db /\
      length (Dpos_Dynasty pGenesis) = length (Dpos_Dynasty db) /\
      length (TokenDistribution pGenesis) = length (TokenDistribution db) /\
      exists a, In a (Dpos_Dynasty pGenesis) /\ ~ In a (Dpos_Dynasty db)
  | ErrGenesisNotEqualTokenInDB =>
      Meta_ChainId pGenesis = Meta_ChainId db /\
      length (Dpos_Dynasty pGenesis) = length (Dpos_Dynasty db) /\
      length (TokenDistribution pGenesis) = length (TokenDistribution db) /\
      (forall a, In a (Dpos_Dynasty pGenesis) -> In a (Dpos_Dynasty db)) /\
      exists d, In d (TokenDistribution pGenesis) /\ ~ In d (TokenDistribution db)
  end.
Proof.
  unfold CheckGenesisConfByDB.
  destruct (Z.eqb_spec (Meta_ChainId pGenesis) (Meta_ChainId db)) as [Hc | Hc]; cbn [negb].
  2:{ intros [= <-]. exact Hc. }
  destruct (Nat.eqb_spec (length (Dpos_Dynasty pGenesis)) (length (Dpos_Dynasty db)))
    as [Hd | Hd]; cbn [negb].
  2:{ intros [= <-]. auto. }
  destruct (Nat.eqb_spec (length (TokenDistribution pGenesis))
              (length (TokenDistribution db))) as [Ht | Ht]; cbn [negb].
  2:{ intros [= <-]. auto. }
  destruct (check_dynasty (Dpos_Dynasty pGenesis) (Dpos_Dynasty db)) as [e' |] eqn:Hdyn.
  - intros [= <-]. destruct (check_dynasty_Some _ _ _ Hdyn) as (-> & Hex). auto.
  - intros Hdist. destruct (check_distribution_Some _ _ _ Hdist) as (-> & Hex).
    pose proof (proj1 (check_dynasty_None _ _) Hdyn) as Hall. auto.
Qed.

Lemma CheckGenesisConfByDB_first_failure_witness :
  Meta_ChainId (mkGenesis 1 ["n1"; "n3"] []) = Meta_ChainId (mkGenesis 1 ["n1"; "n2"] []) /\
  length (Dpos_Dynasty (mkGenesis 1 ["n1"; "n3"] []))
    = length (Dpos_Dynasty (mkGenesis 1 ["n1"; "n2"] [])) /\
  length (TokenDistribution (mkGenesis 1 ["n1"; "n3"] []))
    = length (TokenDistribution (mkGenesis 1 ["n1"; "n2"] [])) /\
  exists a, In a ["n1"; "n3"] /\ ~ In a ["n1"; "n2"].
Proof.
  exact (CheckGenesisConfByDB_first_failure (mkGenesis 1 ["n1"; "n2"] [])
           (mkGenesis 1 ["n1"; "n3"] []) ErrGenesisNotEqualDynastyInDB eq_refl).
Defined.

Lemma included_NoDup_Permutation {A : Type} (l k : list A) :
  NoDup l -> length l = length k -> (forall x, In x l -> In x k) -> Permutation l k.
Proof.
  intros Hnd Hlen Hin. apply submseteq_length_Permutation; [| lia].
  apply NoDup_submseteq; [exact Hnd |].
  intros x Hx. apply list_elem_of_In. apply Hin. apply list_elem_of_In. exact Hx.
Qed.

(** X18.  [CheckGenesisConfByDB] accepts every database configuration that is
    a reordering of the configuration (same chain id, dynasty and token
    distribution permuted).  Conversely, when it accepts and the dynasty of
    the configuration has no duplicate, the database's dynasty is a
    reordering of it; likewise for the token distribution. *)
Theorem CheckGenesisConfByDB_reordering (db pGenesis : Genesis) :
  (Meta_ChainId pGenesis = Meta_ChainId db ->
   Permutation (Dpos_Dynasty pGenesis) (Dpos_Dynasty db) ->
   Permutation (TokenDistribution pGenesis) (TokenDistribution db) ->
   CheckGenesisConfByDB (Some db) pGenesis = None) /\
  (CheckGenesisConfByDB (Some db) pGenesis = None ->
   (NoDup (Dpos_Dynasty pGenesis) ->
    Permutation (Dpos_Dynasty pGenesis) (Dpos_Dynasty db)) /\
   (NoDup (TokenDistribution pGenesis) ->
    Permutation (TokenDistribution pGenesis) (TokenDistribution db))).
Proof.
  split.
  - intros Hc Hd Ht. unfold CheckGenesisConfByDB.
    rewrite (proj2 (Z.eqb_eq _ _) Hc). cbn [negb].
    rewrite (proj2 (Nat.eqb_eq _ _) (Permutation_length Hd)). cbn [negb].
    rewrite (proj2 (Nat.eqb_eq _ _) (Permutation_length Ht)). cbn [negb].
    rewrite (proj2 (check_dynasty_None _ _)) by (intros a; apply Permutation_in, Hd).
    apply check_distribution_None. intros d. apply Permutation_in, Ht.
  - unfold CheckGenesisConfByDB.
    destruct (Z.eqb_spec (Meta_ChainId pGenesis) (Meta_ChainId db)); cbn [negb];
      [| discriminate].
    destruct (Nat.eqb_spec (length (Dpos_Dynasty pGenesis)) (length (Dpos_Dynasty db)))
      as [Hd | Hd]; cbn [negb]; [| discriminate].
    destruct (Nat.eqb_spec (length (TokenDistribution pGenesis))
                (length (TokenDistribution db))) as [Ht | Ht]; cbn [negb]; [| discriminate].
    destruct (check_dynasty (Dpos_Dynasty pGenesis) (Dpos_Dynasty db)) eqn:Hdyn;
      [discriminate |].
    intros Hdist. split; intros Hnd.
    + apply included_NoDup_Permutation; [exact Hnd | exact Hd |].
      exact (proj1 (check_dynasty_None _ _) Hdyn).
    + apply included_NoDup_Permutation; [exact Hnd | exact Ht |].
      exact (proj1 (check_distribution_None _ _) Hdist).
Qed.

Lemma CheckGenesisConfByDB_reordering_witness :
  CheckGenesisConfByDB
    (Some (mkGenesis 1 ["n2"; "n1"] [mkGenesisTokenDistribution "a1" "100"]))
    (mkGenesis 1 ["n1"; "n2"] [mkGenesisTokenDistribution "a1" "100"]) = None /\
  Permutation ["n1"; "n2"] ["n2"; "n1"].
Proof.
  split.
  - apply (proj1 (CheckGenesisConfByDB_reordering
                    (mkGenesis 1 ["n2"; "n1"] [mkGenesisTokenDistribution "a1" "100"])
                    (mkGenesis 1 ["n1"; "n2"] [mkGenesisTokenDistribution "a1" "100"]))).
    + reflexivity.
    + apply perm_swap.
    + apply Permutation_refl.
  - apply (proj2 (CheckGenesisConfByDB_reordering
                    (mkGenesis 1 ["n2"; "n1"] [mkGenesisTokenDistribution "a1" "100"])
                    (mkGenesis 1 ["n1"; "n2"] [mkGenesisTokenDistribution "a1" "100"]))
             eq_refl).
    cbn. apply NoDup_cons_2; [| apply NoDup_cons_2; [| apply NoDup_nil_2]].
    + intros H. apply list_elem_of_In in H. destruct H as [H | []]. discriminate H.
    + intros H. apply list_elem_of_In in H. destruct H.
Defined.

(** ** Dry runs *)

(** X19.  [LocalExecution] makes no admission check and no value transfer:
    neither the gas limit nor any balance is consulted.  Without a block it
    fails with [ErrNilArgument]; a payload that does not decode gives the
    decode error back to the caller; otherwise the payload runs on the block
    as given and the call reports [GasCountOfTxBase + BaseGasCount +
    gasExecution], however that compares to the gas limit, with the result
    and the error of the execution. *)
Theorem LocalExecution_reports (C : Collaborators) (tx : Transaction) :
  LocalExecution C tx None = (None, EmptyString, Some ErrNilArgument) /\
  (forall b e,
     LoadPayload C tx = Fail e ->
     LocalExecution C tx (Some b) = (None, EmptyString, Some e)) /\
  (forall b payload g gasExecution res exeErr after,
     LoadPayload C tx = Ok payload ->
     GasCountOfTxBase tx = Ok g ->
     Execute payload tx b = ((gasExecution, res, exeErr), after) ->
     0 <= BaseGasCount payload -> 0 <= gasExecution ->
     g + BaseGasCount payload + gasExecution < Uint128.modulus ->
     LocalExecution C tx (Some b)
     = (Some (g + BaseGasCount payload + gasExecution), res, exeErr)).
Proof.
  split; [reflexivity |]. split.
  - intros b e Hload. unfold LocalExecution, Clone. rewrite Hload. reflexivity.
  - intros b payload g gasExecution res exeErr after Hload Hg Hexec Hbase Hexe Hsum.
    pose proof (GasCountOfTxBase_inv _ _ Hg) as [_ Hgr].
    unfold LocalExecution, Clone. rewrite Hload, Hg.
    unfold Uint128.Add. rewrite Validate_ok by lia. rewrite Hexec.
    rewrite Validate_ok by lia. reflexivity.
Qed.

(** X19 on a deployment of alice addressed to bob, with a gas limit of 1
    and on a block where alice owns nothing: the dry run reports the base
    gas 20073 and the error of the execution. *)
Lemma LocalExecution_reports_witness :
  LocalExecution Fixture.collaborators (Fixture.deploy_of Fixture.alice Fixture.bob 1 1)
    (Some (Fixture.block_of 0))
  = (Some 20073, EmptyString, Some ErrContractTransactionAddressNotEqual).
Proof.
  apply (proj2 (proj2 (LocalExecution_reports Fixture.collaborators
                         (Fixture.deploy_of Fixture.alice Fixture.bob 1 1)))
           (Fixture.block_of 0)
           (DeployPayload_TxPayload Fixture.collaborators Fixture.counter)
           20073 0 EmptyString (Some ErrContractTransactionAddressNotEqual)
           (Fixture.block_of 0)).
  - reflexivity.
  - reflexivity.
  - vm_compute. reflexivity.
  - vm_compute. congruence.
  - vm_compute. congruence.
  - vm_compute. reflexivity.
Defined.

(** ** A deployment that reaches the engine *)

Lemma int64_of_uint64_small (n : Z) : 0 <= n < 2 ^ 63 -> int64_of_uint64 n = n.
Proof.
  intros Hn. unfold int64_of_uint64.
  rewrite Z.mod_small by lia. lia.
Qed.

Lemma int64_of_uint64_large (n : Z) :
  2 ^ 63 <= n < 2 ^ 64 -> int64_of_uint64 n = n - 2 ^ 64.
Proof.
  intros Hn. unfold int64_of_uint64.
  replace (n + 2 ^ 63) with ((n - 2 ^ 63) + 1 * 2 ^ 64) by lia.
  rewrite Z.mod_add by lia. rewrite Z.mod_small by lia. lia.
Qed.

(** X20.  A deployment whose two preconditions hold, whose contract address
    is derived and whose engine is created and limited runs the engine's
    deploy-and-init on the block that holds the sender's account and the
    new contract account, with the low 64 bits of [gasLimit -
    GasCountOfTxBase] as instruction limit.  [Execute] then returns the
    instruction count the engine reports together with the engine's result
    and error (an error of the deployment does not hide the gas) and leaves
    the block as the engine left it.  A count of 2^63 or more does not fit
    [int64]: it comes out as [ErrUint128Underflow] with zero gas, and the
    engine's result and error are lost. *)
Theorem DeployPayload_Execute_runs
    (C : Collaborators) (payload : DeployPayload) (tx : Transaction) (block : Block)
    (g : Uint128.t) (addr : Address)
    (engine limited done : Engine (nvm C))
    (res : string) (exeErr : option Error) (after : Block) (n : Z) :
  from tx = to tx ->
  GasCountOfTxBase tx = Ok g ->
  0 < gasLimit tx - g ->
  gasLimit tx < Uint128.modulus ->
  GenerateContractAddress C tx = Ok addr ->
  CreateEngine (nvm C) (deploy_accounts tx addr block) tx
    (address (from tx)) (address addr) = XOk engine ->
  SetEngineExecutionLimits (nvm C) engine ((gasLimit tx - g) mod 2 ^ 64) = XOk limited ->
  DeployAndInitEngine (nvm C) limited (Source payload) (SourceType payload) (Args payload)
    (deploy_accounts tx addr block) = ((res, exeErr, done), after) ->
  ExecutionInstructions (nvm C) done = XOk n ->
  0 <= n < 2 ^ 64 ->
  DeployPayload_Execute C payload tx block =
  if n <? 2 ^ 63 then ((n, res, exeErr), after)
  else ((0, EmptyString, Some ErrUint128Underflow), after).
Proof.
  intros Heq Hg Hpos Hlim Haddr Hcreate Hlimit Hdeploy Hcount Hn.
  pose proof (GasCountOfTxBase_inv _ _ Hg) as [_ Hgr].
  unfold DeployPayload_Execute, Address_Equals, DeployPayload_BaseGasCount, Uint128.NewUint128.
  rewrite bool_decide_eq_true_2 by exact Heq. cbn [negb].
  unfold bind at 1, lift at 1.
  rewrite (PayloadGasLimit_ok tx 0 g Hg) by lia.
  rewrite Cmp_leb. destruct (Z.leb_spec (gasLimit tx - g - 0) 0) as [Hc | _]; [lia |].
  unfold bind at 1, lift at 1. rewrite Haddr.
  unfold deploy_accounts in Hcreate, Hdeploy |- *.
  unfold bind at 1. rewrite GetOrCreateUserAccount_eq.
  rewrite GetOrCreateUserAccount_eq in Hcreate, Hdeploy. cbn [snd] in Hcreate, Hdeploy.
  unfold bind at 1, CreateContractAccount at 1.
  unfold CreateContractAccount in Hcreate, Hdeploy. cbn [snd] in Hcreate, Hdeploy.
  unfold bind at 1. rewrite Hcreate. cbn [of_xresult].
  unfold bind at 1, lift at 1, Uint128.Uint64.
  replace (gasLimit tx - g - 0) with (gasLimit tx - g) by lia.
  rewrite Hlimit. cbn [of_xresult].
  unfold bind at 1. rewrite Hdeploy.
  unfold bind at 1, lift at 1. rewrite Hcount. cbn [of_xresult].
  unfold bind at 1, lift at 1, Uint128.NewUint128FromInt.
  destruct (Z.ltb_spec n (2 ^ 63)) as [Hsmall | Hlarge].
  - rewrite int64_of_uint64_small by lia.
    rewrite Validate_ok by (unfold Uint128.modulus; lia). reflexivity.
  - rewrite int64_of_uint64_large by lia.
    rewrite Validate_underflow by lia. reflexivity.
Qed.

(** X20 on a deployment of alice with an engine that succeeds after 100
    instructions, and with one that reports 2^63 instructions. *)
Lemma DeployPayload_Execute_runs_witness :
  DeployPayload_Execute Fixture.collaborators Fixture.counter
    (Fixture.deploy_of Fixture.alice Fixture.alice 1 30000) (Fixture.block_of 1000000)
  = ((100, EmptyString, None),
     deploy_accounts (Fixture.deploy_of Fixture.alice Fixture.alice 1 30000)
       Fixture.contract_of_alice (Fixture.block_of 1000000)) /\
  DeployPayload_Execute (Fixture.with_nvm (Fixture.nvm_of true (2 ^ 63) None)) Fixture.counter
    (Fixture.deploy_of Fixture.alice Fixture.alice 1 30000) (Fixture.block_of 1000000)
  = ((0, EmptyString, Some ErrUint128Underflow),
     deploy_accounts (Fixture.deploy_of Fixture.alice Fixture.alice 1 30000)
       Fixture.contract_of_alice (Fixture.block_of 1000000)).
Proof.
  split.
  - apply (DeployPayload_Execute_runs Fixture.collaborators Fixture.counter
             (Fixture.deploy_of Fixture.alice Fixture.alice 1 30000)
             (Fixture.block_of 1000000) 20073 Fixture.contract_of_alice
             0 9927 9927 EmptyString None
             (deploy_accounts (Fixture.deploy_of Fixture.alice Fixture.alice 1 30000)
                Fixture.contract_of_alice (Fixture.block_of 1000000)) 100);
      try reflexivity; vm_compute; try split; congruence.
  - apply (DeployPayload_Execute_runs (Fixture.with_nvm (Fixture.nvm_of true (2 ^ 63) None))
             Fixture.counter
             (Fixture.deploy_of Fixture.alice Fixture.alice 1 30000)
             (Fixture.block_of 1000000) 20073 Fixture.contract_of_alice
             0 9927 9927 EmptyString None
             (deploy_accounts (Fixture.deploy_of Fixture.alice Fixture.alice 1 30000)
                Fixture.contract_of_alice (Fixture.block_of 1000000)) (2 ^ 63));
      try reflexivity; vm_compute; try split; congruence.
Defined.

(** X4 on a transaction tagged [transfer], and X16 on a configuration
    checked against a database that lists its two dynasty members in the
    other order. *)
Lemma LoadPayload_InvalidTxPayloadType_iff_witness :
  LoadPayload Fixture.collaborators
    (Fixture.tx_of Fixture.alice Fixture.bob 0 "transfer" [] 2 20000)
  = Fail ErrInvalidTxPayloadType.
Proof.
  apply (proj2 (LoadPayload_InvalidTxPayloadType_iff Fixture.collaborators
                  (Fixture.tx_of Fixture.alice Fixture.bob 0 "transfer" [] 2 20000))).
  repeat split; vm_compute; congruence.
Defined.

Lemma CheckGenesisConfByDB_accepts_iff_witness :
  CheckGenesisConfByDB (Some (mkGenesis 1 ["n2"; "n1"] [])) (mkGenesis 1 ["n1"; "n2"] [])
  = None.
Proof.
  apply (proj2 (CheckGenesisConfByDB_accepts_iff (Some (mkGenesis 1 ["n2"; "n1"] []))
                  (mkGenesis 1 ["n1"; "n2"] []))).
  cbn. repeat split; try reflexivity.
  - intros a [<- | [<- | []]]; auto.
  - intros d [].
Defined.
